(** * The vehicle ("Auto") service: filter builder, read service, write service

    A shallow embedding of the application core of the repository:
    - [WhereBuilder.build] (service/where-builder),
    - [AutoService] (service/auto-service): [findById], [find], [count],
    - [AutoWriteService] (service/auto-write-service): [create], [addFile],
      [update], [delete],
    over an in-memory model of the tables the services reach through Prisma.

    Strings are sequences of code units; the model covers the code units
    below 256.  JavaScript numbers are kept as the exact decimal value their
    text denotes (mantissa and decimal exponent), so no rounding to binary64
    takes place. *)

From Stdlib Require Import String Ascii List ZArith Bool Lia Permutation.
From Stdlib Require Strings.Byte.
From Stdlib Require DecimalString DecimalZ.
Import ListNotations.
Open Scope string_scope.
Open Scope Z_scope.

(* ================================================================== *)
(** ** The JavaScript primitives the services call *)

Module Js.

(** The double quote character, code unit 34. *)
Definition dquote : ascii := Ascii false true false false false true false false.

(** [quoted s] is [s] between two double quotes. *)
Definition quoted (s : string) : string := String dquote (s ++ String dquote "").

Definition code (c : ascii) : Z := Z.of_nat (nat_of_ascii c).

Definition is_digit (c : ascii) : bool := (48 <=? code c) && (code c <=? 57).

(** [String.prototype.toLowerCase] on one code unit: [A-Z] and the upper
    case letters of Latin-1 (0xC0 to 0xDE, without the sign 0xD7) move up
    by 32. *)
Definition lower_char (c : ascii) : ascii :=
  let n := code c in
  if ((65 <=? n) && (n <=? 90))
     || ((192 <=? n) && (n <=? 222) && negb (n =? 215))
  then ascii_of_nat (nat_of_ascii c + 32)
  else c.

Fixpoint toLowerCase (s : string) : string :=
  match s with
  | EmptyString => EmptyString
  | String c r => String (lower_char c) (toLowerCase r)
  end.

(** [String.prototype.toUpperCase] on the letters [a-z]; used on the flag
    names only, which are plain ASCII. *)
Definition upper_char (c : ascii) : ascii :=
  let n := code c in
  if (97 <=? n) && (n <=? 122)
  then ascii_of_nat (nat_of_ascii c - 32)
  else c.

Fixpoint toUpperCase (s : string) : string :=
  match s with
  | EmptyString => EmptyString
  | String c r => String (upper_char c) (toUpperCase r)
  end.

(** [s.slice(start, end)]: negative indices count from the end of [s]. *)
Definition slice (start stop : Z) (s : string) : string :=
  let len := Z.of_nat (String.length s) in
  let from := if start <? 0 then Z.max (len + start) 0 else Z.min start len in
  let to := if stop <? 0 then Z.max (len + stop) 0 else Z.min stop len in
  substring (Z.to_nat from) (Z.to_nat (Z.max (to - from) 0)) s.

(** *** Numbers *)

(** A JavaScript number: [NaN], an infinity, or the finite value
    [mantissa * 10 ^ exponent]. *)
Inductive JsNumber : Type :=
| NaN
| Infinity (negative : bool)
| Finite (mantissa exponent : Z).

Definition of_Z (z : Z) : JsNumber := Finite z 0.

Definition isNaN (n : JsNumber) : bool :=
  match n with NaN => true | _ => false end.

(** [a < b] on numbers; every comparison with [NaN] is false. *)
Definition lt (a b : JsNumber) : bool :=
  match a, b with
  | NaN, _ | _, NaN => false
  | Infinity na, Infinity nb => na && negb nb
  | Infinity na, Finite _ _ => na
  | Finite _ _, Infinity nb => negb nb
  | Finite m1 e1, Finite m2 e2 =>
      let e := Z.min e1 e2 in
      m1 * 10 ^ (e1 - e) <? m2 * 10 ^ (e2 - e)
  end.

(** [a <= b] on numbers. *)
Definition le (a b : JsNumber) : bool :=
  match a, b with
  | NaN, _ | _, NaN => false
  | _, _ => negb (lt b a)
  end.

(** White space that the number parsers skip: TAB, LF, VT, FF, CR, SP, NBSP. *)
Definition is_space (c : ascii) : bool :=
  let n := code c in
  ((9 <=? n) && (n <=? 13)) || (n =? 32) || (n =? 160).

Fixpoint trimStart (s : string) : string :=
  match s with
  | String c r => if is_space c then trimStart r else s
  | EmptyString => EmptyString
  end.

(** The value of a code unit as a digit: [0-9], then [a-z] or [A-Z] for
    10 to 35. *)
Definition digit_value (c : ascii) : option Z :=
  let n := code c in
  if (48 <=? n) && (n <=? 57) then Some (n - 48)
  else if (97 <=? n) && (n <=? 122) then Some (n - 87)
  else if (65 <=? n) && (n <=? 90) then Some (n - 55)
  else None.

(** Reads the longest prefix of digits in base [radix], most significant
    first; [acc] is the value read so far, [seen] whether a digit was read.
    Returns the value, whether a digit was read, and the rest. *)
Fixpoint read_digits (radix : Z) (acc : Z) (seen : bool) (s : string)
  : Z * bool * string :=
  match s with
  | String c r =>
      match digit_value c with
      | Some d =>
          if d <? radix then read_digits radix (acc * radix + d) true r
          else (acc, seen, s)
      | None => (acc, seen, s)
      end
  | EmptyString => (acc, seen, s)
  end.

(** An optional sign: whether it is a minus, and the rest. *)
Definition read_sign (s : string) : bool * string :=
  match s with
  | String "-" r => (true, r)
  | String "+" r => (false, r)
  | _ => (false, s)
  end.

Definition signed (negative : bool) (z : Z) : Z := if negative then - z else z.

(** [Number.parseInt(s, radix)]; [radix = None] is the call with one
    argument, which reads base 10, or base 16 after a [0x] prefix. *)
Definition parseInt (s : string) (radix : option Z) : JsNumber :=
  let (negative, s1) := read_sign (trimStart s) in
  let is_hex :=
    match s1 with
    | String "0" (String "x" _) | String "0" (String "X" _) => true
    | _ => false
    end in
  let strip := match radix with None => true | Some r => (r =? 0) || (r =? 16) end in
  let r :=
    match radix with
    | None => 10
    | Some r => if r =? 0 then 10 else r
    end in
  if (r <? 2) || (36 <? r) then NaN
  else
    let (r, s2) := if strip && is_hex then (16, slice 2 (Z.of_nat (String.length s1)) s1)
                   else (r, s1) in
    let '(value, seen, _) := read_digits r 0 false s2 in
    if seen then of_Z (signed negative value) else NaN.

(** Counts the leading decimal digits of [s]. *)
Fixpoint count_digits (s : string) : nat :=
  match s with
  | String c r => if is_digit c then S (count_digits r) else O
  | EmptyString => O
  end.

(** The exponent part of a decimal literal, [e] or [E], an optional sign
    and at least one digit; 0 when [s] does not start with one. *)
Definition read_exponent (s : string) : Z :=
  match s with
  | String "e" r | String "E" r =>
      let (negative, r1) := read_sign r in
      let '(value, seen, _) := read_digits 10 0 false r1 in
      if seen then signed negative value else 0
  | _ => 0
  end.

(** [Number.parseFloat(s)]: the longest prefix of the trimmed text that is
    a decimal literal. *)
Definition parseFloat (s : string) : JsNumber :=
  let (negative, s1) := read_sign (trimStart s) in
  if prefix "Infinity" s1 then Infinity negative
  else
    let '(int_value, int_seen, s2) := read_digits 10 0 false s1 in
    match s2 with
    | String "." s3 =>
        let '(value, frac_seen, s4) := read_digits 10 int_value false s3 in
        if int_seen || frac_seen
        then Finite (signed negative value)
                    (read_exponent s4 - Z.of_nat (count_digits s3))
        else NaN
    | _ =>
        if int_seen
        then Finite (signed negative int_value) (read_exponent s2)
        else NaN
    end.

End Js.

(* ================================================================== *)
(** ** Data model *)

(** The categories of the enum [Autoart]. *)
Inductive Autoart : Type :=
| SUV | CABRIO | LIMOUSINE | E_AUTO | KOMBI | PICKUP | CROSSOVER.

Definition Autoart_name (a : Autoart) : string :=
  match a with
  | SUV => "SUV"
  | CABRIO => "CABRIO"
  | LIMOUSINE => "LIMOUSINE"
  | E_AUTO => "E_AUTO"
  | KOMBI => "KOMBI"
  | PICKUP => "PICKUP"
  | CROSSOVER => "CROSSOVER"
  end.

(** The registration of a vehicle, created together with it. *)
Record Fahrzeugschein : Type := {
  identifikationsNummer : string;
  erstzulassung : option string;
  gueltigBis : string
}.

(** An equipment item of a vehicle. *)
Record Ausstattung : Type := {
  bezeichnung : string;
  beschreibung : string;
  ausstattung_preis : Js.JsNumber
}.

(** A row of the table [auto] with its registration and equipment, as the
    services read it.  [schlagwoerter = None] is the JSON column holding
    [null]. *)
Record Auto : Type := {
  id : Z;
  version : Z;
  fin : string;
  rating : Z;
  art : option Autoart;
  preis : Js.JsNumber;
  rabatt : Js.JsNumber;
  verfuegbar : bool;
  baujahr : option string;
  homepage : option string;
  schlagwoerter : option (list string);
  fahrzeugschein : option Fahrzeugschein;
  ausstattungen : list Ausstattung
}.

(** A row of the table [auto_file]. *)
Record AutoFile : Type := {
  file_id : Z;
  filename : string;
  data : list Byte.byte;
  mimetype : option string;
  autoId : Z
}.

(** [AutoFileUncheckedCreateInput]: the file to insert. *)
Record AutoFileCreate : Type := {
  f_filename : string;
  f_data : list Byte.byte;
  f_mimetype : option string;
  f_autoId : Z
}.

(** A [Uint8Array]: a window of [byteLength] bytes at [byteOffset] into the
    [ArrayBuffer] [buffer]. *)
Record Uint8Array : Type := {
  buffer : list Byte.byte;
  byteOffset : nat;
  byteLength : nat
}.

(** The bytes that the array shows. *)
Definition bytes_of (a : Uint8Array) : list Byte.byte :=
  firstn (byteLength a) (skipn (byteOffset a) (buffer a)).

(** [Prisma.AutoCreateInput]: the vehicle to insert, with the nested
    [create] of its registration and equipment.  The services test [fin]
    against [undefined], which is [None] here. *)
Record AutoCreate : Type := {
  c_version : Z;
  c_fin : option string;
  c_rating : Z;
  c_art : option Autoart;
  c_preis : Js.JsNumber;
  c_rabatt : Js.JsNumber;
  c_verfuegbar : bool;
  c_baujahr : option string;
  c_homepage : option string;
  c_schlagwoerter : option (list string);
  c_fahrzeugschein : Fahrzeugschein;
  c_ausstattungen : list Ausstattung
}.

(** The value of an [Int] column in an update: a new value or an increment. *)
Inductive IntUpdate : Type :=
| set (value : Z)
| increment (by_ : Z).

(** [Prisma.AutoUpdateInput]: the scalar columns to overwrite; a field that
    is [None] is left as it is. *)
Record AutoUpdate : Type := {
  u_version : option IntUpdate;
  u_fin : option string;
  u_rating : option Z;
  u_art : option (option Autoart);
  u_preis : option Js.JsNumber;
  u_rabatt : option Js.JsNumber;
  u_verfuegbar : option bool;
  u_baujahr : option (option string);
  u_homepage : option (option string);
  u_schlagwoerter : option (option (list string))
}.

(** [auto.version = v] on an update object. *)
Definition with_version (v : IntUpdate) (u : AutoUpdate) : AutoUpdate :=
  {| u_version := Some v;
     u_fin := u_fin u;
     u_rating := u_rating u;
     u_art := u_art u;
     u_preis := u_preis u;
     u_rabatt := u_rabatt u;
     u_verfuegbar := u_verfuegbar u;
     u_baujahr := u_baujahr u;
     u_homepage := u_homepage u;
     u_schlagwoerter := u_schlagwoerter u |}.

(** [Suchparameter]: the search parameters as the entries of the object, in
    the order [Object.keys] and [Object.entries] list them.  Every value is
    the string of the query. *)
Definition Suchparameter : Type := list (string * string).

(** [suchparameter[key]]: the value of a property, [None] for [undefined]. *)
Fixpoint get (key : string) (o : Suchparameter) : option string :=
  match o with
  | [] => None
  | (k, v) :: r => if String.eqb k key then Some v else get key r
  end.

(** [Object.keys(suchparameter)]. *)
Definition keys (o : Suchparameter) : list string := map fst o.

(** Modelled from the spec: the type [Pageable] of service/pageable, page
    number and page size, both natural numbers. *)
Record Pageable : Type := {
  number : nat;
  size : nat
}.

(** Modelled from the spec: the type [Slice] of service/slice, a page of
    results with the total count. *)
Record Slice (A : Type) : Type := {
  content : list A;
  totalElements : nat
}.
Arguments content {A} _.
Arguments totalElements {A} _.

(* ================================================================== *)
(** ** Errors *)

(** The texts of the [NotFoundException]s, each a template with the values
    it interpolates. *)
Inductive Message : Type :=
| KeinAutoMitId (id : option Z)
    (* `Es gibt kein Auto mit der ID ${id}.` *)
| UngueltigeSuchparameter
    (* 'Ungueltige Suchparameter' *)
| KeineAutosGefunden (suchparameter : Suchparameter) (seite : nat)
    (* `Keine Autos gefunden: ${JSON.stringify(suchparameter)}, Seite ${pageable.number}}` *)
| UngueltigeSeite (seite : nat)
    (* `Ungueltige Seite "${number}"` *)
| KeineDatei (id : Z).
    (* `Keine Datei für Auto mit der ID ${id} gefunden.` *)

(** What the database client rejects on its own. *)
Inductive PrismaError : Type :=
| RequiredFieldMissing
| RecordNotFound
| ForeignKeyViolation.

(** The exceptions that leave the services.  Modelled from the spec: the
    classes of service/exceptions, [FinExistsException] carrying the FIN,
    [VersionInvalidException] the raw version string and
    [VersionOutdatedException] the version number. *)
Inductive Exception : Type :=
| NotFoundException (message : Message)
| FinExistsException (fin : string)
| VersionInvalidException (version : string)
| VersionOutdatedException (version : Js.JsNumber)
| PrismaClientError (e : PrismaError).

Inductive Result (A : Type) : Type :=
| Ok (a : A)
| Err (e : Exception).
Arguments Ok {A} _.
Arguments Err {A} _.

(* ================================================================== *)
(** ** The filter that [WhereBuilder] builds *)

Inductive QueryMode : Type := default | insensitive.

(** A [Date] object made with [new Date(text)]; the text is kept and the
    store reads it. *)
Inductive JsDate : Type := new_Date (text : string).

(** The condition on one scalar column. *)
Inductive Filter (A : Type) : Type :=
| equals (value : A)
| gte (value : A)
| lte (value : A).
Arguments equals {A} _.
Arguments gte {A} _.
Arguments lte {A} _.

(** [{ contains, mode }] on a string column. *)
Record StringContains : Type := {
  contains : string;
  mode : QueryMode
}.

(** The condition on the related registration:
    [{ identifikationsNummer: { contains, mode } }]. *)
Record FahrzeugscheinWhere : Type := {
  w_identifikationsNummer : StringContains
}.

(** [{ array_contains }] on the JSON column of the keywords. *)
Record JsonFilter : Type := {
  array_contains : list string
}.

(** [AutoWhereInput]: a property that was never assigned is [None]. *)
Record AutoWhereInput : Type := {
  w_fahrzeugschein : option FahrzeugscheinWhere;
  w_fin : option (Filter string);
  w_rating : option (Filter Js.JsNumber);
  w_preis : option (Filter Js.JsNumber);
  w_art : option (Filter string);
  w_verfuegbar : option (Filter bool);
  w_baujahr : option (Filter JsDate);
  w_homepage : option (Filter string);
  w_schlagwoerter : option JsonFilter
}.

(** [{}] *)
Definition empty_where : AutoWhereInput :=
  {| w_fahrzeugschein := None; w_fin := None; w_rating := None;
     w_preis := None; w_art := None; w_verfuegbar := None;
     w_baujahr := None; w_homepage := None; w_schlagwoerter := None |}.

(** The assignments [where.<property> = ...]. *)
Definition set_fahrzeugschein (w : AutoWhereInput) (f : FahrzeugscheinWhere) :=
  {| w_fahrzeugschein := Some f; w_fin := w_fin w; w_rating := w_rating w;
     w_preis := w_preis w; w_art := w_art w; w_verfuegbar := w_verfuegbar w;
     w_baujahr := w_baujahr w; w_homepage := w_homepage w;
     w_schlagwoerter := w_schlagwoerter w |}.

Definition set_fin (w : AutoWhereInput) (f : Filter string) :=
  {| w_fahrzeugschein := w_fahrzeugschein w; w_fin := Some f;
     w_rating := w_rating w; w_preis := w_preis w; w_art := w_art w;
     w_verfuegbar := w_verfuegbar w; w_baujahr := w_baujahr w;
     w_homepage := w_homepage w; w_schlagwoerter := w_schlagwoerter w |}.

Definition set_rating (w : AutoWhereInput) (f : Filter Js.JsNumber) :=
  {| w_fahrzeugschein := w_fahrzeugschein w; w_fin := w_fin w;
     w_rating := Some f; w_preis := w_preis w; w_art := w_art w;
     w_verfuegbar := w_verfuegbar w; w_baujahr := w_baujahr w;
     w_homepage := w_homepage w; w_schlagwoerter := w_schlagwoerter w |}.

Definition set_preis (w : AutoWhereInput) (f : Filter Js.JsNumber) :=
  {| w_fahrzeugschein := w_fahrzeugschein w; w_fin := w_fin w;
     w_rating := w_rating w; w_preis := Some f; w_art := w_art w;
     w_verfuegbar := w_verfuegbar w; w_baujahr := w_baujahr w;
     w_homepage := w_homepage w; w_schlagwoerter := w_schlagwoerter w |}.

Definition set_art (w : AutoWhereInput) (f : Filter string) :=
  {| w_fahrzeugschein := w_fahrzeugschein w; w_fin := w_fin w;
     w_rating := w_rating w; w_preis := w_preis w; w_art := Some f;
     w_verfuegbar := w_verfuegbar w; w_baujahr := w_baujahr w;
     w_homepage := w_homepage w; w_schlagwoerter := w_schlagwoerter w |}.

Definition set_verfuegbar (w : AutoWhereInput) (f : Filter bool) :=
  {| w_fahrzeugschein := w_fahrzeugschein w; w_fin := w_fin w;
     w_rating := w_rating w; w_preis := w_preis w; w_art := w_art w;
     w_verfuegbar := Some f; w_baujahr := w_baujahr w;
     w_homepage := w_homepage w; w_schlagwoerter := w_schlagwoerter w |}.

Definition set_baujahr (w : AutoWhereInput) (f : Filter JsDate) :=
  {| w_fahrzeugschein := w_fahrzeugschein w; w_fin := w_fin w;
     w_rating := w_rating w; w_preis := w_preis w; w_art := w_art w;
     w_verfuegbar := w_verfuegbar w; w_baujahr := Some f;
     w_homepage := w_homepage w; w_schlagwoerter := w_schlagwoerter w |}.

Definition set_homepage (w : AutoWhereInput) (f : Filter string) :=
  {| w_fahrzeugschein := w_fahrzeugschein w; w_fin := w_fin w;
     w_rating := w_rating w; w_preis := w_preis w; w_art := w_art w;
     w_verfuegbar := w_verfuegbar w; w_baujahr := w_baujahr w;
     w_homepage := Some f; w_schlagwoerter := w_schlagwoerter w |}.

Definition set_schlagwoerter (w : AutoWhereInput) (f : JsonFilter) :=
  {| w_fahrzeugschein := w_fahrzeugschein w; w_fin := w_fin w;
     w_rating := w_rating w; w_preis := w_preis w; w_art := w_art w;
     w_verfuegbar := w_verfuegbar w; w_baujahr := w_baujahr w;
     w_homepage := w_homepage w; w_schlagwoerter := Some f |}.

(* ================================================================== *)
(** ** service/where-builder: the class [WhereBuilder] *)

Module WhereBuilder.

(** The keyword flags that [build] takes out of the search parameters. *)
Record TagFlags : Type := {
  allrad : option string;
  benzin : option string;
  budget : option string;
  business : option string;
  cabrio : option string;
  e_auto : option string;
  einfach : option string;
  familie : option string;
  hybrid : option string;
  komfort : option string;
  kombi : option string;
  nutzfahrzeug : option string;
  pickup : option string;
  reichweite : option string;
  sparsam : option string;
  sport : option string;
  suv : option string;
  tech : option string;
  vier_x_vier : option string
}.

(** [flag?.toLowerCase() === 'true'] *)
Definition is_true (flag : option string) : bool :=
  match flag with
  | Some value => String.eqb (Js.toLowerCase value) "true"
  | None => false
  end.

(** [if (cond) schlagwoerter.push(keyword);]: the list afterwards. *)
Definition push_if (cond : bool) (schlagwoerter : list string) (keyword : string)
  : list string :=
  if cond then schlagwoerter ++ [keyword] else schlagwoerter.

Definition buildSchlagwoerter (t : TagFlags) : list string :=
  let schlagwoerter := [] in
  let schlagwoerter := push_if (is_true (allrad t)) schlagwoerter "ALLRAD" in
  let schlagwoerter := push_if (is_true (benzin t)) schlagwoerter "BENZIN" in
  let schlagwoerter := push_if (is_true (budget t)) schlagwoerter "BUDGET" in
  let schlagwoerter := push_if (is_true (business t)) schlagwoerter "BUSINESS" in
  let schlagwoerter := push_if (is_true (cabrio t)) schlagwoerter "CABRIO" in
  let schlagwoerter := push_if (is_true (e_auto t)) schlagwoerter "E-AUTO" in
  let schlagwoerter := push_if (is_true (einfach t)) schlagwoerter "EINFACH" in
  let schlagwoerter := push_if (is_true (familie t)) schlagwoerter "FAMILIE" in
  let schlagwoerter := push_if (is_true (hybrid t)) schlagwoerter "HYBRID" in
  let schlagwoerter := push_if (is_true (komfort t)) schlagwoerter "KOMFORT" in
  let schlagwoerter := push_if (is_true (kombi t)) schlagwoerter "KOMBI" in
  let schlagwoerter := push_if (is_true (nutzfahrzeug t)) schlagwoerter "NUTZFAHRZEUG" in
  let schlagwoerter := push_if (is_true (pickup t)) schlagwoerter "PICKUP" in
  let schlagwoerter := push_if (is_true (reichweite t)) schlagwoerter "REICHWEITE" in
  let schlagwoerter := push_if (is_true (sparsam t)) schlagwoerter "SPARSAM" in
  let schlagwoerter := push_if (is_true (sport t)) schlagwoerter "SPORT" in
  let schlagwoerter := push_if (is_true (suv t)) schlagwoerter "SUV" in
  let schlagwoerter := push_if (is_true (tech t)) schlagwoerter "TECH" in
  let schlagwoerter := push_if (is_true (vier_x_vier t)) schlagwoerter "4x4" in
  schlagwoerter.

(** The names that the parameter pattern of [build] takes out; every other
    property goes to [restProps]. *)
Definition flag_names : list string :=
  [ "allrad"; "benzin"; "budget"; "business"; "cabrio"; "e_auto"; "einfach";
    "familie"; "hybrid"; "komfort"; "kombi"; "nutzfahrzeug"; "pickup";
    "reichweite"; "sparsam"; "sport"; "suv"; "tech"; "vier_x_vier" ].

Definition is_flag (key : string) : bool := existsb (String.eqb key) flag_names.

(** The destructuring [{ allrad, ..., vier_x_vier, ...restProps }]. *)
Definition flags_of (suchparameter : Suchparameter) : TagFlags :=
  {| allrad := get "allrad" suchparameter;
     benzin := get "benzin" suchparameter;
     budget := get "budget" suchparameter;
     business := get "business" suchparameter;
     cabrio := get "cabrio" suchparameter;
     e_auto := get "e_auto" suchparameter;
     einfach := get "einfach" suchparameter;
     familie := get "familie" suchparameter;
     hybrid := get "hybrid" suchparameter;
     komfort := get "komfort" suchparameter;
     kombi := get "kombi" suchparameter;
     nutzfahrzeug := get "nutzfahrzeug" suchparameter;
     pickup := get "pickup" suchparameter;
     reichweite := get "reichweite" suchparameter;
     sparsam := get "sparsam" suchparameter;
     sport := get "sport" suchparameter;
     suv := get "suv" suchparameter;
     tech := get "tech" suchparameter;
     vier_x_vier := get "vier_x_vier" suchparameter |}.

Definition restProps_of (suchparameter : Suchparameter) : Suchparameter :=
  filter (fun entry => negb (is_flag (fst entry))) suchparameter.

(** The body of the [forEach] over [Object.entries(restProps)]: the
    [switch] on the key. *)
Definition build_entry (where_ : AutoWhereInput) (entry : string * string)
  : AutoWhereInput :=
  let (key, value) := entry in
  if String.eqb key "identifikationsNummer" then
    set_fahrzeugschein where_
      {| w_identifikationsNummer := {| contains := value; mode := insensitive |} |}
  else if String.eqb key "fin" then
    set_fin where_ (equals value)
  else if String.eqb key "rating" then
    let ratingNumber := Js.parseInt value None in
    if negb (Js.isNaN ratingNumber)
    then set_rating where_ (gte ratingNumber)
    else where_
  else if String.eqb key "preis" then
    let preisNumber := Js.parseFloat value in
    if negb (Js.isNaN preisNumber)
    then set_preis where_ (lte preisNumber)
    else where_
  else if String.eqb key "art" then
    set_art where_ (equals value)
  else if String.eqb key "lieferbar" then
    set_verfuegbar where_ (equals (String.eqb (Js.toLowerCase value) "true"))
  else if String.eqb key "verfuegbar" then
    set_verfuegbar where_ (equals (String.eqb (Js.toLowerCase value) "true"))
  else if String.eqb key "baujahr" || String.eqb key "datum" then
    set_baujahr where_ (gte (new_Date value))
  else if String.eqb key "homepage" then
    set_homepage where_ (equals value)
  else
    where_.

Definition build (suchparameter : Suchparameter) : AutoWhereInput :=
  let tags := flags_of suchparameter in
  let restProps := restProps_of suchparameter in
  let where_ := empty_where in
  let where_ := fold_left build_entry restProps where_ in
  let schlagwoerter := buildSchlagwoerter tags in
  if (0 <? Z.of_nat (List.length schlagwoerter))
  then set_schlagwoerter where_ {| array_contains := schlagwoerter |}
  else where_.

End WhereBuilder.

(* ================================================================== *)
(** ** The database and the monad of the services *)

(** The tables, with the sequences that generate the primary keys. *)
Record Store : Type := {
  autos : list Auto;
  auto_seq : Z;
  files : list AutoFile;
  file_seq : Z
}.

(** A computation on the database that returns a value or throws. *)
Definition M (A : Type) : Type := Store -> Result A * Store.

Definition ret {A} (a : A) : M A := fun st => (Ok a, st).

Definition throw {A} (e : Exception) : M A := fun st => (Err e, st).

Definition bind {A B} (m : M A) (k : A -> M B) : M B :=
  fun st =>
    match m st with
    | (Ok a, st') => k a st'
    | (Err e, st') => (Err e, st')
    end.

Notation "x <- m ;; k" := (bind m (fun x => k))
  (at level 61, m at next level, right associativity).
Notation "m ;;; k" := (bind m (fun _ => k))
  (at level 61, right associativity).

(** [prisma.$transaction(async (tx) => body)]: when the body throws, the
    tables are as they were before. *)
Definition transaction {A} (body : M A) : M A :=
  fun st =>
    match body st with
    | (Ok a, st') => (Ok a, st')
    | (Err e, _) => (Err e, st)
    end.

(** What a call of the database client returns: a promise object; the
    query runs when the promise is awaited. *)
Inductive PrismaPromise (A : Type) : Type :=
| Pending (query : M A).
Arguments Pending {A} _.

Definition await {A} (p : PrismaPromise A) : M A :=
  match p with Pending query => query end.

(** [p === null] for a promise object [p]: an object is never [null]. *)
Definition promise_is_null {A} (p : PrismaPromise A) : bool := false.

Module Prisma.

Section Client.

(** How the database decides whether a row satisfies a filter. *)
Variable holds : AutoWhereInput -> Auto -> bool.

(** Whether [auto_file.auto_id] is declared as a foreign key; the schema is
    not part of the sources. *)
Variable foreign_keys : bool.

Definition has_id (i : Z) (a : Auto) : bool := id a =? i.

(** [include: { fahrzeugschein: true }] leaves the equipment out. *)
Definition included (mitAusstattungen : bool) (a : Auto) : Auto :=
  if mitAusstattungen then a
  else
    {| id := id a; version := version a; fin := fin a; rating := rating a;
       art := art a; preis := preis a; rabatt := rabatt a;
       verfuegbar := verfuegbar a; baujahr := baujahr a;
       homepage := homepage a; schlagwoerter := schlagwoerter a;
       fahrzeugschein := fahrzeugschein a; ausstattungen := [] |}.

(** [auto.findUnique({ where: { id }, include })] *)
Definition auto_findUnique (i : Z) (mitAusstattungen : bool)
  : PrismaPromise (option Auto) :=
  Pending (fun st =>
    (Ok (option_map (included mitAusstattungen) (List.find (has_id i) (autos st))), st)).

Definition selected (where_ : option AutoWhereInput) (st : Store) : list Auto :=
  match where_ with
  | Some w => filter (holds w) (autos st)
  | None => autos st
  end.

(** The rows that satisfy [where_], without the first [skip], [take] at
    most. *)
Definition page_rows (where_ : option AutoWhereInput) (skip take : nat)
  (st : Store) : list Auto :=
  firstn take (skipn skip (selected where_ st)).

(** [auto.findMany({ where, skip, take, include: { fahrzeugschein: true } })] *)
Definition auto_findMany (where_ : option AutoWhereInput) (skip take : nat)
  : PrismaPromise (list Auto) :=
  Pending (fun st => (Ok (map (included false) (page_rows where_ skip take st)), st)).

(** [auto.count({ where })] and [auto.count()] *)
Definition auto_count (where_ : option AutoWhereInput) : PrismaPromise nat :=
  Pending (fun st => (Ok (List.length (selected where_ st)), st)).

(** [auto.create({ data, include })]: the row gets the next key. *)
Definition auto_create (d : AutoCreate) : PrismaPromise Auto :=
  Pending (fun st =>
    match c_fin d with
    | None => (Err (PrismaClientError RequiredFieldMissing), st)
    | Some f =>
        let row :=
          {| id := auto_seq st + 1; version := c_version d; fin := f;
             rating := c_rating d; art := c_art d; preis := c_preis d;
             rabatt := c_rabatt d; verfuegbar := c_verfuegbar d;
             baujahr := c_baujahr d; homepage := c_homepage d;
             schlagwoerter := c_schlagwoerter d;
             fahrzeugschein := Some (c_fahrzeugschein d);
             ausstattungen := c_ausstattungen d |} in
        (Ok row,
         {| autos := autos st ++ [row]; auto_seq := auto_seq st + 1;
            files := files st; file_seq := file_seq st |})
    end).

Definition or_old {A} (new : option A) (old : A) : A :=
  match new with Some v => v | None => old end.

(** The row after the update [u]. *)
Definition updated (u : AutoUpdate) (a : Auto) : Auto :=
  {| id := id a;
     version :=
       match u_version u with
       | Some (set v) => v
       | Some (increment k) => version a + k
       | None => version a
       end;
     fin := or_old (u_fin u) (fin a);
     rating := or_old (u_rating u) (rating a);
     art := or_old (u_art u) (art a);
     preis := or_old (u_preis u) (preis a);
     rabatt := or_old (u_rabatt u) (rabatt a);
     verfuegbar := or_old (u_verfuegbar u) (verfuegbar a);
     baujahr := or_old (u_baujahr u) (baujahr a);
     homepage := or_old (u_homepage u) (homepage a);
     schlagwoerter := or_old (u_schlagwoerter u) (schlagwoerter a);
     fahrzeugschein := fahrzeugschein a;
     ausstattungen := ausstattungen a |}.

(** [auto.update({ data, where: { id } })] *)
Definition auto_update (u : AutoUpdate) (i : Z) : PrismaPromise Auto :=
  Pending (fun st =>
    match List.find (has_id i) (autos st) with
    | None => (Err (PrismaClientError RecordNotFound), st)
    | Some a =>
        (Ok (included false (updated u a)),
         {| autos := map (fun r => if has_id i r then updated u r else r) (autos st);
            auto_seq := auto_seq st;
            files := files st; file_seq := file_seq st |})
    end).

(** [auto.delete({ where: { id } })]; the file of the vehicle goes with it. *)
Definition auto_delete (i : Z) : PrismaPromise unit :=
  Pending (fun st =>
    match List.find (has_id i) (autos st) with
    | None => (Err (PrismaClientError RecordNotFound), st)
    | Some _ =>
        (Ok tt,
         {| autos := filter (fun r => negb (has_id i r)) (autos st);
            auto_seq := auto_seq st;
            files := filter (fun f => negb (autoId f =? i)) (files st);
            file_seq := file_seq st |})
    end).

(** [autoFile.findUnique({ where: { autoId } })] *)
Definition autoFile_findUnique (i : Z) : PrismaPromise (option AutoFile) :=
  Pending (fun st => (Ok (List.find (fun f => autoId f =? i) (files st)), st)).

(** [autoFile.deleteMany({ where: { autoId } })] *)
Definition autoFile_deleteMany (i : Z) : PrismaPromise unit :=
  Pending (fun st =>
    (Ok tt,
     {| autos := autos st; auto_seq := auto_seq st;
        files := filter (fun f => negb (autoId f =? i)) (files st);
        file_seq := file_seq st |})).

(** [autoFile.create({ data })]: the row gets the next key; with the
    foreign key declared, a file for a vehicle that does not exist is
    rejected. *)
Definition autoFile_create (d : AutoFileCreate) : PrismaPromise AutoFile :=
  Pending (fun st =>
    if foreign_keys && negb (existsb (has_id (f_autoId d)) (autos st))
    then (Err (PrismaClientError ForeignKeyViolation), st)
    else
      let row :=
        {| file_id := file_seq st + 1; filename := f_filename d;
           data := f_data d; mimetype := f_mimetype d;
           autoId := f_autoId d |} in
      (Ok row,
       {| autos := autos st; auto_seq := auto_seq st;
          files := files st ++ [row]; file_seq := file_seq st + 1 |})).

End Client.

End Prisma.

(* ================================================================== *)
(** ** service/suchparameter *)

(** The valid names of the search parameters. *)
Definition suchparameterNamen : list string :=
  [ "fin"; "rating"; "art"; "preis"; "rabatt"; "verfuegbar"; "baujahr";
    "homepage"; "schlagwoerter"; "identifikationsNummer" ].

(** [array.includes(key)] *)
Definition includes (l : list string) (key : string) : bool :=
  existsb (String.eqb key) l.

(** [a !== b] on strings. *)
Definition neqb (a b : string) : bool := negb (String.eqb a b).

(* ================================================================== *)
(** ** service/auto-service: the class [AutoService] *)

Module AutoService.

(** [auto.schlagwoerter ??= []] *)
Definition default_schlagwoerter (a : Auto) : Auto :=
  match schlagwoerter a with
  | Some _ => a
  | None =>
      {| id := id a; version := version a; fin := fin a; rating := rating a;
         art := art a; preis := preis a; rabatt := rabatt a;
         verfuegbar := verfuegbar a; baujahr := baujahr a;
         homepage := homepage a; schlagwoerter := Some [];
         fahrzeugschein := fahrzeugschein a;
         ausstattungen := ausstattungen a |}
  end.

Definition checkKeys (keys : list string) : bool :=
  let validKeys := true in
  fold_left
    (fun validKeys key =>
       if negb (includes suchparameterNamen key)
          && neqb key "allrad"
          && neqb key "benzin"
          && neqb key "budget"
          && neqb key "business"
          && neqb key "cabrio"
          && neqb key "e_auto"
          && neqb key "einfach"
          && neqb key "familie"
          && neqb key "hybrid"
          && neqb key "komfort"
          && neqb key "kombi"
          && neqb key "nutzfahrzeug"
          && neqb key "pickup"
          && neqb key "reichweite"
          && neqb key "sparsam"
          && neqb key "sport"
          && neqb key "suv"
          && neqb key "tech"
          && neqb key "vier_x_vier"
       then false
       else validKeys)
    keys validKeys.

Definition checkEnums (suchparameter : Suchparameter) : bool :=
  match get "art" suchparameter with
  | None => true
  | Some art =>
      String.eqb art "SUV"
      || String.eqb art "CABRIO"
      || String.eqb art "LIMOUSINE"
      || String.eqb art "E_AUTO"
      || String.eqb art "KOMBI"
      || String.eqb art "PICKUP"
      || String.eqb art "CROSSOVER"
  end.

Definition createSlice (autos : list Auto) (totalElements : nat) : Slice Auto :=
  let autos := map default_schlagwoerter autos in
  {| content := autos; totalElements := totalElements |}.

Section Service.

Variable holds : AutoWhereInput -> Auto -> bool.

Definition findById (id : Z) (mitAusstattungen : bool) : M Auto :=
  auto <- await (Prisma.auto_findUnique id mitAusstattungen) ;;
  match auto with
  | None => throw (NotFoundException (KeinAutoMitId (Some id)))
  | Some auto => ret (default_schlagwoerter auto)
  end.

Definition count : M nat :=
  count <- await (Prisma.auto_count holds None) ;;
  ret count.

Definition findAll (pageable : Pageable) : M (Slice Auto) :=
  autos <- await (Prisma.auto_findMany holds None
                    (number pageable * size pageable) (size pageable)) ;;
  if (List.length autos =? 0)%nat
  then throw (NotFoundException (UngueltigeSeite (number pageable)))
  else
    totalElements <- count ;;
    ret (createSlice autos totalElements).

Definition find (suchparameter : option Suchparameter) (pageable : Pageable)
  : M (Slice Auto) :=
  match suchparameter with
  | None => findAll pageable
  | Some suchparameter =>
      let keys := keys suchparameter in
      if (List.length keys =? 0)%nat then findAll pageable
      else if negb (checkKeys keys) || negb (checkEnums suchparameter)
      then throw (NotFoundException UngueltigeSuchparameter)
      else
        let where_ := WhereBuilder.build suchparameter in
        autos <- await (Prisma.auto_findMany holds (Some where_)
                          (number pageable * size pageable) (size pageable)) ;;
        if (List.length autos =? 0)%nat
        then throw (NotFoundException
                      (KeineAutosGefunden suchparameter (number pageable)))
        else
          totalElements <- count ;;
          ret (createSlice autos totalElements)
  end.

Definition findFileByAutoId (id : Z) : M AutoFile :=
  auto <- await (Prisma.auto_findUnique id false) ;;
  match auto with
  | None => throw (NotFoundException (KeinAutoMitId (Some id)))
  | Some _ =>
      file <- await (Prisma.autoFile_findUnique id) ;;
      match file with
      | None => throw (NotFoundException (KeineDatei id))
      | Some file => ret file
      end
  end.

End Service.

End AutoService.

(* ================================================================== *)
(** ** service/auto-write-service: the class [AutoWriteService] *)

Module AutoWriteService.

(** After the opening quote and a first digit: up to [more] further
    digits, then the closing quote. *)
Fixpoint digits_then_quote (more : nat) (s : string) {struct s} : bool :=
  match s with
  | String c r =>
      if Ascii.eqb c Js.dquote then true
      else if Js.is_digit c then
        match more with
        | S m => digits_then_quote m r
        | O => false
        end
      else false
  | EmptyString => false
  end.

(** [VERSION_PATTERN.test(s)] for the pattern [/^"\d{1,3}"/u]: the start of
    the string, a quote, one to three digits and a quote.  The pattern
    does not end in [$], so anything may follow. *)
Definition VERSION_PATTERN_test (s : string) : bool :=
  match s with
  | String q (String d r) =>
      Ascii.eqb q Js.dquote && Js.is_digit d && digits_then_quote 2 r
  | _ => false
  end.

Section Service.

Variable holds : AutoWhereInput -> Auto -> bool.

Variable foreign_keys : bool.

(** [fileTypeFromBuffer] of the package file-type: the MIME type that the
    first bytes give away, if any. *)
Variable fileTypeFromBuffer : list Byte.byte -> option string.

Definition validateCreate (auto : AutoCreate) : M unit :=
  match c_fin auto with
  | None => ret tt
  | Some fin =>
      anzahl <- await (Prisma.auto_count holds
                         (Some (set_fin empty_where (equals fin)))) ;;
      if (0 <? anzahl)%nat
      then throw (FinExistsException fin)
      else ret tt
  end.

Definition create (auto : AutoCreate) : M Js.JsNumber :=
  validateCreate auto ;;;
  autoDb <- transaction (
    autoDb <- await (Prisma.auto_create auto) ;;
    ret (Some autoDb)) ;;
  ret (match autoDb with
       | Some autoDb => Js.of_Z (id autoDb)
       | None => Js.NaN
       end).

Definition addFile (autoId : Z) (data : Uint8Array) (filename : string)
  (size : Z) : M (option AutoFile) :=
  autoFileCreated <- transaction (
    (* not awaited *)
    let auto := Prisma.auto_findUnique autoId false in
    if promise_is_null auto
    then throw (NotFoundException (KeinAutoMitId (Some autoId)))
    else
      await (Prisma.autoFile_deleteMany autoId) ;;;
      let fileType := fileTypeFromBuffer (bytes_of data) in
      let mimetype := fileType in
      let safeData := buffer data in
      let autoFile :=
        {| f_filename := filename; f_data := safeData;
           f_mimetype := mimetype; f_autoId := autoId |} in
      autoFileCreated <- await (Prisma.autoFile_create foreign_keys autoFile) ;;
      ret (Some autoFileCreated)) ;;
  ret autoFileCreated.

Definition validateUpdate (id : Z) (versionStr : string) : M unit :=
  if negb (VERSION_PATTERN_test versionStr)
  then throw (VersionInvalidException versionStr)
  else
    let version_ := Js.parseInt (Js.slice 1 (-1) versionStr) (Some 10) in
    autoDb <- AutoService.findById id false ;;
    if Js.lt version_ (Js.of_Z (version autoDb))
    then throw (VersionOutdatedException version_)
    else ret tt.

Definition update (id : option Z) (auto : AutoUpdate) (version_ : string)
  : M Js.JsNumber :=
  match id with
  | None => throw (NotFoundException (KeinAutoMitId None))
  | Some id =>
      validateUpdate id version_ ;;;
      let auto := with_version (increment 1) auto in
      autoUpdated <- transaction (
        autoUpdated <- await (Prisma.auto_update auto id) ;;
        ret (Some autoUpdated)) ;;
      ret (match autoUpdated with
           | Some autoUpdated => Js.of_Z (version autoUpdated)
           | None => Js.NaN
           end)
  end.

Definition delete (id : Z) : M bool :=
  auto <- await (Prisma.auto_findUnique id false) ;;
  match auto with
  | None => ret false
  | Some _ =>
      transaction (await (Prisma.auto_delete id)) ;;;
      ret true
  end.

End Service.

End AutoWriteService.

(* ================================================================== *)
(** ** A database for the examples *)

Module Example_db.

(** A reading of the filters for the examples: string columns compare as
    text, dates as ISO 8601 text, and the keywords as a set. *)
Fixpoint is_substring (needle s : string) : bool :=
  prefix needle s
  || match s with
     | String _ r => is_substring needle r
     | EmptyString => false
     end.

Definition string_filter (f : Filter string) (v : string) : bool :=
  match f with
  | equals x => String.eqb v x
  | gte x => String.leb x v
  | lte x => String.leb v x
  end.

Definition number_filter (f : Filter Js.JsNumber) (v : Js.JsNumber) : bool :=
  match f with
  | equals x => Js.le x v && Js.le v x
  | gte x => Js.le x v
  | lte x => Js.le v x
  end.

Definition on {A} (f : option A) (test : A -> bool) : bool :=
  match f with
  | Some x => test x
  | None => true
  end.

Definition present {A} (v : option A) (test : A -> bool) : bool :=
  match v with
  | Some x => test x
  | None => false
  end.

Definition holds (w : AutoWhereInput) (a : Auto) : bool :=
  on (w_fahrzeugschein w) (fun f =>
    present (fahrzeugschein a) (fun s =>
      is_substring (Js.toLowerCase (contains (w_identifikationsNummer f)))
                   (Js.toLowerCase (identifikationsNummer s))))
  && on (w_fin w) (fun f => string_filter f (fin a))
  && on (w_rating w) (fun f => number_filter f (Js.of_Z (rating a)))
  && on (w_preis w) (fun f => number_filter f (preis a))
  && on (w_art w) (fun f =>
       present (art a) (fun k => string_filter f (Autoart_name k)))
  && on (w_verfuegbar w) (fun f =>
       match f with
       | equals b => Bool.eqb (verfuegbar a) b
       | _ => false
       end)
  && on (w_baujahr w) (fun f =>
       present (baujahr a) (fun d =>
         match f with
         | equals (new_Date t) => String.eqb d t
         | gte (new_Date t) => String.leb t d
         | lte (new_Date t) => String.leb d t
         end))
  && on (w_homepage w) (fun f => present (homepage a) (string_filter f))
  && on (w_schlagwoerter w) (fun f =>
       present (schlagwoerter a) (fun ks =>
         forallb (fun k => existsb (String.eqb k) ks) (array_contains f))).

Definition schein (nr : string) : Fahrzeugschein :=
  {| identifikationsNummer := nr; erstzulassung := Some "2021-03-01";
     gueltigBis := "2031-03-01" |}.

Definition auto1 : Auto :=
  {| id := 1; version := 0; fin := "WDB123456789XYZ01"; rating := 4;
     art := Some SUV; preis := Js.Finite 3500050 (-2);
     rabatt := Js.Finite 5 (-2); verfuegbar := true;
     baujahr := Some "2021-01-31"; homepage := Some "https://test.de/";
     schlagwoerter := Some ["SUV"; "ALLRAD"];
     fahrzeugschein := Some (schein "KA-AB123"); ausstattungen := [] |}.

Definition auto2 : Auto :=
  {| id := 2; version := 3; fin := "HYU12398765412TUC"; rating := 2;
     art := Some KOMBI; preis := Js.Finite 19990 0;
     rabatt := Js.Finite 0 0; verfuegbar := false;
     baujahr := Some "2018-06-15"; homepage := None;
     schlagwoerter := None;
     fahrzeugschein := Some (schein "S-XY9"); ausstattungen := [] |}.

Definition auto3 : Auto :=
  {| id := 3; version := 1; fin := "VWV11122233344455"; rating := 5;
     art := Some E_AUTO; preis := Js.Finite 4200000 (-2);
     rabatt := Js.Finite 1 (-1); verfuegbar := true;
     baujahr := Some "2023-09-01"; homepage := None;
     schlagwoerter := Some ["E-AUTO"; "TECH"];
     fahrzeugschein := Some (schein "M-E1"); ausstattungen := [] |}.

Definition db : Store :=
  {| autos := [auto1; auto2; auto3]; auto_seq := 3; files := []; file_seq := 0 |}.

Definition page0 : Pageable := {| number := 0; size := 5 |}.

Definition png : Uint8Array :=
  {| buffer := [Byte.x89; Byte.x50; Byte.x4e; Byte.x47];
     byteOffset := 0; byteLength := 4 |}.

(** Tells a PNG by its first four bytes, nothing else. *)
Definition sniff (bytes : list Byte.byte) : option string :=
  match bytes with
  | Byte.x89 :: Byte.x50 :: Byte.x4e :: Byte.x47 :: _ => Some "image/png"
  | _ => None
  end.

Definition neu : AutoCreate :=
  {| c_version := 0; c_fin := Some "HUN12345678923451"; c_rating := 1;
     c_art := Some LIMOUSINE; c_preis := Js.Finite 9999 (-2);
     c_rabatt := Js.Finite 0 0; c_verfuegbar := true;
     c_baujahr := Some "2022-02-28"; c_homepage := None;
     c_schlagwoerter := Some ["BUDGET"];
     c_fahrzeugschein := schein "HN-Z77"; c_ausstattungen := [] |}.

Definition geaendert : AutoUpdate :=
  {| u_version := Some (set 0); u_fin := Some "WDB123456789XYZ01";
     u_rating := Some 3; u_art := Some (Some SUV);
     u_preis := Some (Js.Finite 33333 0); u_rabatt := Some (Js.Finite 0 0);
     u_verfuegbar := Some true; u_baujahr := Some (Some "2021-01-31");
     u_homepage := Some None; u_schlagwoerter := Some (Some ["SUV"]) |}.

End Example_db.

(* ================================================================== *)
(** ** controller/auto-dto, controller/ausstattung-dto,
       controller/fahrzeugschein-dto: the entity classes and their
       validators *)

Module Dto.

(** [FahrzeugscheinDTO] *)
Record FahrzeugscheinDTO : Type := {
  d_identifikationsNummer : string;
  d_erstzulassung : option string;
  d_gueltigBis : string
}.

(** [AusstattungDTO] *)
Record AusstattungDTO : Type := {
  d_bezeichnung : string;
  d_beschreibung : string;
  d_ausstattung_preis : Js.JsNumber
}.

(** [AutoDtoOhneRef]; a property that may be [undefined] is an option. *)
Record AutoDtoOhneRef : Type := {
  d_fin : string;
  d_rating : Z;
  d_art : option Autoart;
  d_preis : Js.JsNumber;
  d_rabatt : option Js.JsNumber;
  d_verfuegbar : option bool;
  d_baujahr : option string;
  d_homepage : option string;
  d_schlagwoerter : option (list string)
}.

(** [AutoDTO extends AutoDtoOhneRef] *)
Record AutoDTO : Type := {
  ohne_ref : AutoDtoOhneRef;
  d_fahrzeugschein : FahrzeugscheinDTO;
  d_ausstattungen : option (list AusstattungDTO)
}.

(** [a ?? b] *)
Definition nullish {A} (a : option A) (b : A) : A :=
  match a with
  | Some x => x
  | None => b
  end.

(** [DecimalMin.validate] of auto-dto: [value.isGreaterThan(minValue)];
    a comparison with the missing constraint is a comparison with [NaN]. *)
Definition DecimalMin_validate (value : option Js.JsNumber)
  (constraints : list Js.JsNumber) : bool :=
  match value with
  | None => true
  | Some value =>
      match constraints with
      | minValue :: _ => Js.lt minValue value
      | [] => false
      end
  end.

(** [DecimalMax.validate] of auto-dto: [value.isLessThan(maxValue)]. *)
Definition DecimalMax_validate (value : option Js.JsNumber)
  (constraints : list Js.JsNumber) : bool :=
  match value with
  | None => true
  | Some value =>
      match constraints with
      | maxValue :: _ => Js.lt value maxValue
      | [] => false
      end
  end.

(** [DecimalMin.validate] of ausstattung-dto:
    [value.greaterThanOrEqualTo(minValue)], and [true] without a
    constraint. *)
Definition Ausstattung_DecimalMin_validate (value : option Js.JsNumber)
  (constraints : list Js.JsNumber) : bool :=
  match value with
  | None => true
  | Some value =>
      match constraints with
      | minValue :: _ => Js.le minValue value
      | [] => true
      end
  end.

(** The validators of [preis] and [rabatt] in [AutoDtoOhneRef]; [rabatt] is
    optional. *)
Definition preis_valid (preis : Js.JsNumber) : bool :=
  DecimalMin_validate (Some preis) [Js.of_Z 0].

Definition rabatt_valid (rabatt : option Js.JsNumber) : bool :=
  DecimalMin_validate rabatt [Js.of_Z 0]
  && DecimalMax_validate rabatt [Js.of_Z 1].

(** Reads up to [max] code units that satisfy [class]: how many, and the
    rest. *)
Fixpoint read_class (class : ascii -> bool) (max : nat) (s : string)
  : nat * string :=
  match max, s with
  | S m, String c r =>
      if class c then let (n, rest) := read_class class m r in (S n, rest)
      else (O, s)
  | _, _ => (O, s)
  end.

(** [[A-Z]] *)
Definition is_upper (c : ascii) : bool :=
  (65 <=? Js.code c) && (Js.code c <=? 90).

(** [[A-ZÄÖÜ]]: the umlauts are the code units 196, 214 and 220. *)
Definition is_upper_umlaut (c : ascii) : bool :=
  is_upper c || (Js.code c =? 196) || (Js.code c =? 214) || (Js.code c =? 220).

(** [pattern.test(s)] for the pattern
    [/^[A-ZÄÖÜ]{1,3}-[A-Z]{1,3}\d{1,4}$/] of [identifikationsNummer].  No
    class contains the character that has to follow it, so taking as many
    code units as the class and the bound allow loses no match. *)
Definition identifikationsNummer_matches (s : string) : bool :=
  let (n1, r1) := read_class is_upper_umlaut 3 s in
  match r1 with
  | String "-" r2 =>
      let (n2, r3) := read_class is_upper 3 r2 in
      let (n3, r4) := read_class Js.is_digit 4 r3 in
      (1 <=? n1)%nat && (1 <=? n2)%nat && (1 <=? n3)%nat && String.eqb r4 ""
  | _ => false
  end.

(** [@MaxLength(max)] *)
Definition MaxLength (max : nat) (s : string) : bool :=
  (String.length s <=? max)%nat.

(** The two validators of [identifikationsNummer]. *)
Definition identifikationsNummer_valid (s : string) : bool :=
  identifikationsNummer_matches s && MaxLength 10 s.

End Dto.

(* ================================================================== *)
(** ** controller/auto-write-controller: from the entity classes to the
       input of the write service *)

Module AutoWriteController.

Import Dto.

Section Conversions.

(** [BigNumber.prototype.toNumber]: the nearest JavaScript number; the
    rounding is not part of this model. *)
Variable toNumber : Js.JsNumber -> Js.JsNumber.


Definition autoDtoToAutoUpdate (autoDTO : AutoDtoOhneRef) : AutoUpdate :=
  {| u_version := Some (set 0);
     u_fin := Some (d_fin autoDTO);
     u_rating := Some (d_rating autoDTO);
     u_art := Some (d_art autoDTO);
     u_preis := Some (toNumber (d_preis autoDTO));
     u_rabatt :=
       Some (nullish (option_map toNumber (d_rabatt autoDTO)) (Js.of_Z 0));
     u_verfuegbar := Some (nullish (d_verfuegbar autoDTO) false);
     u_baujahr := Some (d_baujahr autoDTO);
     u_homepage := Some (d_homepage autoDTO);
     u_schlagwoerter := Some (Some (nullish (d_schlagwoerter autoDTO) [])) |}.

End Conversions.

End AutoWriteController.

(* ================================================================== *)
(** ** controller/auto-controller: reading one vehicle over REST *)

Module AutoController.

(** The text of an integer in a template literal, as in [`${versionDb}`]:
    the decimal digits, after a minus sign below 0. *)
Definition Number_toString (z : Z) : string :=
  DecimalString.NilZero.string_of_int (Z.to_int z).

(** The members of [HttpStatus] that [getById] sends. *)
Inductive HttpStatus : Type := NOT_ACCEPTABLE | NOT_MODIFIED.

(** What [getById] does with the response: [res.sendStatus(status)], or
    [res.header('ETag', etag)] and then [res.json(auto)]. *)
Inductive Response : Type :=
| sendStatus (status : HttpStatus)
| json (etag : string) (auto : Auto).

(** [getById]; [accepted] is what [req.accepts(['json', 'html'])] found,
    [version_] the header [If-None-Match], if any. *)
Definition getById (id : Z) (accepted : bool) (version_ : option string)
  : M Response :=
  if negb accepted then ret (sendStatus NOT_ACCEPTABLE)
  else
    auto <- AutoService.findById id false ;;
    let versionDb := version auto in
    if match version_ with
       | Some v => String.eqb v (Js.quoted (Number_toString versionDb))
       | None => false
       end
    then ret (sendStatus NOT_MODIFIED)
    else ret (json (Js.quoted (Number_toString versionDb)) auto).

End AutoController.

(** An entity for the examples, with the optional properties left out. *)
Definition dto_min : Dto.AutoDTO :=
  {| Dto.ohne_ref :=
       {| Dto.d_fin := "WBA11122233344455"; Dto.d_rating := 2;
          Dto.d_art := None; Dto.d_preis := Js.Finite 9990 0;
          Dto.d_rabatt := None; Dto.d_verfuegbar := None;
          Dto.d_baujahr := None; Dto.d_homepage := None;
          Dto.d_schlagwoerter := None |};
     Dto.d_fahrzeugschein :=
       {| Dto.d_identifikationsNummer := "KA-XY1";
          Dto.d_erstzulassung := Some "2020-05-05";
          Dto.d_gueltigBis := "2030-05-05" |};
     Dto.d_ausstattungen := None |}.

(* ================================================================== *)
(** ** The notions that the properties are stated with *)

(** A text of decimal digits only. *)
Fixpoint all_digits (s : string) : bool :=
  match s with
  | EmptyString => true
  | String c r => Js.is_digit c && all_digits r
  end.

(** The number that a text of decimal digits denotes, after the digits
    read so far came to [acc]. *)
Fixpoint decimal_value (acc : Z) (s : string) : Z :=
  match s with
  | EmptyString => acc
  | String c r => decimal_value (acc * 10 + (Js.code c - 48)) r
  end.

(** The table [auto] after the update [u] of the rows with the key [i]. *)
Definition autos_updated (u : AutoUpdate) (i : Z) (st : Store) : Store :=
  {| autos := map (fun r => if Prisma.has_id i r then Prisma.updated u r else r) (autos st);
     auto_seq := auto_seq st; files := files st; file_seq := file_seq st |}.

(** The number that [auto.count({ where: { fin } })] reports. *)
Definition fin_count (holds : AutoWhereInput -> Auto -> bool)
  (f : string) (st : Store) : nat :=
  List.length (Prisma.selected holds (Some (set_fin empty_where (equals f))) st).

(** The row that [create] inserts for [d] with the FIN [f]. *)
Definition created_row (d : AutoCreate) (f : string) (st : Store) : Auto :=
  {| id := auto_seq st + 1; version := c_version d; fin := f;
     rating := c_rating d; art := c_art d; preis := c_preis d;
     rabatt := c_rabatt d; verfuegbar := c_verfuegbar d;
     baujahr := c_baujahr d; homepage := c_homepage d;
     schlagwoerter := c_schlagwoerter d;
     fahrzeugschein := Some (c_fahrzeugschein d);
     ausstattungen := c_ausstattungen d |}.

(** The keywords of a row as they are read: the empty list for [null]. *)
Definition keywords (a : Auto) : list string :=
  match schlagwoerter a with
  | Some ks => ks
  | None => []
  end.

(** The page of rows that a search asks the database for: the filter of
    the builder, or none for the listing of all vehicles. *)
Definition requested_page (holds : AutoWhereInput -> Auto -> bool)
  (where_ : option AutoWhereInput) (p : Pageable)
  (st : Store) : list Auto :=
  Prisma.page_rows holds where_ (number p * size p) (size p) st.

(** What [find] returns from a page of rows. *)
Definition slice_or (empty : Message) (rows : list Auto) (st : Store)
  : Result (Slice Auto) * Store :=
  match rows with
  | [] => (Err (NotFoundException empty), st)
  | _ :: _ =>
      (Ok {| content := map AutoService.default_schlagwoerter
                          (map (Prisma.included false) rows);
             totalElements := List.length (autos st) |}, st)
  end.

(** The filter that a search stands for: none without parameters. *)
Definition where_of (sp : option Suchparameter) : option AutoWhereInput :=
  match sp with
  | None | Some [] => None
  | Some q => Some (WhereBuilder.build q)
  end.

(** A key that [checkKeys] lets pass: a name of [suchparameterNamen] or a
    flag. *)
Definition key_ok (key : string) : bool :=
  includes suchparameterNamen key || WhereBuilder.is_flag key.

(** The comparison parameters of the table of the specification, with the
    aliases [lieferbar] and [datum]. *)
Definition table_parameters : list string :=
  [ "identifikationsNummer"; "fin"; "rating"; "preis"; "art"; "verfuegbar";
    "lieferbar"; "baujahr"; "datum"; "homepage" ].

(** A key of the vocabulary of the specification: a parameter of the table
    or a flag. *)
Definition in_vocabulary (key : string) : Prop :=
  In key table_parameters \/ In key WhereBuilder.flag_names.

(** The search failed with 'Ungueltige Suchparameter'. *)
Definition invalid_parameters {A} (r : Result A * Store) : Prop :=
  fst r = Err (NotFoundException UngueltigeSuchparameter).

(** The statement on the vocabulary as the specification has it, for one
    search. *)
Definition vocabulary_statement (holds : AutoWhereInput -> Auto -> bool)
  (sp : Suchparameter) (p : Pageable) (st : Store) : Prop :=
  let r := AutoService.find holds (Some sp) p st in
  (Forall in_vocabulary (keys sp) -> ~ invalid_parameters r)
  /\ (Exists (fun k => ~ in_vocabulary k) (keys sp) ->
      exists m, fst r = Err (NotFoundException m)).

(** The keyword of a flag, as the specification has it: the name in upper
    case, but [E-AUTO] for [e_auto] and [4x4] for [vier_x_vier]. *)
Definition keyword_of (flag : string) : string :=
  if String.eqb flag "e_auto" then "E-AUTO"
  else if String.eqb flag "vier_x_vier" then "4x4"
  else Js.toUpperCase flag.

(** The flag is given and its value is [true] in some mix of upper and
    lower case. *)
Definition flag_set (sp : Suchparameter) (flag : string) : Prop :=
  exists v, get flag sp = Some v /\ Js.toLowerCase v = "true".

(** The keywords that [build] collects for the search parameters. *)
Definition required_keywords (sp : Suchparameter) : list string :=
  WhereBuilder.buildSchlagwoerter (WhereBuilder.flags_of sp).

(** The keywords by the table: one pass over the flags. *)
Definition keywords_by_table (sp : Suchparameter) : list string :=
  flat_map
    (fun flag =>
       if WhereBuilder.is_true (get flag sp) then [keyword_of flag] else [])
    WhereBuilder.flag_names.

(** The search parameters without the property [key]. *)
Definition without (key : string) (sp : Suchparameter) : Suchparameter :=
  filter (fun e => negb (String.eqb (fst e) key)) sp.

(** Finds an element in a list that is written out. *)
Ltac in_list := simpl; repeat (try (left; reflexivity); right).

(** Takes the [switch] of [build_entry] apart. *)
Ltac switch_cases :=
  repeat match goal with
         | |- context [if ?c then _ else _] => destruct c eqn:?
         end.

(** A vehicle that was updated a thousand times. *)
Definition auto1000 : Auto :=
  {| id := 7; version := 1000; fin := "ZZZ99988877766655"; rating := 3;
     art := None; preis := Js.Finite 15000 0; rabatt := Js.Finite 0 0;
     verfuegbar := true; baujahr := None; homepage := None;
     schlagwoerter := Some [];
     fahrzeugschein := Some (Example_db.schein "F-Z1"); ausstattungen := [] |}.

Definition db1000 : Store :=
  {| autos := [auto1000]; auto_seq := 7; files := []; file_seq := 0 |}.

(** The vehicle 1 has a file. *)
Definition db_file : Store :=
  {| autos := autos Example_db.db; auto_seq := 3;
     files := [ {| file_id := 1; filename := "alt.jpg"; data := [Byte.xff];
                   mimetype := Some "image/jpeg"; autoId := 1 |};
                {| file_id := 2; filename := "drei.png"; data := [Byte.x89];
                   mimetype := None; autoId := 3 |} ];
     file_seq := 2 |}.

(** A window of two bytes into a buffer of six. *)
Definition window : Uint8Array :=
  {| buffer := [Byte.x00; Byte.x01; Byte.x89; Byte.x50; Byte.x02; Byte.x03];
     byteOffset := 2; byteLength := 2 |}.

(** The vehicles of a result of [find], none when it threw. *)
Definition content_of (r : Result (Slice Auto) * Store) : list Auto :=
  match fst r with
  | Ok s => content s
  | Err _ => []
  end.

(** The vehicles of the pages 0 to [k - 1] of a search with pages of
    [size_] vehicles, one after the other. *)
Definition pages_upto (holds : AutoWhereInput -> Auto -> bool)
  (sp : option Suchparameter) (size_ k : nat) (st : Store) : list Auto :=
  flat_map
    (fun n => content_of (AutoService.find holds sp {| number := n; size := size_ |} st))
    (seq 0 k).

(** A vehicle as the read service hands it out: without equipment, with
    a list of keywords. *)
Definition as_read (a : Auto) : Auto :=
  AutoService.default_schlagwoerter (Prisma.included false a).

(** The search parameters pass the checks of [find]. *)
Definition checked (sp : option Suchparameter) : bool :=
  match sp with
  | Some q => AutoService.checkKeys (keys q) && AutoService.checkEnums q
  | None => true
  end.

(** The entity tag of a version: the number between quotes. *)
Definition etag_of (v : Z) : string :=
  Js.quoted (AutoController.Number_toString v).

(** The text of [v] is one to three digits that denote [v]. *)
Definition three_digits (v : Z) : bool :=
  all_digits (AutoController.Number_toString v)
  && (1 <=? String.length (AutoController.Number_toString v))%nat
  && (String.length (AutoController.Number_toString v) <=? 3)%nat
  && (decimal_value 0 (AutoController.Number_toString v) =? v).

(* ================================================================== *)
(** * Properties *)

(** ** Strings and numbers *)

Example parseInt_4 : Js.parseInt "4" None = Js.of_Z 4.
Proof. reflexivity. Qed.
Example parseInt_hex : Js.parseInt " -0x1Fz" None = Js.of_Z (-31).
Proof. reflexivity. Qed.
Example parseInt_abc : Js.parseInt "abc" None = Js.NaN.
Proof. reflexivity. Qed.
Example parseInt_4abc : Js.parseInt "4abc" None = Js.of_Z 4.
Proof. reflexivity. Qed.
Example parseFloat_ex : Js.parseFloat "35000.50 EUR" = Js.Finite 3500050 (-2).
Proof. reflexivity. Qed.
Example parseFloat_e : Js.parseFloat "1.5e3" = Js.Finite 15 2.
Proof. reflexivity. Qed.
Example parseFloat_dot : Js.parseFloat "." = Js.NaN.
Proof. reflexivity. Qed.
Example parseFloat_dot5 : Js.parseFloat ".5" = Js.Finite 5 (-1).
Proof. reflexivity. Qed.
Example parseFloat_1e : Js.parseFloat "1e" = Js.Finite 1 0.
Proof. reflexivity. Qed.
Example slice_ex : Js.slice 1 (-1) (Js.quoted "12") = "12".
Proof. reflexivity. Qed.
Example lower_ex : Js.toLowerCase "TrUe" = "true".
Proof. reflexivity. Qed.

Lemma substring_0_app (a b : string) :
  substring 0 (String.length a) (a ++ b) = a.
Proof.
  induction a as [|c a IH]; simpl.
  - destruct b; reflexivity.
  - now rewrite IH.
Qed.

Lemma length_app (a b : string) :
  String.length (a ++ b) = (String.length a + String.length b)%nat.
Proof. induction a; simpl; auto. Qed.

(** [versionStr.slice(1, -1)] takes the quotes off a quoted text. *)
Lemma slice_quoted (s : string) : Js.slice 1 (-1) (Js.quoted s) = s.
Proof.
  unfold Js.slice, Js.quoted.
  cbn [String.length]. rewrite length_app. cbn [String.length].
  replace (1 <? 0) with false by reflexivity.
  replace (-1 <? 0) with true by reflexivity.
  set (n := String.length s).
  replace (Z.min 1 (Z.of_nat (S (n + 1)))) with 1 by lia.
  replace (Z.max (Z.of_nat (S (n + 1)) + -1) 0) with (Z.of_nat n + 1) by lia.
  replace (Z.to_nat 1) with 1%nat by reflexivity.
  replace (Z.to_nat (Z.max (Z.of_nat n + 1 - 1) 0)) with n by lia.
  cbn [substring]. apply substring_0_app.
Qed.

Lemma digit_value_digit (c : ascii) :
  Js.is_digit c = true ->
  Js.digit_value c = Some (Js.code c - 48) /\ (Js.code c - 48 <? 10) = true.
Proof.
  unfold Js.is_digit, Js.digit_value. intros H. cbv zeta. rewrite H.
  apply andb_true_iff in H. destruct H as [H1 H2].
  split; [reflexivity|]. apply Z.ltb_lt. apply Z.leb_le in H1, H2. lia.
Qed.

Lemma read_digits_all (s : string) :
  all_digits s = true ->
  forall acc seen,
    Js.read_digits 10 acc seen s
    = (decimal_value acc s, seen || negb (String.eqb s ""), "").
Proof.
  induction s as [|c r IH]; intros H acc seen; simpl.
  - now rewrite orb_false_r.
  - simpl in H. apply andb_true_iff in H. destruct H as [Hc Hr].
    destruct (digit_value_digit c Hc) as [-> ->].
    rewrite (IH Hr). now rewrite orb_true_r.
Qed.

Lemma digit_not_space (c : ascii) : Js.is_digit c = true -> Js.is_space c = false.
Proof.
  unfold Js.is_digit, Js.is_space. intros H. cbv zeta.
  apply andb_true_iff in H. destruct H as [H1 H2].
  apply Z.leb_le in H1, H2.
  apply orb_false_iff. split; [apply orb_false_iff; split|].
  - apply andb_false_iff. right. apply Z.leb_gt. lia.
  - apply Z.eqb_neq. lia.
  - apply Z.eqb_neq. lia.
Qed.

Lemma digit_not_sign (c : ascii) (r : string) :
  Js.is_digit c = true -> Js.read_sign (String c r) = (false, String c r).
Proof.
  intros H. unfold Js.read_sign.
  destruct (Ascii.eqb_spec c "-") as [->|Hm]; [discriminate H|].
  destruct (Ascii.eqb_spec c "+") as [->|Hp]; [discriminate H|].
  destruct c as [[] [] [] [] [] [] [] []]; try reflexivity; congruence.
Qed.

(** [Number.parseInt] in base 10 of a text of digits is the number the
    digits denote. *)
Lemma parseInt_digits (s : string) :
  all_digits s = true -> s <> "" ->
  Js.parseInt s (Some 10) = Js.of_Z (decimal_value 0 s).
Proof.
  intros H Hne. destruct s as [|c r]; [congruence|].
  pose proof H as H'. simpl in H'. apply andb_true_iff in H'. destruct H' as [Hc _].
  unfold Js.parseInt. cbn [Js.trimStart]. rewrite (digit_not_space c Hc).
  rewrite (digit_not_sign c r Hc).
  replace (10 =? 0) with false by reflexivity.
  replace (10 =? 16) with false by reflexivity.
  cbn [orb andb]. replace ((10 <? 2) || (36 <? 10)) with false by reflexivity.
  rewrite (read_digits_all _ H). reflexivity.
Qed.

Lemma lt_of_Z (a b : Z) : Js.lt (Js.of_Z a) (Js.of_Z b) = (a <? b).
Proof.
  unfold Js.lt, Js.of_Z. cbv zeta. rewrite Z.min_id, Z.sub_diag.
  change (10 ^ 0) with 1. now rewrite !Z.mul_1_r.
Qed.

(** ** The version pattern *)

Lemma digit_not_quote (c : ascii) :
  Js.is_digit c = true -> Ascii.eqb c Js.dquote = false.
Proof.
  intros H. destruct (Ascii.eqb_spec c Js.dquote) as [->|]; [discriminate H|reflexivity].
Qed.

Lemma digits_then_quote_ok (ds rest : string) :
  all_digits ds = true ->
  forall more, (String.length ds <= more)%nat ->
    AutoWriteService.digits_then_quote more (ds ++ String Js.dquote rest) = true.
Proof.
  induction ds as [|c r IH]; intros H more Hlen;
    cbn [append AutoWriteService.digits_then_quote].
  - rewrite Ascii.eqb_refl. reflexivity.
  - simpl in H. apply andb_true_iff in H. destruct H as [Hc Hr].
    rewrite (digit_not_quote c Hc), Hc.
    destruct more as [|m]; simpl in Hlen; [lia|].
    apply IH; [assumption|lia].
Qed.

Lemma digits_then_quote_inv (more : nat) (s : string) :
  AutoWriteService.digits_then_quote more s = true ->
  exists ds rest,
    s = ds ++ String Js.dquote rest
    /\ all_digits ds = true /\ (String.length ds <= more)%nat.
Proof.
  revert s. induction more as [|m IH]; intros s H; destruct s as [|c r];
    cbn [AutoWriteService.digits_then_quote] in H; try discriminate.
  - destruct (Ascii.eqb_spec c Js.dquote) as [->|].
    + exists "", r. simpl. split; [reflexivity|split; [reflexivity|lia]].
    + destruct (Js.is_digit c); discriminate.
  - destruct (Ascii.eqb_spec c Js.dquote) as [->|].
    + exists "", r. simpl. split; [reflexivity|split; [reflexivity|lia]].
    + destruct (Js.is_digit c) eqn:Hc; [|discriminate].
      destruct (IH r H) as (ds & rest & -> & Hd & Hl).
      exists (String c ds), rest. simpl. rewrite Hc, Hd.
      split; [reflexivity|split; [reflexivity|lia]].
Qed.

Lemma quoted_app (ds rest : string) :
  Js.quoted ds ++ rest = String Js.dquote (ds ++ String Js.dquote rest).
Proof.
  unfold Js.quoted. simpl. f_equal.
  induction ds as [|c r IH]; simpl; [reflexivity|now rewrite IH].
Qed.

(** The pattern accepts exactly the texts that start with a quote, one to
    three digits and a quote. *)
Lemma VERSION_PATTERN_test_spec (s : string) :
  AutoWriteService.VERSION_PATTERN_test s = true <->
  exists ds rest,
    s = Js.quoted ds ++ rest
    /\ all_digits ds = true
    /\ (1 <= String.length ds <= 3)%nat.
Proof.
  split.
  - destruct s as [|q [|d r]]; cbn [AutoWriteService.VERSION_PATTERN_test];
      try discriminate.
    intros H. apply andb_true_iff in H. destruct H as [H H3].
    apply andb_true_iff in H. destruct H as [H1 H2].
    apply Ascii.eqb_eq in H1. subst q.
    destruct (digits_then_quote_inv _ _ H3) as (ds & rest & -> & Hd & Hl).
    exists (String d ds), rest. rewrite quoted_app. simpl. rewrite H2, Hd.
    split; [reflexivity|split; [reflexivity|lia]].
  - intros (ds & rest & -> & Hd & Hl). rewrite quoted_app.
    destruct ds as [|d r]; [simpl in Hl; lia|].
    simpl in Hd. apply andb_true_iff in Hd. destruct Hd as [Hc Hr].
    cbn [append AutoWriteService.VERSION_PATTERN_test].
    rewrite Ascii.eqb_refl, Hc. cbn [andb].
    apply digits_then_quote_ok; [assumption|simpl in Hl; lia].
Qed.

(** ** Running the services *)

Lemma version_default_schlagwoerter (a : Auto) :
  version (AutoService.default_schlagwoerter a) = version a.
Proof. unfold AutoService.default_schlagwoerter. now destruct (schlagwoerter a). Qed.

Lemma version_included (b : bool) (a : Auto) :
  version (Prisma.included b a) = version a.
Proof. now destruct b. Qed.

Lemma findById_run (i : Z) (mit : bool) (st : Store) :
  AutoService.findById i mit st =
  match List.find (Prisma.has_id i) (autos st) with
  | Some a => (Ok (AutoService.default_schlagwoerter (Prisma.included mit a)), st)
  | None => (Err (NotFoundException (KeinAutoMitId (Some i))), st)
  end.
Proof.
  unfold AutoService.findById, bind, await, Prisma.auto_findUnique.
  now destruct (List.find (Prisma.has_id i) (autos st)).
Qed.

Lemma validateUpdate_run (i : Z) (s : string) (st : Store) :
  AutoWriteService.validateUpdate i s st =
  if AutoWriteService.VERSION_PATTERN_test s then
    match List.find (Prisma.has_id i) (autos st) with
    | Some a =>
        let v := Js.parseInt (Js.slice 1 (-1) s) (Some 10) in
        if Js.lt v (Js.of_Z (version a))
        then (Err (VersionOutdatedException v), st)
        else (Ok tt, st)
    | None => (Err (NotFoundException (KeinAutoMitId (Some i))), st)
    end
  else (Err (VersionInvalidException s), st).
Proof.
  unfold AutoWriteService.validateUpdate.
  destruct (AutoWriteService.VERSION_PATTERN_test s); [|reflexivity].
  cbn [negb]. unfold bind. rewrite findById_run.
  destruct (List.find (Prisma.has_id i) (autos st)) as [a|]; [|reflexivity].
  rewrite version_default_schlagwoerter, version_included. cbv zeta.
  now destruct (Js.lt _ _).
Qed.

Lemma update_run (i : Z) (u : AutoUpdate) (s : string) (st : Store) :
  AutoWriteService.update (Some i) u s st =
  if AutoWriteService.VERSION_PATTERN_test s then
    match List.find (Prisma.has_id i) (autos st) with
    | Some a =>
        let v := Js.parseInt (Js.slice 1 (-1) s) (Some 10) in
        if Js.lt v (Js.of_Z (version a))
        then (Err (VersionOutdatedException v), st)
        else (Ok (Js.of_Z (version a + 1)),
              autos_updated (with_version (increment 1) u) i st)
    | None => (Err (NotFoundException (KeinAutoMitId (Some i))), st)
    end
  else (Err (VersionInvalidException s), st).
Proof.
  unfold AutoWriteService.update, bind at 1. rewrite validateUpdate_run.
  destruct (AutoWriteService.VERSION_PATTERN_test s); [|reflexivity].
  destruct (List.find (Prisma.has_id i) (autos st)) as [a|] eqn:Hf; [|reflexivity].
  cbv zeta. destruct (Js.lt _ _); [reflexivity|].
  unfold bind, transaction, await, Prisma.auto_update, ret. rewrite Hf.
  rewrite version_included. reflexivity.
Qed.

Lemma find_updated (u : AutoUpdate) (i : Z) (l : list Auto) (a : Auto) :
  List.find (Prisma.has_id i) l = Some a ->
  List.find (Prisma.has_id i)
    (map (fun r => if Prisma.has_id i r then Prisma.updated u r else r) l)
  = Some (Prisma.updated u a).
Proof.
  induction l as [|r l IH]; simpl; [discriminate|].
  destruct (Prisma.has_id i r) eqn:Hr.
  - intros [= ->]. unfold Prisma.has_id in *. simpl. now rewrite Hr.
  - rewrite Hr. exact IH.
Qed.

(** ** [update]: the version of the caller against the stored version *)

(** C4: for a vehicle in the table and a version text that is one to three
    digits between quotes, [update] throws [VersionOutdatedException] with
    the number of the caller and leaves the tables alone when that number
    is below the stored version; otherwise it returns the stored version
    plus 1, and the row then has that version. *)
Theorem update_checks_version
  (i : Z) (u : AutoUpdate) (ds : string) (st : Store) (a : Auto) :
  List.find (Prisma.has_id i) (autos st) = Some a ->
  all_digits ds = true ->
  (1 <= String.length ds <= 3)%nat ->
  let v := decimal_value 0 ds in
  let r := AutoWriteService.update (Some i) u (Js.quoted ds) st in
  (v < version a -> r = (Err (VersionOutdatedException (Js.of_Z v)), st))
  /\ (version a <= v ->
      fst r = Ok (Js.of_Z (version a + 1))
      /\ exists a',
           List.find (Prisma.has_id i) (autos (snd r)) = Some a'
           /\ a' = Prisma.updated (with_version (increment 1) u) a
           /\ version a' = version a + 1).
Proof.
  intros Hf Hd Hl v r. subst r. rewrite update_run.
  assert (Hp : AutoWriteService.VERSION_PATTERN_test (Js.quoted ds) = true).
  { apply VERSION_PATTERN_test_spec. exists ds, "".
    split; [|split; assumption].
    rewrite quoted_app. reflexivity. }
  rewrite Hp, Hf, slice_quoted. cbv zeta.
  rewrite parseInt_digits; [|assumption|destruct ds; [simpl in Hl; lia|discriminate]].
  rewrite lt_of_Z. fold v. split; intros Hv.
  - apply Z.ltb_lt in Hv. now rewrite Hv.
  - apply Z.ltb_ge in Hv. rewrite Hv. split; [reflexivity|].
    exists (Prisma.updated (with_version (increment 1) u) a).
    split; [|split; reflexivity].
    cbn [snd autos_updated autos]. now apply find_updated.
Qed.

Lemma update_checks_version_witness :
  fst (AutoWriteService.update (Some 2) Example_db.geaendert (Js.quoted "3")
         Example_db.db)
  = Ok (Js.of_Z 4).
Proof.
  refine (proj1 (proj2 (update_checks_version 2 Example_db.geaendert "3"
                          Example_db.db Example_db.auto2 _ _ _) _)).
  - reflexivity.
  - reflexivity.
  - simpl; lia.
  - simpl; lia.
Defined.

(** A number below the stored version 3 is refused, a number above it is
    taken. *)
Example update_outdated :
  AutoWriteService.update (Some 2) Example_db.geaendert (Js.quoted "2") Example_db.db
  = (Err (VersionOutdatedException (Js.of_Z 2)), Example_db.db).
Proof. reflexivity. Qed.

Example update_ahead :
  fst (AutoWriteService.update (Some 2) Example_db.geaendert (Js.quoted "999")
         Example_db.db)
  = Ok (Js.of_Z 4).
Proof. reflexivity. Qed.

(** ** [update]: the version text *)

(** [update] throws [VersionInvalidException], with the text it was given,
    exactly when the pattern does not accept the text. *)
Lemma update_VersionInvalid_iff (i : Z) (u : AutoUpdate) (s : string) (st : Store) :
  (exists raw, fst (AutoWriteService.update (Some i) u s st)
               = Err (VersionInvalidException raw))
  <-> AutoWriteService.VERSION_PATTERN_test s = false.
Proof.
  rewrite update_run.
  destruct (AutoWriteService.VERSION_PATTERN_test s).
  - split; [|discriminate]. intros [raw H]. exfalso.
    destruct (List.find (Prisma.has_id i) (autos st)); [|discriminate H].
    cbv zeta in H. destruct (Js.lt _ _); discriminate H.
  - split; [reflexivity|]. intros _. now exists s.
Qed.

(** C2: a version text that goes on after the closing quote is not refused
    as [VersionInvalidException]: the pattern stops looking at the closing
    quote. *)
Theorem update_takes_text_after_quote
  (i : Z) (u : AutoUpdate) (ds rest : string) (st : Store) :
  all_digits ds = true ->
  (1 <= String.length ds <= 3)%nat ->
  forall raw,
    fst (AutoWriteService.update (Some i) u (Js.quoted ds ++ rest) st)
    <> Err (VersionInvalidException raw).
Proof.
  intros Hd Hl raw H.
  assert (Hp : AutoWriteService.VERSION_PATTERN_test (Js.quoted ds ++ rest) = true).
  { apply VERSION_PATTERN_test_spec. now exists ds, rest. }
  assert (Hn : AutoWriteService.VERSION_PATTERN_test (Js.quoted ds ++ rest) = false).
  { apply (update_VersionInvalid_iff i u _ st). now exists raw. }
  congruence.
Qed.

Lemma update_takes_text_after_quote_witness :
  fst (AutoWriteService.update (Some 2) Example_db.geaendert
         (Js.quoted "3" ++ "xyz") Example_db.db)
  <> Err (VersionInvalidException (Js.quoted "3" ++ "xyz")).
Proof.
  apply (update_takes_text_after_quote 2 Example_db.geaendert "3" "xyz").
  - reflexivity.
  - simpl; lia.
Defined.

(** The update with the version text ["3"xyz] goes through. *)
Example update_text_after_quote :
  fst (AutoWriteService.update (Some 2) Example_db.geaendert
         (Js.quoted "3" ++ "xyz") Example_db.db)
  = Ok (Js.of_Z 4).
Proof. reflexivity. Qed.

(** ** [addFile] *)

Lemma addFile_run (fk : bool) (sniff : list Byte.byte -> option string)
  (i : Z) (d : Uint8Array) (name : string) (size : Z) (st : Store) :
  AutoWriteService.addFile fk sniff i d name size st =
  if fk && negb (existsb (Prisma.has_id i) (autos st))
  then (Err (PrismaClientError ForeignKeyViolation), st)
  else
    let kept := filter (fun f => negb (autoId f =? i)) (files st) in
    let row :=
      {| file_id := file_seq st + 1; filename := name; data := buffer d;
         mimetype := sniff (bytes_of d); autoId := i |} in
    (Ok (Some row),
     {| autos := autos st; auto_seq := auto_seq st;
        files := kept ++ [row]; file_seq := file_seq st + 1 |}).
Proof.
  unfold AutoWriteService.addFile, bind, transaction, promise_is_null, await,
    Prisma.autoFile_deleteMany, Prisma.autoFile_create, ret.
  cbn [autos files file_seq auto_seq f_autoId f_filename f_data f_mimetype].
  now destruct (fk && negb (existsb (Prisma.has_id i) (autos st))).
Qed.

Lemma find_none_existsb (i : Z) (l : list Auto) :
  List.find (Prisma.has_id i) l = None -> existsb (Prisma.has_id i) l = false.
Proof.
  induction l as [|a l IH]; simpl; [reflexivity|].
  destruct (Prisma.has_id i a); [discriminate|exact IH].
Qed.

(** C1: for a vehicle that is not in the table, [addFile] never throws
    [NotFoundException]: the query for the vehicle is not awaited, and the
    promise it returns is not [null].  With the foreign key the insert of
    the file is rejected by the database and the tables stay as they were;
    without it the file is stored for the missing vehicle. *)
Theorem addFile_unknown_auto
  (fk : bool) (sniff : list Byte.byte -> option string)
  (i : Z) (d : Uint8Array) (name : string) (size : Z) (st : Store) :
  List.find (Prisma.has_id i) (autos st) = None ->
  let r := AutoWriteService.addFile fk sniff i d name size st in
  (forall m, fst r <> Err (NotFoundException m))
  /\ (if fk
      then r = (Err (PrismaClientError ForeignKeyViolation), st)
      else exists f, fst r = Ok (Some f) /\ autoId f = i /\ In f (files (snd r))).
Proof.
  intros Hf r. subst r. rewrite addFile_run, (find_none_existsb _ _ Hf).
  destruct fk; cbn [andb negb].
  - split; [intros m; discriminate|reflexivity].
  - cbv zeta. split; [intros m; discriminate|].
    eexists. split; [reflexivity|]. split; [reflexivity|].
    cbn [snd files]. apply in_or_app. right. now left.
Qed.

Lemma addFile_unknown_auto_witness :
  AutoWriteService.addFile true Example_db.sniff 999 Example_db.png "a.png" 4
    Example_db.db
  = (Err (PrismaClientError ForeignKeyViolation), Example_db.db).
Proof.
  refine (proj2 (addFile_unknown_auto true Example_db.sniff 999 Example_db.png
                   "a.png" 4 Example_db.db _)).
  reflexivity.
Defined.

(** Without the foreign key the file of the missing vehicle 999 is stored. *)
Example addFile_unknown_auto_stored :
  AutoWriteService.addFile false Example_db.sniff 999 Example_db.png "a.png" 4
    Example_db.db
  = (Ok (Some {| file_id := 1; filename := "a.png"; data := buffer Example_db.png;
                 mimetype := Some "image/png"; autoId := 999 |}),
     {| autos := autos Example_db.db; auto_seq := 3;
        files := [ {| file_id := 1; filename := "a.png";
                      data := buffer Example_db.png;
                      mimetype := Some "image/png"; autoId := 999 |} ];
        file_seq := 1 |}).
Proof. reflexivity. Qed.

(** What the sibling [delete] does with the missing vehicle: it awaits the
    query and sees [null]. *)
Example delete_unknown_auto :
  AutoWriteService.delete 999 Example_db.db = (Ok false, Example_db.db).
Proof. reflexivity. Qed.

(** ** [create] *)

Lemma create_run (holds : AutoWhereInput -> Auto -> bool)
  (d : AutoCreate) (f : string) (st : Store) :
  c_fin d = Some f ->
  AutoWriteService.create holds d st =
  if (0 <? fin_count holds f st)%nat
  then (Err (FinExistsException f), st)
  else (Ok (Js.of_Z (auto_seq st + 1)),
        {| autos := autos st ++ [created_row d f st];
           auto_seq := auto_seq st + 1;
           files := files st; file_seq := file_seq st |}).
Proof.
  intros Hf.
  unfold AutoWriteService.create, AutoWriteService.validateCreate, bind,
    transaction, await, Prisma.auto_count, Prisma.auto_create, ret, throw.
  rewrite Hf. fold (fin_count holds f st).
  destruct (0 <? fin_count holds f st)%nat; reflexivity.
Qed.

(** C9: with a FIN in the input, [create] throws [FinExistsException] with
    that FIN and inserts nothing when the database counts a row with the
    FIN; when it counts none, the vehicle is inserted and its key is
    returned. *)
Theorem create_checks_fin (holds : AutoWhereInput -> Auto -> bool)
  (d : AutoCreate) (f : string) (st : Store) :
  c_fin d = Some f ->
  let r := AutoWriteService.create holds d st in
  ((0 < fin_count holds f st)%nat -> r = (Err (FinExistsException f), st))
  /\ (fin_count holds f st = 0%nat ->
      exists row,
        fst r = Ok (Js.of_Z (id row))
        /\ autos (snd r) = (autos st ++ [row])%list
        /\ fin row = f
        /\ id row = auto_seq st + 1).
Proof.
  intros Hf r. subst r. rewrite (create_run holds d f st Hf). split; intros Hn.
  - apply Nat.ltb_lt in Hn. now rewrite Hn.
  - rewrite Hn. cbn [Nat.ltb Nat.leb].
    exists (created_row d f st). repeat split.
Qed.

(** In the reading of the examples, the count for a FIN is the number of
    rows with that FIN. *)
Lemma fin_count_example (f : string) (st : Store) :
  fin_count Example_db.holds f st
  = List.length (filter (fun a => String.eqb (fin a) f) (autos st)).
Proof.
  unfold fin_count, Prisma.selected. f_equal. apply filter_ext. intros a.
  unfold Example_db.holds, Example_db.on, Example_db.string_filter, set_fin,
    empty_where.
  cbn. now rewrite !andb_true_r.
Qed.

Lemma create_checks_fin_witness :
  AutoWriteService.create Example_db.holds
    {| c_version := 0; c_fin := Some "HYU12398765412TUC"; c_rating := 1;
       c_art := None; c_preis := Js.of_Z 1; c_rabatt := Js.of_Z 0;
       c_verfuegbar := false; c_baujahr := None; c_homepage := None;
       c_schlagwoerter := None;
       c_fahrzeugschein := Example_db.schein "B-C1"; c_ausstattungen := [] |}
    Example_db.db
  = (Err (FinExistsException "HYU12398765412TUC"), Example_db.db).
Proof.
  refine (proj1 (create_checks_fin Example_db.holds _ "HYU12398765412TUC"
                   Example_db.db _) _).
  - reflexivity.
  - rewrite fin_count_example. simpl. lia.
Defined.

(** A new FIN: the vehicle gets the key 4. *)
Example create_new :
  fst (AutoWriteService.create Example_db.holds Example_db.neu Example_db.db)
  = Ok (Js.of_Z 4).
Proof. reflexivity. Qed.

(** ** [findById] and [find] *)

Lemma schlagwoerter_default (a : Auto) :
  schlagwoerter (AutoService.default_schlagwoerter a) = Some (keywords a).
Proof.
  unfold AutoService.default_schlagwoerter, keywords.
  now destruct (schlagwoerter a) eqn:E.
Qed.

Lemma schlagwoerter_included (b : bool) (a : Auto) :
  schlagwoerter (Prisma.included b a) = schlagwoerter a.
Proof. now destruct b. Qed.

Lemma id_default_schlagwoerter (a : Auto) :
  id (AutoService.default_schlagwoerter a) = id a.
Proof. unfold AutoService.default_schlagwoerter. now destruct (schlagwoerter a). Qed.

Lemma id_included (b : bool) (a : Auto) : id (Prisma.included b a) = id a.
Proof. now destruct b. Qed.

Lemma findAll_run (holds : AutoWhereInput -> Auto -> bool)
  (p : Pageable) (st : Store) :
  AutoService.findAll holds p st
  = slice_or (UngueltigeSeite (number p)) (requested_page holds None p st) st.
Proof.
  unfold AutoService.findAll, AutoService.count, bind, await,
    Prisma.auto_findMany, Prisma.auto_count, ret, throw, requested_page.
  destruct (Prisma.page_rows holds None (number p * size p) (size p) st);
    reflexivity.
Qed.

Lemma find_run (holds : AutoWhereInput -> Auto -> bool)
  (sp : option Suchparameter) (p : Pageable) (st : Store) :
  AutoService.find holds sp p st =
  match sp with
  | None | Some [] =>
      slice_or (UngueltigeSeite (number p)) (requested_page holds None p st) st
  | Some ((_ :: _) as q) =>
      if AutoService.checkKeys (keys q) && AutoService.checkEnums q
      then slice_or (KeineAutosGefunden q (number p))
             (requested_page holds (Some (WhereBuilder.build q)) p st) st
      else (Err (NotFoundException UngueltigeSuchparameter), st)
  end.
Proof.
  destruct sp as [[|e q]|]; cbn [AutoService.find keys map List.length Nat.eqb];
    try apply findAll_run.
  destruct (AutoService.checkKeys _), (AutoService.checkEnums _);
    cbn [negb orb andb]; try reflexivity.
  unfold AutoService.count, bind, await, Prisma.auto_findMany,
    Prisma.auto_count, ret, throw, requested_page.
  destruct (Prisma.page_rows holds _ _ _ st); reflexivity.
Qed.

(** *** The keys that [find] accepts *)

Lemma checkKeys_from (ks : list string) (b : bool) :
  fold_left
    (fun validKeys key =>
       if negb (includes suchparameterNamen key)
          && neqb key "allrad" && neqb key "benzin" && neqb key "budget"
          && neqb key "business" && neqb key "cabrio" && neqb key "e_auto"
          && neqb key "einfach" && neqb key "familie" && neqb key "hybrid"
          && neqb key "komfort" && neqb key "kombi" && neqb key "nutzfahrzeug"
          && neqb key "pickup" && neqb key "reichweite" && neqb key "sparsam"
          && neqb key "sport" && neqb key "suv" && neqb key "tech"
          && neqb key "vier_x_vier"
       then false
       else validKeys)
    ks b
  = b && forallb key_ok ks.
Proof.
  revert b. induction ks as [|k ks IH]; intros b; cbn [fold_left forallb].
  - now rewrite andb_true_r.
  - rewrite IH. clear IH.
    replace (negb (includes suchparameterNamen k)
        && neqb k "allrad" && neqb k "benzin" && neqb k "budget"
        && neqb k "business" && neqb k "cabrio" && neqb k "e_auto"
        && neqb k "einfach" && neqb k "familie" && neqb k "hybrid"
        && neqb k "komfort" && neqb k "kombi" && neqb k "nutzfahrzeug"
        && neqb k "pickup" && neqb k "reichweite" && neqb k "sparsam"
        && neqb k "sport" && neqb k "suv" && neqb k "tech"
        && neqb k "vier_x_vier")
      with (negb (key_ok k)).
    + destruct (key_ok k), b; reflexivity.
    + unfold key_ok, WhereBuilder.is_flag, WhereBuilder.flag_names, neqb.
      cbn [existsb]. rewrite !negb_orb, <- !andb_assoc. cbn [negb].
      now rewrite andb_true_r.
Qed.

Lemma checkKeys_forallb (ks : list string) :
  AutoService.checkKeys ks = forallb key_ok ks.
Proof. unfold AutoService.checkKeys. cbv zeta. apply checkKeys_from. Qed.

Lemma key_ok_spec (key : string) :
  key_ok key = true <->
  In key suchparameterNamen \/ In key WhereBuilder.flag_names.
Proof.
  unfold key_ok, includes, WhereBuilder.is_flag. rewrite orb_true_iff.
  rewrite !existsb_exists.
  split; (intros [H|H]; [left|right]).
  - destruct H as (x & Hx & E). apply String.eqb_eq in E. now subst.
  - destruct H as (x & Hx & E). apply String.eqb_eq in E. now subst.
  - exists key. split; [assumption|apply String.eqb_refl].
  - exists key. split; [assumption|apply String.eqb_refl].
Qed.

Lemma checkKeys_spec (ks : list string) :
  AutoService.checkKeys ks = true <->
  Forall (fun k => In k suchparameterNamen \/ In k WhereBuilder.flag_names) ks.
Proof.
  rewrite checkKeys_forallb, forallb_forall, Forall_forall.
  split; intros H k Hk; apply key_ok_spec, H, Hk.
Qed.

Lemma checkEnums_spec (sp : Suchparameter) :
  AutoService.checkEnums sp = true <->
  (forall v, get "art" sp = Some v -> exists a, v = Autoart_name a).
Proof.
  unfold AutoService.checkEnums. destruct (get "art" sp) as [v|].
  - rewrite !orb_true_iff, !String.eqb_eq. split.
    + intros H w [= <-].
      destruct H as [[[[[[H|H]|H]|H]|H]|H]|H]; subst v.
      * now exists SUV.
      * now exists CABRIO.
      * now exists LIMOUSINE.
      * now exists E_AUTO.
      * now exists KOMBI.
      * now exists PICKUP.
      * now exists CROSSOVER.
    + intros H. destruct (H v eq_refl) as [[] ->]; simpl; tauto.
  - split; [discriminate|reflexivity].
Qed.

Lemma not_in_vocabulary_rabatt : ~ in_vocabulary "rabatt".
Proof.
  intros [H|H]; simpl in H;
    repeat (destruct H as [H|H]; [discriminate H|]); exact H.
Qed.

(** C3, as the specification states it, fails in three ways: an [art] that
    is no category is refused although every key is in the vocabulary; the
    alias [lieferbar] is refused; and the key [rabatt], which the table
    does not have, is accepted. *)
Lemma vocabulary_statement_fails :
  ~ vocabulary_statement Example_db.holds [("art", "FOO")]
      Example_db.page0 Example_db.db
  /\ ~ vocabulary_statement Example_db.holds [("lieferbar", "true")]
        Example_db.page0 Example_db.db
  /\ ~ vocabulary_statement Example_db.holds [("rabatt", "0.1")]
        Example_db.page0 Example_db.db.
Proof.
  unfold vocabulary_statement. cbv zeta. repeat split.
  - intros [H _]. apply H; [|reflexivity].
    apply Forall_cons; [left; in_list|apply Forall_nil].
  - intros [H _]. apply H; [|reflexivity].
    apply Forall_cons; [left; in_list|apply Forall_nil].
  - intros [_ H]. destruct H as [m H].
    + constructor. exact not_in_vocabulary_rabatt.
    + discriminate H.
Qed.

(** C3, amended: when every key is a name of [suchparameterNamen] or a
    flag, and [art], if given, names a category, [find] does not fail with
    'Ungueltige Suchparameter'; when some key is neither such a name nor a
    flag nor one of the aliases [lieferbar] and [datum], it does. *)
Theorem find_checks_keys (holds : AutoWhereInput -> Auto -> bool)
  (sp : Suchparameter) (p : Pageable) (st : Store) :
  let r := AutoService.find holds (Some sp) p st in
  (Forall (fun k => In k suchparameterNamen \/ In k WhereBuilder.flag_names)
     (keys sp) ->
   (forall v, get "art" sp = Some v -> exists a, v = Autoart_name a) ->
   ~ invalid_parameters r)
  /\ (Exists (fun k => ~ In k suchparameterNamen
                       /\ ~ In k WhereBuilder.flag_names
                       /\ k <> "lieferbar" /\ k <> "datum") (keys sp) ->
      invalid_parameters r).
Proof.
  cbv zeta. unfold invalid_parameters. rewrite find_run. split.
  - intros Hk Ha. apply checkKeys_spec in Hk. apply checkEnums_spec in Ha.
    destruct sp as [|e q].
    + unfold slice_or. destruct (requested_page _ _ _ _); discriminate.
    + rewrite Hk, Ha. cbn [andb]. unfold slice_or.
      destruct (requested_page _ _ _ _); discriminate.
  - intros Hx. destruct sp as [|e q]; [inversion Hx|].
    destruct (AutoService.checkKeys (keys (e :: q))) eqn:Hk; [|reflexivity].
    exfalso. apply checkKeys_spec in Hk.
    apply Exists_exists in Hx. destruct Hx as (k & Hin & Hn1 & Hn2 & _).
    rewrite Forall_forall in Hk. destruct (Hk k Hin); contradiction.
Qed.

Lemma find_checks_keys_witness :
  ~ invalid_parameters
      (AutoService.find Example_db.holds
         (Some [("rating", "4"); ("art", "SUV"); ("allrad", "true")])
         Example_db.page0 Example_db.db).
Proof.
  refine (proj1 (find_checks_keys Example_db.holds
                   [("rating", "4"); ("art", "SUV"); ("allrad", "true")]
                   Example_db.page0 Example_db.db) _ _).
  - apply Forall_cons; [left; in_list|].
    apply Forall_cons; [left; in_list|].
    apply Forall_cons; [right; in_list|apply Forall_nil].
  - intros v [= <-]. now exists SUV.
Defined.

(** An unknown key, as in [?foo=bar]. *)
Example find_foo :
  AutoService.find Example_db.holds (Some [("foo", "bar")])
    Example_db.page0 Example_db.db
  = (Err (NotFoundException UngueltigeSuchparameter), Example_db.db).
Proof. reflexivity. Qed.

(** *** The slice *)

Lemma slice_or_Ok (m : Message) (rows : list Auto) (st : Store) (s : Slice Auto) :
  fst (slice_or m rows st) = Ok s ->
  rows <> []
  /\ content s = map AutoService.default_schlagwoerter
                   (map (Prisma.included false) rows)
  /\ totalElements s = List.length (autos st).
Proof.
  destruct rows as [|a rows]; simpl; [discriminate|].
  intros [= <-]. repeat split. discriminate.
Qed.

(** Every successful [find] went through [slice_or] with the page it asked
    for. *)
Lemma find_Ok (holds : AutoWhereInput -> Auto -> bool)
  (sp : option Suchparameter) (p : Pageable) (st : Store)
  (s : Slice Auto) :
  fst (AutoService.find holds sp p st) = Ok s ->
  exists w,
    requested_page holds w p st <> []
    /\ content s = map AutoService.default_schlagwoerter
                     (map (Prisma.included false) (requested_page holds w p st))
    /\ totalElements s = List.length (autos st).
Proof.
  rewrite find_run. destruct sp as [[|e q]|].
  - intros H. exists None. eapply slice_or_Ok, H.
  - destruct (AutoService.checkKeys _ && AutoService.checkEnums _);
      [|discriminate].
    intros H. exists (Some (WhereBuilder.build (e :: q))). eapply slice_or_Ok, H.
  - intros H. exists None. eapply slice_or_Ok, H.
Qed.

(** C5: the [totalElements] of a slice that [find] returns is the number
    of all rows of the table, whatever the filter was. *)
Theorem find_totalElements (holds : AutoWhereInput -> Auto -> bool)
  (sp : option Suchparameter) (p : Pageable)
  (st : Store) (s : Slice Auto) :
  fst (AutoService.find holds sp p st) = Ok s ->
  totalElements s = List.length (autos st)
  /\ fst (AutoService.count holds st) = Ok (totalElements s).
Proof.
  intros H. destruct (find_Ok holds sp p st s H) as (w & _ & _ & Ht).
  split; [exact Ht|]. rewrite Ht. reflexivity.
Qed.

(** The search for the keyword SUV finds one vehicle of three, and the
    slice says three. *)
Lemma find_totalElements_witness :
  exists s,
    fst (AutoService.find Example_db.holds (Some [("suv", "true")])
           Example_db.page0 Example_db.db) = Ok s
    /\ List.length (content s) = 1%nat
    /\ totalElements s = 3%nat.
Proof.
  eexists. split; [reflexivity|]. split; [reflexivity|].
  refine (proj1 (find_totalElements Example_db.holds (Some [("suv", "true")])
                   Example_db.page0 Example_db.db _ _)).
  reflexivity.
Defined.

(** *** No empty slice *)

(** C8: [find] fails with [NotFoundException] whenever the page it asks for
    is empty; a search whose keys and [art] pass the checks then carries the
    parameters and the page number in the text, a listing without
    parameters the page number; [find] fails in no other way, and a slice
    it returns is never empty. *)
Theorem find_empty_page (holds : AutoWhereInput -> Auto -> bool)
  (sp : option Suchparameter) (p : Pageable) (st : Store) :
  let r := fst (AutoService.find holds sp p st) in
  (requested_page holds (where_of sp) p st = [] ->
   exists m, r = Err (NotFoundException m))
  /\ (forall q, sp = Some q -> q <> [] ->
      AutoService.checkKeys (keys q) = true ->
      AutoService.checkEnums q = true ->
      requested_page holds (where_of sp) p st = [] ->
      r = Err (NotFoundException (KeineAutosGefunden q (number p))))
  /\ (sp = None \/ sp = Some [] ->
      requested_page holds (where_of sp) p st = [] ->
      r = Err (NotFoundException (UngueltigeSeite (number p))))
  /\ (forall s, r = Ok s -> content s <> [])
  /\ (forall e, r = Err e -> exists m, e = NotFoundException m).
Proof.
  cbv zeta. rewrite find_run. repeat split.
  - intros He. destruct sp as [[|e q]|]; cbn [where_of] in He.
    + rewrite He. simpl. eauto.
    + destruct (AutoService.checkKeys _ && AutoService.checkEnums _).
      * rewrite He. simpl. eauto.
      * simpl. eauto.
    + rewrite He. simpl. eauto.
  - intros q -> Hq Hk Hc He. destruct q as [|e q]; [congruence|].
    cbn [where_of] in He. rewrite Hk, Hc, He. reflexivity.
  - intros [->| ->] He; cbn [where_of] in He; rewrite He; reflexivity.
  - intros s H Hc.
    assert (H' : fst (AutoService.find holds sp p st) = Ok s)
      by (rewrite find_run; exact H).
    destruct (find_Ok holds sp p st s H') as (w & Hne & Hcs & _).
    rewrite Hcs in Hc. apply map_eq_nil, map_eq_nil in Hc. contradiction.
  - intros e H. destruct sp as [[|x q]|].
    + unfold slice_or in H. destruct (requested_page _ _ _ _); inversion H; eauto.
    + destruct (AutoService.checkKeys _ && AutoService.checkEnums _).
      * unfold slice_or in H. destruct (requested_page _ _ _ _); inversion H; eauto.
      * inversion H; eauto.
    + unfold slice_or in H. destruct (requested_page _ _ _ _); inversion H; eauto.
Qed.

(** No vehicle has the keyword SUV and a rating of 5 or more. *)
Lemma find_empty_page_witness :
  fst (AutoService.find Example_db.holds
         (Some [("rating", "5"); ("suv", "true")])
         Example_db.page0 Example_db.db)
  = Err (NotFoundException
           (KeineAutosGefunden [("rating", "5"); ("suv", "true")] 0)).
Proof.
  refine (proj1 (proj2 (find_empty_page Example_db.holds
                          (Some [("rating", "5"); ("suv", "true")])
                          Example_db.page0 Example_db.db))
            _ eq_refl _ _ _ _).
  - discriminate.
  - reflexivity.
  - reflexivity.
  - reflexivity.
Defined.

(** The second page of five of a table of three vehicles. *)
Example find_page_out_of_range :
  fst (AutoService.find Example_db.holds None {| number := 1; size := 5 |}
         Example_db.db)
  = Err (NotFoundException (UngueltigeSeite 1)).
Proof. reflexivity. Qed.

(** *** The keywords of the vehicles that are read *)

Lemma page_rows_incl (holds : AutoWhereInput -> Auto -> bool)
  (w : option AutoWhereInput) (skip take : nat) (st : Store) (a : Auto) :
  In a (Prisma.page_rows holds w skip take st) -> In a (autos st).
Proof.
  unfold Prisma.page_rows. intros H.
  assert (H1 : In a (skipn skip (Prisma.selected holds w st))).
  { rewrite <- (firstn_skipn take). apply in_or_app. now left. }
  assert (H2 : In a (Prisma.selected holds w st)).
  { rewrite <- (firstn_skipn skip). apply in_or_app. now right. }
  unfold Prisma.selected in H2.
  destruct w; [apply filter_In in H2; tauto|exact H2].
Qed.

(** C10: the vehicle that [findById] returns and every vehicle in a slice
    that [find] returns has a list of keywords, the empty list where the
    row has [null], and the keywords of the row otherwise. *)
Theorem read_keywords_not_null (holds : AutoWhereInput -> Auto -> bool)
  (i : Z) (mit : bool) (sp : option Suchparameter) (p : Pageable) (st : Store) :
  (forall a, fst (AutoService.findById i mit st) = Ok a ->
     exists row,
       List.find (Prisma.has_id i) (autos st) = Some row
       /\ schlagwoerter a = Some (keywords row))
  /\ (forall s, fst (AutoService.find holds sp p st) = Ok s ->
        Forall (fun a =>
                  exists row,
                    In row (autos st) /\ id row = id a
                    /\ schlagwoerter a = Some (keywords row))
               (content s)).
Proof.
  split.
  - intros a. rewrite findById_run.
    destruct (List.find (Prisma.has_id i) (autos st)) as [row|]; [|discriminate].
    intros [= <-]. exists row. split; [reflexivity|].
    rewrite schlagwoerter_default. unfold keywords.
    now rewrite schlagwoerter_included.
  - intros s H. destruct (find_Ok holds sp p st s H) as (w & _ & -> & _).
    rewrite map_map. apply Forall_forall. intros a Ha.
    apply in_map_iff in Ha. destruct Ha as (row & <- & Hrow).
    exists row. split; [eapply page_rows_incl, Hrow|].
    rewrite id_default_schlagwoerter, id_included, schlagwoerter_default.
    unfold keywords. rewrite schlagwoerter_included. auto.
Qed.

(** The row 2 has [null] for its keywords. *)
Lemma read_keywords_not_null_witness :
  schlagwoerter Example_db.auto2 = None
  /\ exists a,
       fst (AutoService.findById 2 false Example_db.db) = Ok a
       /\ schlagwoerter a = Some [].
Proof.
  split; [reflexivity|]. eexists. split; [reflexivity|].
  destruct (proj1 (read_keywords_not_null Example_db.holds 2 false None
                     Example_db.page0 Example_db.db) _ eq_refl)
    as (row & Hrow & Hk).
  injection Hrow as <-. exact Hk.
Defined.

Example find_keywords_not_null :
  option_map (fun s => map schlagwoerter (content s))
    (match fst (AutoService.find Example_db.holds None Example_db.page0
                  Example_db.db) with
     | Ok s => Some s
     | Err _ => None
     end)
  = Some [Some ["SUV"; "ALLRAD"]; Some []; Some ["E-AUTO"; "TECH"]].
Proof. reflexivity. Qed.

(** ** [WhereBuilder]: the keywords *)

Lemma push_if_app (b : bool) (l : list string) (k : string) :
  WhereBuilder.push_if b l k = (l ++ (if b then [k] else []))%list.
Proof. destruct b; [reflexivity|now rewrite app_nil_r]. Qed.

(** The nineteen conditionals of [buildSchlagwoerter] are the pass over the
    table. *)
Lemma required_keywords_by_table (sp : Suchparameter) :
  required_keywords sp = keywords_by_table sp.
Proof.
  unfold required_keywords, keywords_by_table, WhereBuilder.buildSchlagwoerter,
    WhereBuilder.flags_of.
  cbv zeta.
  cbn [WhereBuilder.allrad WhereBuilder.benzin WhereBuilder.budget
       WhereBuilder.business WhereBuilder.cabrio WhereBuilder.e_auto
       WhereBuilder.einfach WhereBuilder.familie WhereBuilder.hybrid
       WhereBuilder.komfort WhereBuilder.kombi WhereBuilder.nutzfahrzeug
       WhereBuilder.pickup WhereBuilder.reichweite WhereBuilder.sparsam
       WhereBuilder.sport WhereBuilder.suv WhereBuilder.tech
       WhereBuilder.vier_x_vier].
  rewrite !push_if_app.
  cbn [flat_map WhereBuilder.flag_names].
  rewrite <- !app_assoc, app_nil_r. reflexivity.
Qed.

Lemma is_true_flag_set (sp : Suchparameter) (flag : string) :
  WhereBuilder.is_true (get flag sp) = true <-> flag_set sp flag.
Proof.
  unfold WhereBuilder.is_true, flag_set. destruct (get flag sp) as [v|].
  - rewrite String.eqb_eq. split.
    + intros H. now exists v.
    + now intros (w & [= <-] & H).
  - split; [discriminate|]. now intros (w & [=] & _).
Qed.

(** No two flags have the same keyword. *)
Lemma keyword_of_inj (f g : string) :
  In f WhereBuilder.flag_names -> In g WhereBuilder.flag_names ->
  keyword_of f = keyword_of g -> f = g.
Proof.
  intros Hf Hg. simpl in Hf, Hg.
  repeat (destruct Hf as [<-|Hf]); try contradiction;
    repeat (destruct Hg as [<-|Hg]); try contradiction;
    intros H; try reflexivity; discriminate H.
Qed.

Lemma keywords_In (sp : Suchparameter) (k : string) :
  In k (required_keywords sp) <->
  exists flag,
    In flag WhereBuilder.flag_names /\ flag_set sp flag /\ k = keyword_of flag.
Proof.
  rewrite required_keywords_by_table. unfold keywords_by_table.
  rewrite in_flat_map. split.
  - intros (flag & Hf & Hk). exists flag. split; [assumption|].
    destruct (WhereBuilder.is_true (get flag sp)) eqn:E; [|contradiction].
    apply is_true_flag_set in E. destruct Hk as [<-|[]]. now split.
  - intros (flag & Hf & Hs & ->). exists flag. split; [assumption|].
    apply is_true_flag_set in Hs. rewrite Hs. now left.
Qed.

(** [build] leaves the keywords alone until the flags are done. *)
Lemma build_entry_schlagwoerter (w : AutoWhereInput) (e : string * string) :
  w_schlagwoerter (WhereBuilder.build_entry w e) = w_schlagwoerter w.
Proof.
  unfold WhereBuilder.build_entry. destruct e as [key value].
  repeat match goal with
         | |- context [if ?c then _ else _] => destruct c
         end; reflexivity.
Qed.

Lemma fold_build_entry_schlagwoerter (l : Suchparameter) (w : AutoWhereInput) :
  w_schlagwoerter (fold_left WhereBuilder.build_entry l w) = w_schlagwoerter w.
Proof.
  revert w. induction l as [|e l IH]; intros w; simpl; [reflexivity|].
  now rewrite IH, build_entry_schlagwoerter.
Qed.

(** C6: a flag puts its keyword on the list exactly when its value is
    [true] in some mix of upper and lower case, nothing else is on the list,
    and the filter has [array_contains] with the list exactly when the list
    is not empty. *)
Theorem build_keywords (sp : Suchparameter) :
  Forall (fun flag => In (keyword_of flag) (required_keywords sp)
                      <-> flag_set sp flag)
         WhereBuilder.flag_names
  /\ Forall (fun k => exists flag,
                        In flag WhereBuilder.flag_names /\ k = keyword_of flag)
            (required_keywords sp)
  /\ keyword_of "e_auto" = "E-AUTO"
  /\ keyword_of "vier_x_vier" = "4x4"
  /\ w_schlagwoerter (WhereBuilder.build sp)
     = match required_keywords sp with
       | [] => None
       | ks => Some {| array_contains := ks |}
       end.
Proof.
  split; [|split; [|split; [|split]]]; try reflexivity.
  - apply Forall_forall. intros flag Hf. rewrite keywords_In. split.
    + intros (g & Hg & Hs & E).
      now rewrite (keyword_of_inj flag g Hf Hg E).
    + intros Hs. now exists flag.
  - apply Forall_forall. intros k Hk. apply keywords_In in Hk.
    destruct Hk as (flag & Hf & _ & ->). now exists flag.
  - unfold WhereBuilder.build. cbv zeta. fold (required_keywords sp).
    destruct (required_keywords sp) as [|k ks].
    + cbn [List.length Z.of_nat Z.ltb Z.compare].
      now rewrite fold_build_entry_schlagwoerter.
    + replace (0 <? Z.of_nat (List.length (k :: ks))) with true
        by (symmetry; apply Z.ltb_lt; simpl; lia).
      reflexivity.
Qed.

(** In the reading of the examples, a vehicle that satisfies the filter
    has every keyword of the list. *)
Lemma example_holds_array_contains
  (w : AutoWhereInput) (a : Auto) (ks : list string) :
  w_schlagwoerter w = Some {| array_contains := ks |} ->
  Example_db.holds w a = true ->
  incl ks (keywords a).
Proof.
  intros Hw H. unfold Example_db.holds in H.
  apply andb_true_iff in H. destruct H as [_ H].
  rewrite Hw in H. unfold Example_db.on, Example_db.present, keywords in *.
  cbn [array_contains] in H.
  destruct (schlagwoerter a) as [l|]; [|discriminate].
  intros k Hk. rewrite forallb_forall in H. specialize (H k Hk).
  apply existsb_exists in H. destruct H as (x & Hx & E).
  apply String.eqb_eq in E. now subst.
Qed.

Lemma build_keywords_witness :
  w_schlagwoerter
    (WhereBuilder.build [("e_auto", "True"); ("suv", "false"); ("vier_x_vier", "TRUE")])
  = Some {| array_contains := ["E-AUTO"; "4x4"] |}.
Proof.
  exact (proj2 (proj2 (proj2 (proj2
    (build_keywords [("e_auto", "True"); ("suv", "false"); ("vier_x_vier", "TRUE")]))))).
Defined.

Example build_no_keywords :
  WhereBuilder.build [("suv", "yes"); ("fin", "WDB123456789XYZ01")]
  = set_fin empty_where (equals "WDB123456789XYZ01").
Proof. reflexivity. Qed.

(** ** [WhereBuilder]: [rating] and [preis] *)

Lemma get_without_ne (key f : string) (sp : Suchparameter) :
  f <> key -> get f (without key sp) = get f sp.
Proof.
  intros Hne. induction sp as [|[k v] r IH]; [reflexivity|].
  unfold without in *. cbn [filter fst get].
  destruct (String.eqb_spec k key) as [->|Hk]; cbn [negb get].
  - destruct (String.eqb_spec key f) as [->|]; [contradiction|exact IH].
  - now rewrite IH.
Qed.

Lemma get_In (key : string) (sp : Suchparameter) (v w : string) :
  NoDup (keys sp) -> get key sp = Some v -> In (key, w) sp -> w = v.
Proof.
  induction sp as [|[k x] r IH]; intros Hn Hg Hi; [contradiction|].
  cbn [keys map fst] in Hn. inversion Hn as [|? ? Hk Hr]; subst.
  cbn [get] in Hg. destruct Hi as [[= -> ->]|Hi].
  - rewrite String.eqb_refl in Hg. congruence.
  - destruct (String.eqb_spec k key) as [->|_].
    + exfalso. apply Hk. change key with (fst (key, w)). now apply in_map.
    + now apply IH.
Qed.

Lemma flags_of_without (key : string) (sp : Suchparameter) :
  WhereBuilder.is_flag key = false ->
  WhereBuilder.flags_of (without key sp) = WhereBuilder.flags_of sp.
Proof.
  intros Hk. unfold WhereBuilder.flags_of.
  assert (E : forall f, WhereBuilder.is_flag f = true ->
                        get f (without key sp) = get f sp).
  { intros f Hf. apply get_without_ne. intros ->. congruence. }
  rewrite !E by reflexivity. reflexivity.
Qed.

Lemma restProps_of_without (key : string) (sp : Suchparameter) :
  WhereBuilder.restProps_of (without key sp)
  = without key (WhereBuilder.restProps_of sp).
Proof.
  unfold WhereBuilder.restProps_of, without.
  induction sp as [|e r IH]; [reflexivity|]. cbn [filter].
  destruct (negb (String.eqb (fst e) key)) eqn:E1,
           (negb (WhereBuilder.is_flag (fst e))) eqn:E2;
    cbn [filter]; rewrite ?E1, ?E2, IH; reflexivity.
Qed.

Section One_parameter.

(** A parameter that [build] turns into a comparison with a number: its
    name, the property of the filter, the parser and the comparison. *)
Variable key : string.
Variable property : AutoWhereInput -> option (Filter Js.JsNumber).
Variable parse : string -> Js.JsNumber.
Variable compare : Js.JsNumber -> Filter Js.JsNumber.

Hypothesis key_no_flag : WhereBuilder.is_flag key = false.

Hypothesis property_other : forall w e,
  fst e <> key -> property (WhereBuilder.build_entry w e) = property w.

Hypothesis property_key : forall w v,
  property (WhereBuilder.build_entry w (key, v))
  = if Js.isNaN (parse v) then property w else Some (compare (parse v)).

Hypothesis entry_NaN : forall w v,
  Js.isNaN (parse v) = true -> WhereBuilder.build_entry w (key, v) = w.

Hypothesis property_schlagwoerter : forall w f,
  property (set_schlagwoerter w f) = property w.

Hypothesis property_empty : property empty_where = None.

Lemma property_fold_other (l : Suchparameter) (w : AutoWhereInput) :
  ~ In key (keys l) ->
  property (fold_left WhereBuilder.build_entry l w) = property w.
Proof.
  revert w. induction l as [|e l IH]; intros w Hn; [reflexivity|].
  cbn [fold_left]. rewrite IH.
  - apply property_other. intros E. apply Hn. left. exact E.
  - intros Hi. apply Hn. right. exact Hi.
Qed.

Lemma keys_restProps_of (l : Suchparameter) (k : string) :
  In k (keys (WhereBuilder.restProps_of l)) -> In k (keys l).
Proof.
  unfold keys, WhereBuilder.restProps_of. rewrite !in_map_iff.
  intros (e & <- & He). apply filter_In in He. exists e. tauto.
Qed.

Lemma property_fold (l : Suchparameter) (w : AutoWhereInput) (v : string) :
  NoDup (keys l) -> get key l = Some v ->
  property (fold_left WhereBuilder.build_entry (WhereBuilder.restProps_of l) w)
  = if Js.isNaN (parse v) then property w else Some (compare (parse v)).
Proof.
  revert w. induction l as [|[k x] r IH]; intros w Hn Hg; [discriminate|].
  cbn [keys map fst] in Hn. inversion Hn as [|? ? Hk Hr]; subst.
  cbn [get] in Hg. unfold WhereBuilder.restProps_of in *. cbn [filter fst].
  destruct (String.eqb_spec k key) as [->|Hne].
  - injection Hg as ->. rewrite key_no_flag. cbn [negb fold_left].
    rewrite property_fold_other; [apply property_key|].
    intros Hi. apply Hk. now apply keys_restProps_of.
  - destruct (WhereBuilder.is_flag k); cbn [negb fold_left].
    + now apply IH.
    + rewrite (IH _ Hr Hg). now rewrite property_other.
Qed.

Lemma fold_without (l : Suchparameter) (w : AutoWhereInput) :
  (forall v, In (key, v) l -> Js.isNaN (parse v) = true) ->
  fold_left WhereBuilder.build_entry (without key l) w
  = fold_left WhereBuilder.build_entry l w.
Proof.
  revert w. induction l as [|[k x] r IH]; intros w Hv; [reflexivity|].
  unfold without in *. cbn [filter fst].
  destruct (String.eqb_spec k key) as [->|Hne]; cbn [negb fold_left].
  - rewrite entry_NaN by (apply Hv; now left).
    apply IH. intros v Hi. apply Hv. now right.
  - apply IH. intros v Hi. apply Hv. now right.
Qed.

(** With the value [v] for the parameter, the filter compares with the
    number that [v] parses to; when [v] parses to no number, the filter is
    the one of the search without the parameter. *)
Lemma build_number_parameter (sp : Suchparameter) (v : string) :
  NoDup (keys sp) -> get key sp = Some v ->
  property (WhereBuilder.build sp)
  = (if Js.isNaN (parse v) then None else Some (compare (parse v)))
  /\ (Js.isNaN (parse v) = true ->
      WhereBuilder.build sp = WhereBuilder.build (without key sp)).
Proof.
  intros Hn Hg. split.
  - unfold WhereBuilder.build. cbv zeta.
    destruct (0 <? _); rewrite ?property_schlagwoerter;
      rewrite (property_fold sp _ v Hn Hg), property_empty; reflexivity.
  - intros E. unfold WhereBuilder.build. cbv zeta.
    rewrite (flags_of_without key sp key_no_flag), restProps_of_without.
    rewrite fold_without; [reflexivity|].
    intros x Hi. unfold WhereBuilder.restProps_of in Hi.
    apply filter_In in Hi. destruct Hi as [Hi _].
    now rewrite (get_In key sp v x Hn Hg Hi).
Qed.

End One_parameter.

Lemma rating_other (w : AutoWhereInput) (e : string * string) :
  fst e <> "rating" -> w_rating (WhereBuilder.build_entry w e) = w_rating w.
Proof.
  destruct e as [k v]. cbn [fst]. intros Hne. unfold WhereBuilder.build_entry.
  switch_cases; try reflexivity.
  all: exfalso; apply Hne; now apply String.eqb_eq.
Qed.

Lemma preis_other (w : AutoWhereInput) (e : string * string) :
  fst e <> "preis" -> w_preis (WhereBuilder.build_entry w e) = w_preis w.
Proof.
  destruct e as [k v]. cbn [fst]. intros Hne. unfold WhereBuilder.build_entry.
  switch_cases; try reflexivity.
  all: exfalso; apply Hne; now apply String.eqb_eq.
Qed.

Lemma build_entry_rating (w : AutoWhereInput) (v : string) :
  WhereBuilder.build_entry w ("rating", v)
  = if Js.isNaN (Js.parseInt v None) then w
    else set_rating w (gte (Js.parseInt v None)).
Proof.
  unfold WhereBuilder.build_entry.
  replace (String.eqb "rating" "identifikationsNummer") with false by reflexivity.
  replace (String.eqb "rating" "fin") with false by reflexivity.
  replace (String.eqb "rating" "rating") with true by reflexivity.
  cbv zeta. now destruct (Js.isNaN (Js.parseInt v None)).
Qed.

Lemma build_entry_preis (w : AutoWhereInput) (v : string) :
  WhereBuilder.build_entry w ("preis", v)
  = if Js.isNaN (Js.parseFloat v) then w
    else set_preis w (lte (Js.parseFloat v)).
Proof.
  unfold WhereBuilder.build_entry.
  replace (String.eqb "preis" "identifikationsNummer") with false by reflexivity.
  replace (String.eqb "preis" "fin") with false by reflexivity.
  replace (String.eqb "preis" "rating") with false by reflexivity.
  replace (String.eqb "preis" "preis") with true by reflexivity.
  cbv zeta. now destruct (Js.isNaN (Js.parseFloat v)).
Qed.

(** C7: [rating] gives the comparison [gte] with the number that
    [parseInt] reads, [preis] the comparison [lte] with the number that
    [parseFloat] reads; a value that reads as [NaN] gives no comparison, and
    the filter is then the filter of the search without that parameter. *)
Theorem build_rating_preis (sp : Suchparameter) :
  NoDup (keys sp) ->
  (forall v, get "rating" sp = Some v ->
     let n := Js.parseInt v None in
     w_rating (WhereBuilder.build sp)
     = (if Js.isNaN n then None else Some (gte n))
     /\ (Js.isNaN n = true ->
         WhereBuilder.build sp = WhereBuilder.build (without "rating" sp)))
  /\ (forall v, get "preis" sp = Some v ->
        let n := Js.parseFloat v in
        w_preis (WhereBuilder.build sp)
        = (if Js.isNaN n then None else Some (lte n))
        /\ (Js.isNaN n = true ->
            WhereBuilder.build sp = WhereBuilder.build (without "preis" sp))).
Proof.
  intros Hn. split; intros v Hg n; subst n.
  - apply (build_number_parameter "rating" w_rating
             (fun s => Js.parseInt s None) gte); auto using rating_other.
    + intros w x. rewrite build_entry_rating.
      now destruct (Js.isNaN (Js.parseInt x None)).
    + intros w x E. now rewrite build_entry_rating, E.
  - apply (build_number_parameter "preis" w_preis Js.parseFloat lte);
      auto using preis_other.
    + intros w x. rewrite build_entry_preis.
      now destruct (Js.isNaN (Js.parseFloat x)).
    + intros w x E. now rewrite build_entry_preis, E.
Qed.

Lemma NoDup_keys_example :
  NoDup (keys [("rating", "4"); ("preis", "abc"); ("suv", "true")]).
Proof.
  repeat constructor; simpl; intros H;
    repeat (destruct H as [H|H]; [discriminate H|]); exact H.
Qed.

(** [rating=4] compares, [preis=abc] does not. *)
Lemma build_rating_preis_witness :
  w_rating (WhereBuilder.build [("rating", "4"); ("preis", "abc"); ("suv", "true")])
  = Some (gte (Js.of_Z 4))
  /\ WhereBuilder.build [("rating", "4"); ("preis", "abc"); ("suv", "true")]
     = WhereBuilder.build [("rating", "4"); ("suv", "true")].
Proof.
  pose proof (build_rating_preis
                [("rating", "4"); ("preis", "abc"); ("suv", "true")]
                NoDup_keys_example) as [Hr Hp].
  split.
  - exact (proj1 (Hr "4" eq_refl)).
  - exact (proj2 (Hp "abc" eq_refl) eq_refl).
Defined.

Example build_rating_text : w_rating (WhereBuilder.build [("rating", "vier")]) = None.
Proof. reflexivity. Qed.

Example build_preis_number :
  w_preis (WhereBuilder.build [("preis", "35000.50")])
  = Some (lte (Js.Finite 3500050 (-2))).
Proof. reflexivity. Qed.

(* ================================================================== *)
(** * Further properties of the services *)

(** ** [delete] *)

Lemma delete_run (i : Z) (st : Store) :
  AutoWriteService.delete i st =
  match List.find (Prisma.has_id i) (autos st) with
  | Some _ =>
      (Ok true,
       {| autos := filter (fun r => negb (Prisma.has_id i r)) (autos st);
          auto_seq := auto_seq st;
          files := filter (fun f => negb (autoId f =? i)) (files st);
          file_seq := file_seq st |})
  | None => (Ok false, st)
  end.
Proof.
  unfold AutoWriteService.delete, bind, await, transaction,
    Prisma.auto_findUnique, Prisma.auto_delete, ret.
  destruct (List.find (Prisma.has_id i) (autos st)) eqn:E;
    cbn [option_map]; rewrite ?E; reflexivity.
Qed.

Lemma find_filter_out (i : Z) (l : list Auto) :
  List.find (Prisma.has_id i) (filter (fun r => negb (Prisma.has_id i r)) l) = None.
Proof.
  induction l as [|a l IH]; [reflexivity|]. cbn [filter].
  destruct (Prisma.has_id i a) eqn:E; cbn [negb]; [exact IH|].
  cbn [List.find]. now rewrite E.
Qed.

Lemma find_filter_other (i j : Z) (l : list Auto) :
  j <> i ->
  List.find (Prisma.has_id j) (filter (fun r => negb (Prisma.has_id i r)) l)
  = List.find (Prisma.has_id j) l.
Proof.
  intros Hne. induction l as [|a l IH]; [reflexivity|]. cbn [filter List.find].
  destruct (Prisma.has_id i a) eqn:Ei; cbn [negb].
  - destruct (Prisma.has_id j a) eqn:Ej; [|exact IH].
    unfold Prisma.has_id in *. apply Z.eqb_eq in Ei, Ej. congruence.
  - cbn [List.find]. destruct (Prisma.has_id j a); [reflexivity|exact IH].
Qed.

(** X1: [delete] of a key that no vehicle has returns [false] and changes
    nothing; [delete] of the key of a vehicle returns [true], after which
    [findById] for the key throws [NotFoundException], while every other
    vehicle is found as before. *)
Theorem delete_removes (i : Z) (st : Store) :
  let r := AutoWriteService.delete i st in
  match List.find (Prisma.has_id i) (autos st) with
  | None => r = (Ok false, st)
  | Some _ =>
      fst r = Ok true
      /\ (forall mit,
            fst (AutoService.findById i mit (snd r))
            = Err (NotFoundException (KeinAutoMitId (Some i))))
      /\ (forall j mit, j <> i ->
            fst (AutoService.findById j mit (snd r))
            = fst (AutoService.findById j mit st))
  end.
Proof.
  cbv zeta. rewrite delete_run.
  destruct (List.find (Prisma.has_id i) (autos st)) as [a|]; [|reflexivity].
  cbn [fst snd]. split; [reflexivity|]. split.
  - intros mit. rewrite findById_run. cbn [autos].
    now rewrite find_filter_out.
  - intros j mit Hne. rewrite !findById_run. cbn [autos].
    rewrite (find_filter_other i j _ Hne).
    now destruct (List.find (Prisma.has_id j) (autos st)).
Qed.

Lemma delete_removes_witness :
  fst (AutoWriteService.delete 2 Example_db.db) = Ok true
  /\ fst (AutoService.findById 2 false (snd (AutoWriteService.delete 2 Example_db.db)))
     = Err (NotFoundException (KeinAutoMitId (Some 2))).
Proof.
  pose proof (delete_removes 2 Example_db.db) as H. cbv zeta in H.
  change (List.find (Prisma.has_id 2) (autos Example_db.db))
    with (Some Example_db.auto2) in H.
  destruct H as (H1 & H2 & _). split; [exact H1|exact (H2 false)].
Defined.

(** ** The read service leaves the tables alone *)

Lemma slice_or_snd (m : Message) (rows : list Auto) (st : Store) :
  snd (slice_or m rows st) = st.
Proof. now destruct rows. Qed.

Lemma findFileByAutoId_run (i : Z) (st : Store) :
  AutoService.findFileByAutoId i st =
  match List.find (Prisma.has_id i) (autos st) with
  | None => (Err (NotFoundException (KeinAutoMitId (Some i))), st)
  | Some _ =>
      match List.find (fun f => autoId f =? i) (files st) with
      | None => (Err (NotFoundException (KeineDatei i)), st)
      | Some f => (Ok f, st)
      end
  end.
Proof.
  unfold AutoService.findFileByAutoId, bind, await, Prisma.auto_findUnique,
    Prisma.autoFile_findUnique, ret, throw.
  destruct (List.find (Prisma.has_id i) (autos st)); [|reflexivity].
  cbn [option_map]. now destruct (List.find _ (files st)).
Qed.

(** X2: No operation of the read service changes a table, whether it returns
    or throws. *)
Theorem read_service_changes_nothing (holds : AutoWhereInput -> Auto -> bool)
  (i : Z) (mit : bool) (sp : option Suchparameter) (p : Pageable) (st : Store) :
  snd (AutoService.findById i mit st) = st
  /\ snd (AutoService.find holds sp p st) = st
  /\ snd (AutoService.count holds st) = st
  /\ snd (AutoService.findFileByAutoId i st) = st.
Proof.
  repeat split.
  - rewrite findById_run. now destruct (List.find _ _).
  - rewrite find_run. destruct sp as [[|e q]|]; try apply slice_or_snd.
    destruct (_ && _); [apply slice_or_snd|reflexivity].
  - rewrite findFileByAutoId_run.
    destruct (List.find (Prisma.has_id i) _); [|reflexivity].
    now destruct (List.find _ (files st)).
Qed.

Lemma read_service_changes_nothing_witness :
  snd (AutoService.find Example_db.holds (Some [("foo", "bar")])
         Example_db.page0 Example_db.db) = Example_db.db.
Proof.
  exact (proj1 (proj2 (read_service_changes_nothing Example_db.holds 1 false
                         (Some [("foo", "bar")]) Example_db.page0 Example_db.db))).
Defined.

(** ** [findFileByAutoId] *)

(** X3: [findFileByAutoId] throws [NotFoundException] with the text for the
    vehicle when no vehicle has the key, with the text for the file when
    the vehicle has no file, and otherwise returns a file of that vehicle. *)
Theorem findFileByAutoId_cases (i : Z) (st : Store) :
  let r := fst (AutoService.findFileByAutoId i st) in
  (List.find (Prisma.has_id i) (autos st) = None ->
   r = Err (NotFoundException (KeinAutoMitId (Some i))))
  /\ (List.find (Prisma.has_id i) (autos st) <> None ->
      (forall f, In f (files st) -> autoId f <> i) ->
      r = Err (NotFoundException (KeineDatei i)))
  /\ (List.find (Prisma.has_id i) (autos st) <> None ->
      (exists f, In f (files st) /\ autoId f = i) ->
      exists f, r = Ok f /\ In f (files st) /\ autoId f = i).
Proof.
  cbv zeta. rewrite findFileByAutoId_run. repeat split.
  - now intros ->.
  - intros Ha Hf. destruct (List.find (Prisma.has_id i) _); [|congruence].
    destruct (List.find _ (files st)) as [f|] eqn:E; [|reflexivity].
    apply find_some in E. destruct E as [Hin E]. apply Z.eqb_eq in E.
    now destruct (Hf f Hin).
  - intros Ha (f & Hin & Hf). destruct (List.find (Prisma.has_id i) _); [|congruence].
    destruct (List.find _ (files st)) as [g|] eqn:E.
    + apply find_some in E. destruct E as [Hg E]. apply Z.eqb_eq in E.
      now exists g.
    + exfalso. apply (find_none _ _ E) in Hin. apply Z.eqb_neq in Hin. auto.
Qed.

Lemma findFileByAutoId_cases_witness :
  fst (AutoService.findFileByAutoId 1 Example_db.db)
  = Err (NotFoundException (KeineDatei 1)).
Proof.
  refine (proj1 (proj2 (findFileByAutoId_cases 1 Example_db.db)) _ _).
  - discriminate.
  - intros f [].
Defined.

(** ** [update]: what the version text is read as *)

Lemma substring_0_app_more (a b : string) (n : nat) :
  substring 0 (String.length a + n) (a ++ b) = a ++ substring 0 n b.
Proof. induction a as [|c a IH]; simpl; [reflexivity|now rewrite IH]. Qed.

Lemma slice_tail (q : ascii) (t : string) :
  Js.slice 1 (-1) (String q t) = substring 0 (String.length t - 1) t.
Proof.
  unfold Js.slice. cbn [String.length].
  replace (1 <? 0) with false by reflexivity.
  replace (-1 <? 0) with true by reflexivity.
  set (n := String.length t).
  replace (Z.min 1 (Z.of_nat (S n))) with 1 by lia.
  replace (Z.max (Z.of_nat (S n) + -1) 0) with (Z.of_nat n) by lia.
  replace (Z.to_nat 1) with 1%nat by reflexivity.
  replace (Z.to_nat (Z.max (Z.of_nat n - 1) 0)) with (n - 1)%nat by lia.
  reflexivity.
Qed.

(** The text between the first and the last character of a text that the
    pattern accepts: the digits, and then nothing or a quote and more. *)
Lemma slice_version (ds rest : string) :
  exists x,
    Js.slice 1 (-1) (Js.quoted ds ++ rest) = ds ++ x
    /\ (x = "" \/ exists y, x = String Js.dquote y).
Proof.
  rewrite quoted_app, slice_tail, length_app. cbn [String.length].
  replace (String.length ds + S (String.length rest) - 1)%nat
    with (String.length ds + String.length rest)%nat by lia.
  rewrite substring_0_app_more.
  destruct rest as [|c r]; cbn [String.length substring].
  - exists "". auto.
  - eexists. split; [reflexivity|]. right. eauto.
Qed.

Lemma read_digits_stop (ds x : string) :
  all_digits ds = true ->
  x = "" \/ (exists y, x = String Js.dquote y) ->
  forall acc seen,
    Js.read_digits 10 acc seen (ds ++ x)
    = (decimal_value acc ds, seen || negb (String.eqb ds ""), x).
Proof.
  intros H Hx. induction ds as [|c r IH]; intros acc seen.
  - cbn [append decimal_value String.eqb negb]. rewrite orb_false_r.
    destruct Hx as [->|[y ->]]; reflexivity.
  - simpl in H. apply andb_true_iff in H. destruct H as [Hc Hr].
    cbn [append Js.read_digits decimal_value].
    destruct (digit_value_digit c Hc) as [-> ->].
    rewrite (IH Hr). cbn [String.eqb negb]. now rewrite orb_true_r.
Qed.

Lemma parseInt_digits_then (ds x : string) :
  all_digits ds = true -> ds <> "" ->
  x = "" \/ (exists y, x = String Js.dquote y) ->
  Js.parseInt (ds ++ x) (Some 10) = Js.of_Z (decimal_value 0 ds).
Proof.
  intros H Hne Hx. pose proof (read_digits_stop ds x H Hx 0 false) as Hr.
  destruct ds as [|c r]; [congruence|].
  pose proof H as H'. simpl in H'. apply andb_true_iff in H'. destruct H' as [Hc _].
  unfold Js.parseInt. cbn [append Js.trimStart] in *.
  rewrite (digit_not_space c Hc), (digit_not_sign c _ Hc).
  replace (10 =? 0) with false by reflexivity.
  replace (10 =? 16) with false by reflexivity.
  cbn [orb andb]. replace ((10 <? 2) || (36 <? 10)) with false by reflexivity.
  rewrite Hr. reflexivity.
Qed.

Lemma is_digit_code (c : ascii) : Js.is_digit c = true -> 48 <= Js.code c <= 57.
Proof.
  unfold Js.is_digit. intros H. apply andb_true_iff in H. destruct H as [H1 H2].
  apply Z.leb_le in H1, H2. lia.
Qed.

Lemma decimal_value_3 (ds : string) :
  all_digits ds = true -> (String.length ds <= 3)%nat ->
  0 <= decimal_value 0 ds <= 999.
Proof.
  intros H Hl.
  destruct ds as [|c1 [|c2 [|c3 [|c4 r]]]]; simpl in Hl; try lia;
    simpl in H; repeat (apply andb_true_iff in H; destruct H as [?%is_digit_code H]);
    cbn [decimal_value]; lia.
Qed.

(** For a text that the pattern accepts, [update] compares the number
    between the quotes, a number from 0 to 999, whatever follows the
    closing quote. *)
Lemma parsed_version (s : string) :
  AutoWriteService.VERSION_PATTERN_test s = true ->
  exists v,
    Js.parseInt (Js.slice 1 (-1) s) (Some 10) = Js.of_Z v /\ 0 <= v <= 999.
Proof.
  intros H. apply VERSION_PATTERN_test_spec in H.
  destruct H as (ds & rest & -> & Hd & Hl).
  destruct (slice_version ds rest) as (x & -> & Hx).
  exists (decimal_value 0 ds). split.
  - apply parseInt_digits_then; try assumption.
    destruct ds; [simpl in Hl; lia|discriminate].
  - apply decimal_value_3; [assumption|lia].
Qed.

(** ** [update]: failures *)

(** X4: Every failure of [update] is one of three exceptions and leaves the
    tables as they were.  Without a key the text of [NotFoundException] has
    [undefined]; a version text that the pattern refuses is reported before
    the vehicle is looked up; the vehicle is looked up before the version
    numbers are compared. *)
Theorem update_failures (i : option Z) (u : AutoUpdate) (s : string) (st : Store) :
  let r := AutoWriteService.update i u s st in
  (forall e, fst r = Err e ->
     snd r = st
     /\ (e = NotFoundException (KeinAutoMitId i)
         \/ e = VersionInvalidException s
         \/ exists v, e = VersionOutdatedException (Js.of_Z v) /\ 0 <= v <= 999))
  /\ (i = None -> fst r = Err (NotFoundException (KeinAutoMitId None)))
  /\ (i <> None -> AutoWriteService.VERSION_PATTERN_test s = false ->
      fst r = Err (VersionInvalidException s))
  /\ (forall k, i = Some k -> AutoWriteService.VERSION_PATTERN_test s = true ->
      List.find (Prisma.has_id k) (autos st) = None ->
      fst r = Err (NotFoundException (KeinAutoMitId (Some k)))).
Proof.
  cbv zeta. destruct i as [k|].
  - rewrite update_run.
    destruct (AutoWriteService.VERSION_PATTERN_test s) eqn:Hp.
    + destruct (parsed_version s Hp) as (v & -> & Hv).
      destruct (List.find (Prisma.has_id k) (autos st)) as [a|] eqn:Hf; cbv zeta.
      * destruct (Js.lt _ _); (split; [|split; [|split]]);
          try solve [intros; congruence].
        -- intros e [= <-]. split; [reflexivity|]. right. right. now exists v.
        -- intros e He. discriminate He.
      * (split; [|split; [|split]]); try solve [intros; congruence].
        -- intros e [= <-]. split; [reflexivity|]. now left.
        -- now intros k0 [= <-] _ _.
    + (split; [|split; [|split]]); try solve [intros; congruence].
      * intros e [= <-]. split; [reflexivity|]. right. now left.
      * reflexivity.
  - (split; [|split; [|split]]); try solve [intros; congruence].
    + intros e [= <-]. split; [reflexivity|]. now left.
    + reflexivity.
Qed.

Lemma update_failures_witness :
  fst (AutoWriteService.update (Some 999) Example_db.geaendert "abc" Example_db.db)
  = Err (VersionInvalidException "abc").
Proof.
  refine (proj1 (proj2 (proj2 (update_failures (Some 999) Example_db.geaendert
                                 "abc" Example_db.db))) _ _).
  - discriminate.
  - reflexivity.
Defined.

(** ** [update]: the ceiling of the version *)

(** X5: A vehicle whose stored version has reached 1000 cannot be updated any
    more: every version text is either refused by the pattern or read as a
    number below 1000, which is outdated. *)
Theorem update_version_ceiling
  (i : Z) (u : AutoUpdate) (s : string) (st : Store) (a : Auto) :
  List.find (Prisma.has_id i) (autos st) = Some a ->
  1000 <= version a ->
  exists e, AutoWriteService.update (Some i) u s st = (Err e, st).
Proof.
  intros Hf Hv. rewrite update_run, Hf.
  destruct (AutoWriteService.VERSION_PATTERN_test s) eqn:Hp; [|eauto].
  destruct (parsed_version s Hp) as (v & -> & Hr). cbv zeta.
  rewrite lt_of_Z. replace (v <? version a) with true
    by (symmetry; apply Z.ltb_lt; lia).
  eauto.
Qed.

Lemma update_version_ceiling_witness :
  exists e,
    AutoWriteService.update (Some 7) Example_db.geaendert (Js.quoted "999") db1000
    = (Err e, db1000).
Proof.
  apply (update_version_ceiling 7 Example_db.geaendert (Js.quoted "999") db1000
           auto1000).
  - reflexivity.
  - simpl; lia.
Defined.

(** ** [update]: what a successful update changes *)




(** ** [update]: the same version twice *)

Lemma update_quoted_run (i : Z) (u : AutoUpdate) (ds : string) (st : Store) :
  all_digits ds = true ->
  (1 <= String.length ds <= 3)%nat ->
  AutoWriteService.update (Some i) u (Js.quoted ds) st =
  match List.find (Prisma.has_id i) (autos st) with
  | Some a =>
      if decimal_value 0 ds <? version a
      then (Err (VersionOutdatedException (Js.of_Z (decimal_value 0 ds))), st)
      else (Ok (Js.of_Z (version a + 1)),
            autos_updated (with_version (increment 1) u) i st)
  | None => (Err (NotFoundException (KeinAutoMitId (Some i))), st)
  end.
Proof.
  intros Hd Hl. rewrite update_run.
  replace (AutoWriteService.VERSION_PATTERN_test (Js.quoted ds)) with true.
  - rewrite slice_quoted, parseInt_digits;
      [|assumption|destruct ds; [simpl in Hl; lia|discriminate]].
    destruct (List.find (Prisma.has_id i) (autos st)); [|reflexivity].
    cbv zeta. now rewrite lt_of_Z.
  - symmetry. apply VERSION_PATTERN_test_spec. exists ds, "".
    split; [|split; assumption]. now rewrite quoted_app.
Qed.

(** X7: Of two updates that both carry the stored version, the first succeeds
    and the second throws [VersionOutdatedException] and changes nothing:
    the one who updates second has to read again. *)
Theorem update_same_version_twice
  (i : Z) (u1 u2 : AutoUpdate) (ds : string) (st : Store) (a : Auto) :
  List.find (Prisma.has_id i) (autos st) = Some a ->
  all_digits ds = true ->
  (1 <= String.length ds <= 3)%nat ->
  decimal_value 0 ds = version a ->
  let r1 := AutoWriteService.update (Some i) u1 (Js.quoted ds) st in
  fst r1 = Ok (Js.of_Z (version a + 1))
  /\ AutoWriteService.update (Some i) u2 (Js.quoted ds) (snd r1)
     = (Err (VersionOutdatedException (Js.of_Z (version a))), snd r1).
Proof.
  intros Hf Hd Hl Hv. cbv zeta.
  rewrite (update_quoted_run i u1 ds st Hd Hl), Hf, Hv, Z.ltb_irrefl.
  split; [reflexivity|]. cbn [snd].
  rewrite (update_quoted_run i u2 ds _ Hd Hl). cbn [autos_updated autos].
  rewrite (find_updated _ _ _ _ Hf), Hv.
  replace (version a <? version (Prisma.updated (with_version (increment 1) u1) a))
    with true by (symmetry; apply Z.ltb_lt; cbn; lia).
  reflexivity.
Qed.

Lemma update_same_version_twice_witness :
  fst (AutoWriteService.update (Some 2) Example_db.geaendert (Js.quoted "3")
         (snd (AutoWriteService.update (Some 2) Example_db.geaendert
                 (Js.quoted "3") Example_db.db)))
  = Err (VersionOutdatedException (Js.of_Z 3)).
Proof.
  pose proof (update_same_version_twice 2 Example_db.geaendert
                Example_db.geaendert "3" Example_db.db Example_db.auto2
                eq_refl eq_refl) as H.
  cbv zeta in H. destruct H as [_ H]; [simpl; lia|reflexivity|].
  now rewrite H.
Defined.

(** ** [create] and [findById] *)

Lemma find_app_last {A} (f : A -> bool) (l : list A) (x : A) :
  List.find f l = None -> f x = true -> List.find f (l ++ [x]) = Some x.
Proof.
  intros Hn Hx. induction l as [|a l IH]; simpl in *.
  - now rewrite Hx.
  - destruct (f a); [discriminate|now apply IH].
Qed.

(** X8: When [create] returns a key, [findById] with that key returns the
    vehicle with the columns, the registration and the equipment of the
    input, and with the empty list of keywords where the input has none.
    The key must be new to the table, which is what the sequence of the
    database is for. *)
Theorem create_then_findById (holds : AutoWhereInput -> Auto -> bool)
  (d : AutoCreate) (st : Store) (n : Js.JsNumber) :
  List.find (Prisma.has_id (auto_seq st + 1)) (autos st) = None ->
  fst (AutoWriteService.create holds d st) = Ok n ->
  exists k f a,
    n = Js.of_Z k
    /\ c_fin d = Some f
    /\ fst (AutoService.findById k true (snd (AutoWriteService.create holds d st)))
       = Ok a
    /\ id a = k /\ version a = c_version d /\ fin a = f
    /\ rating a = c_rating d /\ art a = c_art d
    /\ preis a = c_preis d /\ rabatt a = c_rabatt d
    /\ verfuegbar a = c_verfuegbar d /\ baujahr a = c_baujahr d
    /\ homepage a = c_homepage d
    /\ schlagwoerter a
       = Some (match c_schlagwoerter d with Some ks => ks | None => [] end)
    /\ fahrzeugschein a = Some (c_fahrzeugschein d)
    /\ ausstattungen a = c_ausstattungen d.
Proof.
  intros Hnew H. destruct (c_fin d) as [f|] eqn:Hf.
  - revert H. rewrite (create_run holds d f st Hf).
    destruct (0 <? fin_count holds f st)%nat; [discriminate|].
    cbn [fst snd]. intros [= <-].
    exists (auto_seq st + 1), f.
    eexists. split; [reflexivity|]. split; [reflexivity|].
    rewrite findById_run. cbn [autos].
    rewrite (find_app_last _ _ (created_row d f st) Hnew)
      by (unfold Prisma.has_id; cbn; apply Z.eqb_refl).
    split; [reflexivity|].
    unfold AutoService.default_schlagwoerter, Prisma.included, created_row.
    cbn [schlagwoerter].
    destruct (c_schlagwoerter d); repeat split.
  - exfalso. revert H.
    unfold AutoWriteService.create, AutoWriteService.validateCreate, bind,
      transaction, await, Prisma.auto_create, ret.
    rewrite Hf. discriminate.
Qed.

Lemma create_then_findById_witness :
  exists a,
    fst (AutoService.findById 4 true
           (snd (AutoWriteService.create Example_db.holds Example_db.neu
                   Example_db.db))) = Ok a
    /\ fin a = "HUN12345678923451" /\ version a = 0.
Proof.
  destruct (create_then_findById Example_db.holds Example_db.neu Example_db.db
              (Js.of_Z 4) eq_refl eq_refl)
    as (k & f & a & Hk & Hf & Ha & _ & Hv & Hfin & _).
  injection Hk as <-. injection Hf as <-.
  exists a. repeat split; assumption.
Defined.

(** ** [create] keeps the FIN unique *)

Lemma count_0_not_In (f : string) (l : list Auto) :
  List.length (filter (fun a => String.eqb (fin a) f) l) = 0%nat ->
  ~ In f (map fin l).
Proof.
  induction l as [|a l IH]; cbn [filter map]; [auto|].
  destruct (String.eqb_spec (fin a) f) as [E|E]; [discriminate|].
  intros H [Hin|Hin]; [contradiction|now apply IH].
Qed.

(** X9: When the database counts the rows with a FIN by comparing the FIN, and
    no two vehicles share a FIN, then no two vehicles share a FIN after
    [create], whether it returns or throws. *)
Theorem create_keeps_fin_unique (holds : AutoWhereInput -> Auto -> bool)
  (d : AutoCreate) (st : Store) :
  (forall f a, holds (set_fin empty_where (equals f)) a = String.eqb (fin a) f) ->
  NoDup (map fin (autos st)) ->
  NoDup (map fin (autos (snd (AutoWriteService.create holds d st)))).
Proof.
  intros Hh Hn. destruct (c_fin d) as [f|] eqn:Hf.
  - rewrite (create_run holds d f st Hf).
    destruct (0 <? fin_count holds f st)%nat eqn:Hc; [exact Hn|].
    cbn [snd autos]. rewrite map_app. cbn [map created_row fin].
    apply Nat.ltb_ge in Hc.
    assert (H0 : List.length (filter (fun a => String.eqb (fin a) f) (autos st)) = 0%nat).
    { unfold fin_count, Prisma.selected in Hc.
      rewrite (filter_ext _ _ (Hh f)) in Hc. lia. }
    apply count_0_not_In in H0.
    apply NoDup_app; [exact Hn|repeat constructor; auto| ].
    intros x Hx [<-|[]]. contradiction.
  - unfold AutoWriteService.create, AutoWriteService.validateCreate, bind,
      transaction, await, Prisma.auto_create, ret.
    rewrite Hf. exact Hn.
Qed.

Lemma example_holds_fin (f : string) (a : Auto) :
  Example_db.holds (set_fin empty_where (equals f)) a = String.eqb (fin a) f.
Proof.
  unfold Example_db.holds, Example_db.on, Example_db.string_filter, set_fin,
    empty_where.
  cbn. now rewrite !andb_true_r.
Qed.

Lemma NoDup_fin_example : NoDup (map fin (autos Example_db.db)).
Proof.
  repeat constructor; simpl; intros H;
    repeat (destruct H as [H|H]; [discriminate H|]); exact H.
Qed.

Lemma create_keeps_fin_unique_witness :
  NoDup (map fin (autos (snd (AutoWriteService.create Example_db.holds
                                Example_db.neu Example_db.db)))).
Proof.
  exact (create_keeps_fin_unique Example_db.holds Example_db.neu Example_db.db
           example_holds_fin NoDup_fin_example).
Defined.

(** ** [addFile] for a vehicle of the table *)

Lemma existsb_find_some (i : Z) (l : list Auto) (a : Auto) :
  List.find (Prisma.has_id i) l = Some a -> existsb (Prisma.has_id i) l = true.
Proof.
  intros H. apply find_some in H. apply existsb_exists. now exists a.
Qed.

Lemma filter_file_out (i : Z) (l : list AutoFile) :
  filter (fun f => autoId f =? i) (filter (fun f => negb (autoId f =? i)) l) = [].
Proof.
  induction l as [|f l IH]; [reflexivity|]. cbn [filter].
  destruct (autoId f =? i) eqn:E; cbn [negb filter]; [exact IH|].
  now rewrite E.
Qed.

Lemma filter_file_other (i j : Z) (l : list AutoFile) :
  j <> i ->
  filter (fun f => autoId f =? j) (filter (fun f => negb (autoId f =? i)) l)
  = filter (fun f => autoId f =? j) l.
Proof.
  intros Hne. induction l as [|f l IH]; [reflexivity|]. cbn [filter].
  destruct (autoId f =? i) eqn:Ei; cbn [negb filter].
  - destruct (autoId f =? j) eqn:Ej; [|exact IH].
    apply Z.eqb_eq in Ei, Ej. congruence.
  - destruct (autoId f =? j); [now rewrite IH|exact IH].
Qed.

Lemma find_filter_nil {A} (f : A -> bool) (l : list A) :
  filter f l = [] -> List.find f l = None.
Proof.
  induction l as [|a l IH]; [reflexivity|]. cbn [filter List.find].
  destruct (f a); [discriminate|exact IH].
Qed.

(** X10: After [addFile] for a vehicle of the table, the vehicle has exactly
    one file, the new one, whatever files it had before; [findFileByAutoId]
    returns that file; the files of the other vehicles and the vehicles
    themselves are as before. *)
Theorem addFile_replaces
  (fk : bool) (sniff : list Byte.byte -> option string)
  (i : Z) (d : Uint8Array) (name : string) (size : Z) (st : Store) (a : Auto) :
  List.find (Prisma.has_id i) (autos st) = Some a ->
  let r := AutoWriteService.addFile fk sniff i d name size st in
  exists f,
    fst r = Ok (Some f)
    /\ filter (fun g => autoId g =? i) (files (snd r)) = [f]
    /\ fst (AutoService.findFileByAutoId i (snd r)) = Ok f
    /\ (forall j, j <> i ->
          filter (fun g => autoId g =? j) (files (snd r))
          = filter (fun g => autoId g =? j) (files st))
    /\ autos (snd r) = autos st.
Proof.
  intros Ha. cbv zeta. rewrite addFile_run, (existsb_find_some _ _ _ Ha).
  cbn [negb andb]. rewrite andb_false_r. cbv zeta. cbn [fst snd files autos].
  eexists. split; [reflexivity|].
  assert (E : filter (fun g => autoId g =? i)
                (filter (fun f => negb (autoId f =? i)) (files st) ++
                 [{| file_id := file_seq st + 1; filename := name;
                     data := buffer d; mimetype := sniff (bytes_of d);
                     autoId := i |}])
              = [{| file_id := file_seq st + 1; filename := name;
                    data := buffer d; mimetype := sniff (bytes_of d);
                    autoId := i |}]).
  { rewrite filter_app, filter_file_out. cbn [filter autoId app].
    now rewrite Z.eqb_refl. }
  split; [exact E|]. split; [|split; [|reflexivity]].
  - rewrite findFileByAutoId_run. cbn [autos files]. rewrite Ha.
    rewrite (find_app_last (fun f => autoId f =? i) _ _
               (find_filter_nil _ _ (filter_file_out i (files st))))
      by (cbn [autoId]; apply Z.eqb_refl).
    reflexivity.
  - intros j Hne. rewrite filter_app, (filter_file_other i j _ Hne).
    cbn [filter autoId]. apply Z.eqb_neq in Hne. rewrite Z.eqb_sym in Hne.
    rewrite Hne. apply app_nil_r.
Qed.

Lemma addFile_replaces_witness :
  exists f,
    fst (AutoWriteService.addFile true Example_db.sniff 1 Example_db.png
           "neu.png" 4 db_file) = Ok (Some f)
    /\ filter (fun g => autoId g =? 1)
         (files (snd (AutoWriteService.addFile true Example_db.sniff 1
                        Example_db.png "neu.png" 4 db_file))) = [f]
    /\ filename f = "neu.png".
Proof.
  destruct (addFile_replaces true Example_db.sniff 1 Example_db.png "neu.png" 4
              db_file Example_db.auto1 eq_refl) as (f & H1 & H2 & _).
  exists f. repeat split; try assumption.
  cbv zeta in H1. injection H1 as <-. reflexivity.
Defined.

(** ** [addFile]: the bytes that are stored *)

Lemma length_bytes_of (d : Uint8Array) :
  (List.length (bytes_of d) <= byteLength d)%nat.
Proof. unfold bytes_of. apply firstn_le_length. Qed.

(** X11: The MIME type of the stored file is read from the bytes that the array
    shows, but the bytes stored are those of the whole buffer behind the
    array: when the array is a window into a longer buffer, more bytes are
    stored than were uploaded. *)
Theorem addFile_stores_buffer
  (fk : bool) (sniff : list Byte.byte -> option string)
  (i : Z) (d : Uint8Array) (name : string) (size : Z) (st : Store)
  (f : AutoFile) :
  fst (AutoWriteService.addFile fk sniff i d name size st) = Ok (Some f) ->
  data f = buffer d
  /\ mimetype f = sniff (bytes_of d)
  /\ filename f = name
  /\ autoId f = i
  /\ ((byteLength d < List.length (buffer d))%nat ->
      (List.length (bytes_of d) < List.length (data f))%nat).
Proof.
  rewrite addFile_run. destruct (fk && _); [discriminate|].
  cbv zeta. cbn [fst]. intros [= <-]. cbn [data mimetype filename autoId].
  repeat split. intros H. pose proof (length_bytes_of d). lia.
Qed.

Lemma addFile_stores_buffer_witness :
  exists f,
    fst (AutoWriteService.addFile true Example_db.sniff 1 window "w.png" 2
           Example_db.db) = Ok (Some f)
    /\ bytes_of window = [Byte.x89; Byte.x50]
    /\ List.length (data f) = 6%nat.
Proof.
  eexists. split; [reflexivity|]. split; [reflexivity|].
  rewrite (proj1 (addFile_stores_buffer true Example_db.sniff 1 window "w.png" 2
                    Example_db.db _ eq_refl)).
  reflexivity.
Defined.

(** ** [find]: the parameters it refuses *)

Lemma forallb_false_Exists {A} (f : A -> bool) (l : list A) :
  forallb f l = false <-> Exists (fun x => f x = false) l.
Proof.
  induction l as [|a l IH]; cbn [forallb].
  - split; [discriminate|intros H; inversion H].
  - rewrite andb_false_iff, IH. split.
    + intros [H|H]; [now left|now right].
    + intros H. inversion H; subst; [now left|now right].
Qed.

Lemma key_ok_false (key : string) :
  key_ok key = false <->
  ~ In key suchparameterNamen /\ ~ In key WhereBuilder.flag_names.
Proof.
  pose proof (key_ok_spec key) as H. destruct (key_ok key).
  - split; [discriminate|]. intros [H1 H2].
    destruct (proj1 H eq_refl); contradiction.
  - split; [|reflexivity]. intros _.
    split; intros Hin; [assert (false = true) by (apply H; now left)
                       |assert (false = true) by (apply H; now right)];
      discriminate.
Qed.

Lemma checkKeys_false (ks : list string) :
  AutoService.checkKeys ks = false <->
  Exists (fun k => ~ In k suchparameterNamen /\ ~ In k WhereBuilder.flag_names) ks.
Proof.
  rewrite checkKeys_forallb, forallb_false_Exists, !Exists_exists.
  split; intros (k & Hin & H); exists k; (split; [assumption|]);
    now apply key_ok_false.
Qed.

Lemma checkEnums_false (sp : Suchparameter) :
  AutoService.checkEnums sp = false <->
  exists v, get "art" sp = Some v /\ forall a, v <> Autoart_name a.
Proof.
  pose proof (checkEnums_spec sp) as H.
  destruct (AutoService.checkEnums sp) eqn:E.
  - split; [discriminate|]. intros (v & Hv & Hn).
    destruct (proj1 H eq_refl v Hv) as [a Ha]. now destruct (Hn a).
  - split; [|reflexivity]. intros _.
    unfold AutoService.checkEnums in E.
    destruct (get "art" sp) as [v|]; [|discriminate].
    exists v. split; [reflexivity|]. intros a ->.
    destruct a; discriminate E.
Qed.

(** X12: [find] throws 'Ungueltige Suchparameter' exactly when there are search
    parameters and a key is neither a name of [suchparameterNamen] nor a
    flag, or [art] is given and names no category.  The keys [lieferbar]
    and [datum], which [build] knows, are among the keys it refuses. *)
Theorem find_invalid_parameters_iff (holds : AutoWhereInput -> Auto -> bool)
  (sp : Suchparameter) (p : Pageable) (st : Store) :
  (invalid_parameters (AutoService.find holds (Some sp) p st) <->
   Exists (fun k => ~ In k suchparameterNamen /\ ~ In k WhereBuilder.flag_names)
     (keys sp)
   \/ exists v, get "art" sp = Some v /\ forall a, v <> Autoart_name a)
  /\ (In "lieferbar" (keys sp) \/ In "datum" (keys sp) ->
      invalid_parameters (AutoService.find holds (Some sp) p st)).
Proof.
  assert (Hiff :
    invalid_parameters (AutoService.find holds (Some sp) p st) <->
    Exists (fun k => ~ In k suchparameterNamen /\ ~ In k WhereBuilder.flag_names)
      (keys sp)
    \/ exists v, get "art" sp = Some v /\ forall a, v <> Autoart_name a).
  { unfold invalid_parameters. rewrite find_run.
    rewrite <- checkKeys_false, <- checkEnums_false.
    destruct sp as [|e q].
    - split.
      + unfold slice_or. destruct (requested_page _ _ _ _); discriminate.
      + intros [H|H]; discriminate H.
    - destruct (AutoService.checkKeys _), (AutoService.checkEnums _);
        cbn [andb]; split; auto;
        try (intros [H|H]; discriminate H);
        unfold slice_or; destruct (requested_page _ _ _ _); discriminate. }
  split; [exact Hiff|].
  intros H. apply Hiff. left. apply Exists_exists.
  destruct H as [H|H]; eexists; (split; [exact H|]);
    split; simpl; intros F;
    repeat (destruct F as [F|F]; [discriminate F|]); exact F.
Qed.

Lemma find_invalid_parameters_iff_witness :
  invalid_parameters
    (AutoService.find Example_db.holds (Some [("datum", "2020-01-01")])
       Example_db.page0 Example_db.db).
Proof.
  apply (proj2 (find_invalid_parameters_iff Example_db.holds
                  [("datum", "2020-01-01")] Example_db.page0 Example_db.db)).
  right. now left.
Defined.

(** ** [find]: the vehicles of a slice *)

Lemma find_Ok_where (holds : AutoWhereInput -> Auto -> bool)
  (sp : option Suchparameter) (p : Pageable) (st : Store) (s : Slice Auto) :
  fst (AutoService.find holds sp p st) = Ok s ->
  requested_page holds (where_of sp) p st <> []
  /\ content s = map as_read (requested_page holds (where_of sp) p st).
Proof.
  rewrite find_run. unfold as_read. rewrite <- map_map.
  destruct sp as [[|e q]|]; cbn [where_of].
  - intros H. apply slice_or_Ok in H. tauto.
  - destruct (AutoService.checkKeys _ && AutoService.checkEnums _);
      [|discriminate].
    intros H. apply slice_or_Ok in H. tauto.
  - intros H. apply slice_or_Ok in H. tauto.
Qed.

Lemma id_as_read (a : Auto) : id (as_read a) = id a.
Proof. unfold as_read. now rewrite id_default_schlagwoerter, id_included. Qed.

(** X13: A slice that [find] returns has at most as many vehicles as the page
    size, which is then not 0; each of them is a row of the table, and with
    search parameters a row for which the database says that the filter of
    [build] holds. *)
Theorem find_content (holds : AutoWhereInput -> Auto -> bool)
  (sp : option Suchparameter) (p : Pageable) (st : Store) (s : Slice Auto) :
  fst (AutoService.find holds sp p st) = Ok s ->
  (0 < List.length (content s) <= size p)%nat
  /\ Forall (fun a =>
               exists row,
                 In row (autos st) /\ a = as_read row
                 /\ forall w, where_of sp = Some w -> holds w row = true)
            (content s).
Proof.
  intros H. destruct (find_Ok_where holds sp p st s H) as [Hne ->].
  rewrite length_map. split.
  - split.
    + destruct (requested_page _ _ _ _); [congruence|simpl; lia].
    + unfold requested_page, Prisma.page_rows. apply firstn_le_length.
  - apply Forall_forall. intros a Ha. apply in_map_iff in Ha.
    destruct Ha as (row & <- & Hrow). exists row.
    split; [eapply page_rows_incl, Hrow|]. split; [reflexivity|].
    intros w Hw. unfold requested_page, Prisma.page_rows in Hrow. rewrite Hw in Hrow.
    assert (H2 : In row (Prisma.selected holds (Some w) st)).
    { assert (H1 : In row (skipn (number p * size p) (Prisma.selected holds (Some w) st))).
      { rewrite <- (firstn_skipn (size p)). apply in_or_app. now left. }
      rewrite <- (firstn_skipn (number p * size p)). apply in_or_app. now right. }
    unfold Prisma.selected in H2. apply filter_In in H2. tauto.
Qed.

Lemma find_content_witness :
  (0 < List.length
         (content_of (AutoService.find Example_db.holds (Some [("rating", "4")])
                        {| number := 0; size := 1 |} Example_db.db)) <= 1)%nat.
Proof.
  exact (proj1 (find_content Example_db.holds (Some [("rating", "4")])
                  {| number := 0; size := 1 |} Example_db.db _ eq_refl)).
Defined.

(** ** [find]: the pages *)

Lemma firstn_plus {A} (n m : nat) (l : list A) :
  firstn (n + m) l = (firstn n l ++ firstn m (skipn n l))%list.
Proof.
  revert l. induction n as [|n IH]; intros l; [reflexivity|].
  destruct l as [|a l]; cbn [Nat.add firstn skipn app].
  - now rewrite firstn_nil.
  - now rewrite IH.
Qed.

Lemma content_of_find (holds : AutoWhereInput -> Auto -> bool)
  (sp : option Suchparameter) (p : Pageable) (st : Store) :
  checked sp = true ->
  content_of (AutoService.find holds sp p st)
  = map as_read (requested_page holds (where_of sp) p st).
Proof.
  unfold content_of, checked, as_read. rewrite find_run, <- map_map.
  destruct sp as [[|e q]|]; cbn [where_of]; intros Hc; rewrite ?Hc;
    unfold slice_or; destruct (requested_page _ _ _ _); reflexivity.
Qed.

(** X14: For search parameters that pass the checks, the pages 0 to [k - 1] of
    [find], one after the other, are the first [k * size] rows of the
    table that satisfy the filter, in the order of the table: no row comes
    twice and none is left out. *)
Theorem find_pages (holds : AutoWhereInput -> Auto -> bool)
  (sp : option Suchparameter) (size_ k : nat) (st : Store) :
  checked sp = true ->
  pages_upto holds sp size_ k st
  = map as_read (firstn (k * size_) (Prisma.selected holds (where_of sp) st)).
Proof.
  intros Hc. unfold pages_upto. induction k as [|k IH]; [reflexivity|].
  rewrite seq_S, flat_map_app, IH. cbn [flat_map Nat.add].
  rewrite app_nil_r, (content_of_find holds sp _ st Hc).
  unfold requested_page, Prisma.page_rows. cbn [number size].
  replace (S k * size_)%nat with (k * size_ + size_)%nat by lia.
  now rewrite firstn_plus, map_app.
Qed.

Lemma find_pages_witness :
  map id (pages_upto Example_db.holds None 2 2 Example_db.db) = [1; 2; 3].
Proof.
  rewrite (find_pages Example_db.holds None 2 2 Example_db.db eq_refl).
  reflexivity.
Defined.

(* ================================================================== *)
(** * Further properties of [WhereBuilder] *)

(** ** Keys that [build] does not know *)

Lemma build_entry_unknown (w : AutoWhereInput) (key v : string) :
  ~ In key table_parameters -> WhereBuilder.build_entry w (key, v) = w.
Proof.
  intros Hn. unfold WhereBuilder.build_entry.
  assert (E : forall x, In x table_parameters -> String.eqb key x = false).
  { intros x Hx. apply String.eqb_neq. intros ->. contradiction. }
  rewrite !E by in_list. reflexivity.
Qed.

Lemma fold_without_unknown (key : string) (l : Suchparameter) (w : AutoWhereInput) :
  ~ In key table_parameters ->
  fold_left WhereBuilder.build_entry (without key l) w
  = fold_left WhereBuilder.build_entry l w.
Proof.
  intros Hn. revert w. induction l as [|[k x] r IH]; intros w; [reflexivity|].
  unfold without in *. cbn [filter fst].
  destruct (String.eqb_spec k key) as [->|Hne]; cbn [negb fold_left].
  - now rewrite build_entry_unknown.
  - apply IH.
Qed.

Lemma get_None (key : string) (sp : Suchparameter) :
  get key sp = None <-> ~ In key (keys sp).
Proof.
  induction sp as [|[k v] r IH]; cbn [get keys map fst In]; [tauto|].
  destruct (String.eqb_spec k key) as [->|Hne].
  - split; [discriminate|]. intros H. exfalso. apply H. now left.
  - rewrite IH. unfold keys. tauto.
Qed.

Lemma required_keywords_nil (sp : Suchparameter) :
  (forall flag, In flag WhereBuilder.flag_names -> ~ flag_set sp flag) ->
  required_keywords sp = [].
Proof.
  intros H. destruct (required_keywords sp) as [|k ks] eqn:E; [reflexivity|].
  assert (Hk : In k (required_keywords sp)) by (rewrite E; now left).
  apply keywords_In in Hk. destruct Hk as (flag & Hf & Hs & _).
  now destruct (H flag Hf).
Qed.

(** X15: A key that is neither in the [switch] of [build] nor a flag has no
    effect on the filter; among the keys that [find] accepts these are
    [rabatt] and [schlagwoerter].  When no key of the search is in the
    [switch] or a flag, the filter is empty, so that the search returns
    the vehicles of the whole table. *)
Theorem build_ignores_unknown (sp : Suchparameter) :
  (forall key,
     ~ In key table_parameters -> ~ In key WhereBuilder.flag_names ->
     WhereBuilder.build sp = WhereBuilder.build (without key sp))
  /\ (Forall (fun k => ~ In k table_parameters /\ ~ In k WhereBuilder.flag_names)
        (keys sp) ->
      WhereBuilder.build sp = empty_where)
  /\ (forall key, In key suchparameterNamen ->
        ~ In key table_parameters <-> key = "rabatt" \/ key = "schlagwoerter").
Proof.
  split; [|split].
  - intros key Hn Hf. unfold WhereBuilder.build. cbv zeta.
    assert (Hflag : WhereBuilder.is_flag key = false).
    { destruct (WhereBuilder.is_flag key) eqn:E; [|reflexivity].
      unfold WhereBuilder.is_flag in E. apply existsb_exists in E.
      destruct E as (x & Hx & E). apply String.eqb_eq in E. now subst. }
    rewrite (flags_of_without key sp Hflag), restProps_of_without.
    now rewrite fold_without_unknown.
  - intros H. rewrite Forall_forall in H. unfold WhereBuilder.build. cbv zeta.
    fold (required_keywords sp). rewrite required_keywords_nil.
    + cbn [List.length Z.of_nat Z.ltb Z.compare].
      assert (E : forall l w,
                (forall e, In e l -> ~ In (fst e) table_parameters) ->
                fold_left WhereBuilder.build_entry l w = w).
      { induction l as [|[k v] r IH]; intros w Hl; [reflexivity|].
        cbn [fold_left]. rewrite build_entry_unknown.
        - apply IH. intros e He. apply Hl. now right.
        - apply (Hl (k, v)). now left. }
      apply E. intros e He. unfold WhereBuilder.restProps_of in He.
      apply filter_In in He. destruct He as [He _].
      apply (H (fst e)). unfold keys. now apply in_map.
    + intros flag Hf (v & Hg & _).
      assert (Hin : In flag (keys sp)).
      { destruct (get flag sp) eqn:E; [|discriminate].
        assert (Hx : get flag sp <> None) by congruence.
        rewrite get_None in Hx.
        destruct (in_dec string_dec flag (keys sp)); [assumption|contradiction]. }
      destruct (H flag Hin) as [_ Hnf]. contradiction.
  - intros key Hk. simpl in Hk.
    repeat (destruct Hk as [<-|Hk]); try contradiction;
      (split; [intros Hn; try solve [exfalso; apply Hn; in_list]; auto
              |intros [E|E]; try discriminate E;
               simpl; intros F;
               repeat (destruct F as [F|F]; [discriminate F|]); exact F]).
Qed.

Lemma build_ignores_unknown_witness :
  WhereBuilder.build [("rabatt", "0.1"); ("schlagwoerter", "SUV")] = empty_where.
Proof.
  apply (proj1 (proj2 (build_ignores_unknown
                         [("rabatt", "0.1"); ("schlagwoerter", "SUV")]))).
  repeat constructor; simpl; intros F;
    repeat (destruct F as [F|F]; [discriminate F|]); exact F.
Defined.

(** ** The parameters that [build] compares *)

Section One_key.

(** A property of the filter that one key of the [switch] assigns: the
    key, the property, and the condition that a value gives, if any. *)
Variable T : Type.
Variable key : string.
Variable property : AutoWhereInput -> option T.
Variable condition : string -> option T.

Hypothesis key_no_flag : WhereBuilder.is_flag key = false.

Hypothesis property_other : forall w e,
  fst e <> key -> property (WhereBuilder.build_entry w e) = property w.

Hypothesis property_key : forall w v,
  property (WhereBuilder.build_entry w (key, v))
  = match condition v with Some c => Some c | None => property w end.

Hypothesis property_schlagwoerter : forall w f,
  property (set_schlagwoerter w f) = property w.

Hypothesis property_empty : property empty_where = None.

Lemma property_fold_absent (l : Suchparameter) (w : AutoWhereInput) :
  ~ In key (keys l) ->
  property (fold_left WhereBuilder.build_entry l w) = property w.
Proof.
  revert w. induction l as [|e l IH]; intros w Hn; [reflexivity|].
  cbn [fold_left]. rewrite IH.
  - apply property_other. intros E. apply Hn. left. exact E.
  - intros Hi. apply Hn. right. exact Hi.
Qed.

Lemma restProps_keys (l : Suchparameter) (k : string) :
  In k (keys (WhereBuilder.restProps_of l)) -> In k (keys l).
Proof.
  unfold keys, WhereBuilder.restProps_of. rewrite !in_map_iff.
  intros (e & <- & He). apply filter_In in He. exists e. tauto.
Qed.

Lemma property_fold_get (l : Suchparameter) (w : AutoWhereInput) :
  NoDup (keys l) ->
  property (fold_left WhereBuilder.build_entry (WhereBuilder.restProps_of l) w)
  = match get key l with
    | Some v => match condition v with Some c => Some c | None => property w end
    | None => property w
    end.
Proof.
  revert w. induction l as [|[k x] r IH]; intros w Hn; [reflexivity|].
  cbn [keys map fst] in Hn. inversion Hn as [|? ? Hk Hr]; subst.
  cbn [get]. unfold WhereBuilder.restProps_of in *. cbn [filter fst].
  destruct (String.eqb_spec k key) as [->|Hne].
  - rewrite key_no_flag. cbn [negb fold_left].
    rewrite property_fold_absent; [apply property_key|].
    intros Hi. apply Hk. now apply restProps_keys.
  - destruct (WhereBuilder.is_flag k); cbn [negb fold_left].
    + now apply IH.
    + rewrite (IH _ Hr). rewrite (property_other w (k, x)) by exact Hne.
      reflexivity.
Qed.

Lemma property_build (sp : Suchparameter) :
  NoDup (keys sp) ->
  property (WhereBuilder.build sp)
  = match get key sp with Some v => condition v | None => None end.
Proof.
  intros Hn. unfold WhereBuilder.build. cbv zeta.
  destruct (0 <? _); rewrite ?property_schlagwoerter;
    rewrite (property_fold_get sp _ Hn), property_empty;
    destruct (get key sp) as [v|]; try reflexivity;
    now destruct (condition v).
Qed.

End One_key.

Lemma fin_other (w : AutoWhereInput) (e : string * string) :
  fst e <> "fin" -> w_fin (WhereBuilder.build_entry w e) = w_fin w.
Proof.
  destruct e as [k v]. cbn [fst]. intros Hne. unfold WhereBuilder.build_entry.
  switch_cases; try reflexivity.
  all: exfalso; apply Hne; now apply String.eqb_eq.
Qed.

Lemma art_other (w : AutoWhereInput) (e : string * string) :
  fst e <> "art" -> w_art (WhereBuilder.build_entry w e) = w_art w.
Proof.
  destruct e as [k v]. cbn [fst]. intros Hne. unfold WhereBuilder.build_entry.
  switch_cases; try reflexivity.
  all: exfalso; apply Hne; now apply String.eqb_eq.
Qed.

Lemma homepage_other (w : AutoWhereInput) (e : string * string) :
  fst e <> "homepage" -> w_homepage (WhereBuilder.build_entry w e) = w_homepage w.
Proof.
  destruct e as [k v]. cbn [fst]. intros Hne. unfold WhereBuilder.build_entry.
  switch_cases; try reflexivity.
  all: exfalso; apply Hne; now apply String.eqb_eq.
Qed.

Lemma fahrzeugschein_other (w : AutoWhereInput) (e : string * string) :
  fst e <> "identifikationsNummer" ->
  w_fahrzeugschein (WhereBuilder.build_entry w e) = w_fahrzeugschein w.
Proof.
  destruct e as [k v]. cbn [fst]. intros Hne. unfold WhereBuilder.build_entry.
  switch_cases; try reflexivity.
  all: exfalso; apply Hne; now apply String.eqb_eq.
Qed.

(** X16: For search parameters with distinct keys: [fin], [art] and [homepage]
    give the comparison [equals] with the value as it is,
    [identifikationsNummer] gives [contains] with the value and without
    regard to case, and each of these, like [rating] and [preis], gives no
    condition when the key is absent. *)
Theorem build_parameters (sp : Suchparameter) :
  NoDup (keys sp) ->
  w_fin (WhereBuilder.build sp) = option_map equals (get "fin" sp)
  /\ w_art (WhereBuilder.build sp) = option_map equals (get "art" sp)
  /\ w_homepage (WhereBuilder.build sp) = option_map equals (get "homepage" sp)
  /\ w_fahrzeugschein (WhereBuilder.build sp)
     = option_map
         (fun v => {| w_identifikationsNummer :=
                        {| contains := v; mode := insensitive |} |})
         (get "identifikationsNummer" sp)
  /\ (get "rating" sp = None -> w_rating (WhereBuilder.build sp) = None)
  /\ (get "preis" sp = None -> w_preis (WhereBuilder.build sp) = None).
Proof.
  intros Hn. repeat split.
  - rewrite (property_build _ "fin" w_fin (fun v => Some (equals v)));
      auto using fin_other.
  - rewrite (property_build _ "art" w_art (fun v => Some (equals v)));
      auto using art_other.
  - rewrite (property_build _ "homepage" w_homepage (fun v => Some (equals v)));
      auto using homepage_other.
  - rewrite (property_build _ "identifikationsNummer" w_fahrzeugschein
               (fun v => Some {| w_identifikationsNummer :=
                                   {| contains := v; mode := insensitive |} |}));
      auto using fahrzeugschein_other.
  - intros Hg.
    rewrite (property_build _ "rating" w_rating
               (fun v => if Js.isNaN (Js.parseInt v None) then None
                         else Some (gte (Js.parseInt v None))));
      auto using rating_other.
    + now rewrite Hg.
    + intros w v. rewrite build_entry_rating.
      now destruct (Js.isNaN (Js.parseInt v None)).
  - intros Hg.
    rewrite (property_build _ "preis" w_preis
               (fun v => if Js.isNaN (Js.parseFloat v) then None
                         else Some (lte (Js.parseFloat v))));
      auto using preis_other.
    + now rewrite Hg.
    + intros w v. rewrite build_entry_preis.
      now destruct (Js.isNaN (Js.parseFloat v)).
Qed.

Lemma NoDup_keys_example2 :
  NoDup (keys [("fin", "WDB123456789XYZ01"); ("identifikationsNummer", "ka-")]).
Proof.
  repeat constructor; simpl; intros H;
    repeat (destruct H as [H|H]; [discriminate H|]); exact H.
Qed.

Lemma build_parameters_witness :
  w_fin (WhereBuilder.build
           [("fin", "WDB123456789XYZ01"); ("identifikationsNummer", "ka-")])
  = Some (equals "WDB123456789XYZ01").
Proof.
  exact (proj1 (build_parameters _ NoDup_keys_example2)).
Defined.

(** ** A name and its alias *)

Lemma verfuegbar_other (w : AutoWhereInput) (e : string * string) :
  fst e <> "verfuegbar" -> fst e <> "lieferbar" ->
  w_verfuegbar (WhereBuilder.build_entry w e) = w_verfuegbar w.
Proof.
  destruct e as [k v]. cbn [fst]. intros H1 H2. unfold WhereBuilder.build_entry.
  switch_cases; try reflexivity.
  all: exfalso; first [apply H1; now apply String.eqb_eq
                      |apply H2; now apply String.eqb_eq].
Qed.

Lemma baujahr_other (w : AutoWhereInput) (e : string * string) :
  fst e <> "baujahr" -> fst e <> "datum" ->
  w_baujahr (WhereBuilder.build_entry w e) = w_baujahr w.
Proof.
  destruct e as [k v]. cbn [fst]. intros H1 H2. unfold WhereBuilder.build_entry.
  switch_cases; try reflexivity.
  all: exfalso;
    match goal with
    | H : (_ || _) = true |- _ =>
        apply orb_true_iff in H; destruct H as [H|H]; apply String.eqb_eq in H;
        [now apply H1|now apply H2]
    end.
Qed.

Section Two_keys.

(** A property of the filter that a key and its alias assign. *)
Variable T : Type.
Variable name alias : string.
Variable property : AutoWhereInput -> option T.
Variable condition : string -> T.

Hypothesis name_no_flag : WhereBuilder.is_flag name = false.
Hypothesis alias_no_flag : WhereBuilder.is_flag alias = false.

Hypothesis property_other : forall w e,
  fst e <> name -> fst e <> alias ->
  property (WhereBuilder.build_entry w e) = property w.

Hypothesis property_name : forall w v,
  property (WhereBuilder.build_entry w (name, v)) = Some (condition v).

Hypothesis property_alias : forall w v,
  property (WhereBuilder.build_entry w (alias, v)) = Some (condition v).

Hypothesis property_schlagwoerter : forall w f,
  property (set_schlagwoerter w f) = property w.

Hypothesis property_empty : property empty_where = None.

Lemma property_fold_neither (l : Suchparameter) (w : AutoWhereInput) :
  ~ In name (keys l) -> ~ In alias (keys l) ->
  property (fold_left WhereBuilder.build_entry l w) = property w.
Proof.
  revert w. induction l as [|e l IH]; intros w H1 H2; [reflexivity|].
  cbn [fold_left]. rewrite IH.
  - apply property_other; intros E; [apply H1|apply H2]; left; exact E.
  - intros Hi. apply H1. right. exact Hi.
  - intros Hi. apply H2. right. exact Hi.
Qed.

Lemma restProps_of_app (l1 l2 : Suchparameter) :
  WhereBuilder.restProps_of (l1 ++ l2)%list
  = (WhereBuilder.restProps_of l1 ++ WhereBuilder.restProps_of l2)%list.
Proof. apply filter_app. Qed.

Lemma restProps_not_In (l : Suchparameter) (k : string) :
  ~ In k (keys l) -> ~ In k (keys (WhereBuilder.restProps_of l)).
Proof.
  intros H Hi. apply H. unfold keys, WhereBuilder.restProps_of in *.
  rewrite in_map_iff in *. destruct Hi as (e & <- & He).
  apply filter_In in He. exists e. tauto.
Qed.

(** The last entry with the name or the alias decides. *)
Lemma property_last (l1 l2 : Suchparameter) (k v : string) :
  k = name \/ k = alias ->
  ~ In name (keys l2) -> ~ In alias (keys l2) ->
  property (WhereBuilder.build (l1 ++ (k, v) :: l2)%list) = Some (condition v).
Proof.
  intros Hk H1 H2. unfold WhereBuilder.build. cbv zeta.
  assert (E : property
                (fold_left WhereBuilder.build_entry
                   (WhereBuilder.restProps_of (l1 ++ (k, v) :: l2)%list) empty_where)
              = Some (condition v)).
  { rewrite restProps_of_app. unfold WhereBuilder.restProps_of at 2.
    cbn [filter fst].
    replace (WhereBuilder.is_flag k) with false
      by (destruct Hk as [->| ->]; congruence).
    cbn [negb]. rewrite fold_left_app. cbn [fold_left].
    fold (WhereBuilder.restProps_of l2).
    rewrite property_fold_neither by (now apply restProps_not_In).
    destruct Hk as [->| ->]; [apply property_name|apply property_alias]. }
  destruct (0 <? _); rewrite ?property_schlagwoerter; exact E.
Qed.

(** Without the name and the alias there is no condition. *)
Lemma property_neither (sp : Suchparameter) :
  ~ In name (keys sp) -> ~ In alias (keys sp) ->
  property (WhereBuilder.build sp) = None.
Proof.
  intros H1 H2. unfold WhereBuilder.build. cbv zeta.
  destruct (0 <? _); rewrite ?property_schlagwoerter;
    rewrite property_fold_neither by (now apply restProps_not_In);
    exact property_empty.
Qed.

Lemma get_Some_In (k v : string) (l : Suchparameter) :
  get k l = Some v -> In (k, v) l.
Proof.
  induction l as [|[k0 v0] r IH]; cbn [get]; [discriminate|].
  destruct (String.eqb_spec k0 k) as [->|Hne].
  - intros [= ->]. now left.
  - intros H. right. now apply IH.
Qed.

Lemma NoDup_keys_split (l1 l2 : Suchparameter) (k v : string) :
  NoDup (keys (l1 ++ (k, v) :: l2)%list) -> ~ In k (keys l2).
Proof.
  unfold keys. rewrite map_app. cbn [map fst]. intros H Hi.
  apply NoDup_remove_2 in H. apply H. apply in_or_app. now right.
Qed.

Lemma keys_split_not_In (l1 l2 : Suchparameter) (k v x : string) :
  ~ In x (keys (l1 ++ (k, v) :: l2)%list) -> ~ In x (keys l2).
Proof.
  unfold keys. rewrite map_app. cbn [map fst]. intros H Hi.
  apply H. apply in_or_app. right. now right.
Qed.

(** With distinct keys, and not both the name and the alias, the property
    is the condition for the value of the one that is given. *)
Lemma property_get (sp : Suchparameter) :
  NoDup (keys sp) ->
  ~ (In name (keys sp) /\ In alias (keys sp)) ->
  property (WhereBuilder.build sp)
  = option_map condition
      (match get name sp with Some v => Some v | None => get alias sp end).
Proof.
  intros Hn Hb.
  destruct (get name sp) as [v|] eqn:E1.
  - pose proof (get_Some_In _ _ _ E1) as Hi.
    assert (Ha : ~ In alias (keys sp)).
    { intros Ha. apply Hb. split; [|assumption].
      change name with (fst (name, v)). now apply in_map. }
    apply in_split in Hi. destruct Hi as (l1 & l2 & ->).
    apply property_last; [now left| |].
    + eapply NoDup_keys_split, Hn.
    + eapply keys_split_not_In, Ha.
  - apply get_None in E1. destruct (get alias sp) as [v|] eqn:E2.
    + pose proof (get_Some_In _ _ _ E2) as Hi.
      apply in_split in Hi. destruct Hi as (l1 & l2 & ->).
      apply property_last; [now right| |].
      * eapply keys_split_not_In, E1.
      * eapply NoDup_keys_split, Hn.
    + apply get_None in E2. now apply property_neither.
Qed.

End Two_keys.

(** X17: [verfuegbar] and its alias [lieferbar] set the same property of the
    filter, and so do [baujahr] and [datum]: of several entries the last
    one decides.  The condition for [verfuegbar] is [true] exactly when the
    value is [true] in some mix of upper and lower case; every other
    value, like [yes] or [1], searches for the vehicles that are not
    available. *)
Theorem build_alias (l1 l2 : Suchparameter) (k v : string) :
  (k = "verfuegbar" \/ k = "lieferbar" ->
   ~ In "verfuegbar" (keys l2) -> ~ In "lieferbar" (keys l2) ->
   w_verfuegbar (WhereBuilder.build (l1 ++ (k, v) :: l2)%list)
   = Some (equals (String.eqb (Js.toLowerCase v) "true")))
  /\ (k = "baujahr" \/ k = "datum" ->
      ~ In "baujahr" (keys l2) -> ~ In "datum" (keys l2) ->
      w_baujahr (WhereBuilder.build (l1 ++ (k, v) :: l2)%list)
      = Some (gte (new_Date v))).
Proof.
  split.
  - apply (property_last _ "verfuegbar" "lieferbar" w_verfuegbar
             (fun v => equals (String.eqb (Js.toLowerCase v) "true")));
      auto using verfuegbar_other.
  - apply (property_last _ "baujahr" "datum" w_baujahr
             (fun v => gte (new_Date v))); auto using baujahr_other.
Qed.

Lemma build_alias_witness :
  w_verfuegbar
    (WhereBuilder.build [("verfuegbar", "true"); ("lieferbar", "yes")])
  = Some (equals false).
Proof.
  refine (proj1 (build_alias [("verfuegbar", "true")] [] "lieferbar" "yes") _ _ _).
  - now right.
  - intros [].
  - intros [].
Defined.

(** ** The keywords and the order of the parameters *)

Lemma NoDup_flat_map_if {A B} (c : A -> bool) (g : A -> B) (l : list A) :
  NoDup l ->
  (forall x y, In x l -> In y l -> g x = g y -> x = y) ->
  NoDup (flat_map (fun x => if c x then [g x] else []) l).
Proof.
  induction l as [|a l IH]; intros Hn Hg; cbn [flat_map]; [constructor|].
  inversion Hn as [|? ? Ha Hl]; subst.
  assert (IH' : NoDup (flat_map (fun x => if c x then [g x] else []) l)).
  { apply IH; [assumption|]. intros x y Hx Hy. apply Hg; now right. }
  destruct (c a); [|exact IH']. cbn [app]. constructor; [|exact IH'].
  intros Hi. apply in_flat_map in Hi. destruct Hi as (x & Hx & Hi).
  destruct (c x); [|contradiction]. destruct Hi as [E|[]].
  apply Ha. rewrite (Hg a x); [assumption|now left|now right|now symmetry].
Qed.

Lemma NoDup_flag_names : NoDup WhereBuilder.flag_names.
Proof.
  unfold WhereBuilder.flag_names.
  repeat (constructor;
          [simpl; intros H;
           repeat (destruct H as [H|H]; [discriminate H|]); exact H|]).
  constructor.
Qed.

Lemma length_flat_map_if {A B} (c : A -> bool) (g : A -> B) (l : list A) :
  (List.length (flat_map (fun x => if c x then [g x] else []) l)
   <= List.length l)%nat.
Proof.
  induction l as [|a l IH]; cbn [flat_map List.length]; [lia|].
  rewrite List.length_app. destruct (c a); cbn [List.length]; lia.
Qed.

Lemma get_Permutation (k : string) (l l' : Suchparameter) :
  NoDup (keys l) -> Permutation l l' -> get k l = get k l'.
Proof.
  intros Hn Hp. induction Hp as [|[k0 v0] l l' Hp IH|[k1 v1] [k2 v2] l|l l' l'' H1 IH1 H2 IH2].
  - reflexivity.
  - cbn [keys map fst] in Hn. inversion Hn; subst. cbn [get].
    destruct (String.eqb k0 k); [reflexivity|now apply IH].
  - cbn [keys map fst] in Hn. inversion Hn as [|? ? Hk _]; subst. cbn [get].
    destruct (String.eqb_spec k1 k) as [->|], (String.eqb_spec k2 k) as [->|];
      try reflexivity.
    exfalso. apply Hk. now left.
  - rewrite IH1 by assumption. apply IH2.
    apply (Permutation_NoDup (l := keys l)); [|assumption].
    unfold keys. now apply Permutation_map.
Qed.

(** X18: The list of keywords has no keyword twice and at most nineteen; it
    follows the order of the flags in [buildSchlagwoerter], so that for
    search parameters with distinct keys it does not depend on the order
    in which the flags were given. *)
Theorem keywords_order (sp sp' : Suchparameter) :
  NoDup (required_keywords sp)
  /\ (List.length (required_keywords sp) <= 19)%nat
  /\ required_keywords sp
     = map keyword_of
         (filter (fun flag => WhereBuilder.is_true (get flag sp))
            WhereBuilder.flag_names)
  /\ (NoDup (keys sp) -> Permutation sp sp' ->
      required_keywords sp = required_keywords sp').
Proof.
  split; [|split; [|split]].
  - rewrite required_keywords_by_table. unfold keywords_by_table.
    apply NoDup_flat_map_if; [exact NoDup_flag_names|].
    intros x y Hx Hy. now apply keyword_of_inj.
  - rewrite required_keywords_by_table. unfold keywords_by_table.
    apply (length_flat_map_if _ _ WhereBuilder.flag_names).
  - rewrite required_keywords_by_table. unfold keywords_by_table.
    induction WhereBuilder.flag_names as [|f l IH]; [reflexivity|].
    cbn [flat_map filter]. rewrite IH.
    now destruct (WhereBuilder.is_true (get f sp)).
  - intros Hn Hp. unfold required_keywords. f_equal.
    unfold WhereBuilder.flags_of.
    now rewrite !(fun k => get_Permutation k sp sp' Hn Hp).
Qed.

Lemma keywords_order_witness :
  required_keywords [("tech", "true"); ("allrad", "TRUE")]
  = required_keywords [("allrad", "TRUE"); ("tech", "true")].
Proof.
  refine (proj2 (proj2 (proj2 (keywords_order
            [("tech", "true"); ("allrad", "TRUE")]
            [("allrad", "TRUE"); ("tech", "true")]))) _ _).
  - repeat constructor; simpl; intros H;
      repeat (destruct H as [H|H]; [discriminate H|]); exact H.
  - apply perm_swap.
Defined.

(** ** The filter and the order of the parameters *)

Lemma where_ext (w w' : AutoWhereInput) :
  w_fahrzeugschein w = w_fahrzeugschein w' ->
  w_fin w = w_fin w' ->
  w_rating w = w_rating w' ->
  w_preis w = w_preis w' ->
  w_art w = w_art w' ->
  w_verfuegbar w = w_verfuegbar w' ->
  w_baujahr w = w_baujahr w' ->
  w_homepage w = w_homepage w' ->
  w_schlagwoerter w = w_schlagwoerter w' ->
  w = w'.
Proof. destruct w, w'; cbn. intros; subst; reflexivity. Qed.

Lemma build_schlagwoerter_field (sp : Suchparameter) :
  w_schlagwoerter (WhereBuilder.build sp)
  = match required_keywords sp with
    | [] => None
    | ks => Some {| array_contains := ks |}
    end.
Proof.
  unfold WhereBuilder.build. cbv zeta. fold (required_keywords sp).
  destruct (required_keywords sp) as [|k ks].
  - cbn [List.length Z.of_nat Z.ltb Z.compare].
    now rewrite fold_build_entry_schlagwoerter.
  - replace (0 <? Z.of_nat (List.length (k :: ks))) with true
      by (symmetry; apply Z.ltb_lt; simpl; lia).
    reflexivity.
Qed.

(** The filter by the values of the keys, for search parameters with
    distinct keys that do not have both a name and its alias. *)
Lemma build_by_get (sp : Suchparameter) :
  NoDup (keys sp) ->
  ~ (In "verfuegbar" (keys sp) /\ In "lieferbar" (keys sp)) ->
  ~ (In "baujahr" (keys sp) /\ In "datum" (keys sp)) ->
  WhereBuilder.build sp =
  {| w_fahrzeugschein :=
       option_map
         (fun v => {| w_identifikationsNummer :=
                        {| contains := v; mode := insensitive |} |})
         (get "identifikationsNummer" sp);
     w_fin := option_map equals (get "fin" sp);
     w_rating :=
       match get "rating" sp with
       | Some v => if Js.isNaN (Js.parseInt v None) then None
                   else Some (gte (Js.parseInt v None))
       | None => None
       end;
     w_preis :=
       match get "preis" sp with
       | Some v => if Js.isNaN (Js.parseFloat v) then None
                   else Some (lte (Js.parseFloat v))
       | None => None
       end;
     w_art := option_map equals (get "art" sp);
     w_verfuegbar :=
       option_map (fun v => equals (String.eqb (Js.toLowerCase v) "true"))
         (match get "verfuegbar" sp with
          | Some v => Some v
          | None => get "lieferbar" sp
          end);
     w_baujahr :=
       option_map (fun v => gte (new_Date v))
         (match get "baujahr" sp with
          | Some v => Some v
          | None => get "datum" sp
          end);
     w_homepage := option_map equals (get "homepage" sp);
     w_schlagwoerter :=
       match required_keywords sp with
       | [] => None
       | ks => Some {| array_contains := ks |}
       end |}.
Proof.
  intros Hn Hv Hb.
  apply where_ext; cbn [w_fahrzeugschein w_fin w_rating w_preis w_art
                        w_verfuegbar w_baujahr w_homepage w_schlagwoerter].
  - rewrite (property_build _ "identifikationsNummer" w_fahrzeugschein
               (fun v => Some {| w_identifikationsNummer :=
                                   {| contains := v; mode := insensitive |} |}));
      auto using fahrzeugschein_other.
  - rewrite (property_build _ "fin" w_fin (fun v => Some (equals v)));
      auto using fin_other.
  - rewrite (property_build _ "rating" w_rating
               (fun v => if Js.isNaN (Js.parseInt v None) then None
                         else Some (gte (Js.parseInt v None))));
      auto using rating_other.
    intros w v. rewrite build_entry_rating.
    now destruct (Js.isNaN (Js.parseInt v None)).
  - rewrite (property_build _ "preis" w_preis
               (fun v => if Js.isNaN (Js.parseFloat v) then None
                         else Some (lte (Js.parseFloat v))));
      auto using preis_other.
    intros w v. rewrite build_entry_preis.
    now destruct (Js.isNaN (Js.parseFloat v)).
  - rewrite (property_build _ "art" w_art (fun v => Some (equals v)));
      auto using art_other.
  - apply (property_get _ "verfuegbar" "lieferbar" w_verfuegbar
             (fun v => equals (String.eqb (Js.toLowerCase v) "true")));
      auto using verfuegbar_other.
  - apply (property_get _ "baujahr" "datum" w_baujahr
             (fun v => gte (new_Date v))); auto using baujahr_other.
  - rewrite (property_build _ "homepage" w_homepage (fun v => Some (equals v)));
      auto using homepage_other.
  - apply build_schlagwoerter_field.
Qed.

Lemma In_keys_Permutation (k : string) (l l' : Suchparameter) :
  Permutation l l' -> In k (keys l') -> In k (keys l).
Proof.
  intros Hp. apply Permutation_in. unfold keys.
  apply Permutation_map. now apply Permutation_sym.
Qed.

(** X19: For search parameters with distinct keys that do not have both
    [verfuegbar] and [lieferbar] and not both [baujahr] and [datum], the
    filter does not depend on the order of the parameters. *)
Theorem build_order (sp sp' : Suchparameter) :
  NoDup (keys sp) ->
  ~ (In "verfuegbar" (keys sp) /\ In "lieferbar" (keys sp)) ->
  ~ (In "baujahr" (keys sp) /\ In "datum" (keys sp)) ->
  Permutation sp sp' ->
  WhereBuilder.build sp = WhereBuilder.build sp'.
Proof.
  intros Hn Hv Hb Hp.
  assert (Hn' : NoDup (keys sp')).
  { apply (Permutation_NoDup (l := keys sp)); [|assumption].
    unfold keys. now apply Permutation_map. }
  rewrite (build_by_get sp Hn Hv Hb).
  rewrite (build_by_get sp' Hn').
  - rewrite !(fun k => get_Permutation k sp sp' Hn Hp).
    unfold required_keywords, WhereBuilder.flags_of.
    now rewrite !(fun k => get_Permutation k sp sp' Hn Hp).
  - intros [H1 H2]. apply Hv. split; eapply In_keys_Permutation; eassumption.
  - intros [H1 H2]. apply Hb. split; eapply In_keys_Permutation; eassumption.
Qed.

Lemma build_order_witness :
  WhereBuilder.build [("rating", "4"); ("suv", "true"); ("lieferbar", "true")]
  = WhereBuilder.build [("suv", "true"); ("rating", "4"); ("lieferbar", "true")].
Proof.
  apply build_order.
  - repeat constructor; simpl; intros H;
      repeat (destruct H as [H|H]; [discriminate H|]); exact H.
  - simpl. intros [H _].
    repeat (destruct H as [H|H]; [discriminate H|]); exact H.
  - simpl. intros [H _].
    repeat (destruct H as [H|H]; [discriminate H|]); exact H.
  - apply perm_swap.
Defined.

(* ================================================================== *)
(** * Properties of the entity classes and of the write controller *)

(** ** From the entity to the update *)

(** X20: An update with the data that the controller makes of an entity
    overwrites every column with the value of the entity, and with the
    default where the entity leaves an optional property out: no rebate is
    the rebate 0, no availability is [false], no keywords are the empty
    list, no category, year or homepage is [null].  The version 0 that the
    data carry is not stored: the version goes up by 1.  The registration
    and the equipment stay. *)
Theorem update_from_entity (toNumber : Js.JsNumber -> Js.JsNumber)
  (dto : Dto.AutoDtoOhneRef) (i : Z) (s : string) (st : Store) (n : Js.JsNumber) :
  let r := AutoWriteService.update (Some i)
             (AutoWriteController.autoDtoToAutoUpdate toNumber dto) s st in
  fst r = Ok n ->
  exists a a',
    List.find (Prisma.has_id i) (autos st) = Some a
    /\ List.find (Prisma.has_id i) (autos (snd r)) = Some a'
    /\ version a' = version a + 1
    /\ fin a' = Dto.d_fin dto
    /\ rating a' = Dto.d_rating dto
    /\ art a' = Dto.d_art dto
    /\ preis a' = toNumber (Dto.d_preis dto)
    /\ rabatt a' = match Dto.d_rabatt dto with
                   | Some x => toNumber x
                   | None => Js.of_Z 0
                   end
    /\ verfuegbar a' = match Dto.d_verfuegbar dto with
                       | Some b => b
                       | None => false
                       end
    /\ baujahr a' = Dto.d_baujahr dto
    /\ homepage a' = Dto.d_homepage dto
    /\ schlagwoerter a' = Some (match Dto.d_schlagwoerter dto with
                                | Some ks => ks
                                | None => []
                                end)
    /\ fahrzeugschein a' = fahrzeugschein a
    /\ ausstattungen a' = ausstattungen a.
Proof.
  cbv zeta. rewrite update_run.
  destruct (AutoWriteService.VERSION_PATTERN_test s); [|discriminate].
  destruct (List.find (Prisma.has_id i) (autos st)) as [a|] eqn:Hf; [|discriminate].
  cbv zeta. destruct (Js.lt _ _); [discriminate|].
  cbn [fst snd]. intros _.
  exists a. eexists. split; [reflexivity|].
  cbn [autos_updated autos]. split; [apply (find_updated _ _ _ _ Hf)|].
  unfold Dto.nullish. cbn.
  destruct (Dto.d_rabatt dto), (Dto.d_verfuegbar dto), (Dto.d_schlagwoerter dto);
    repeat split.
Qed.

Lemma update_from_entity_witness :
  exists a',
    List.find (Prisma.has_id 1)
      (autos (snd (AutoWriteService.update (Some 1)
                     (AutoWriteController.autoDtoToAutoUpdate (fun x => x)
                        (Dto.ohne_ref dto_min))
                     (Js.quoted "0") Example_db.db))) = Some a'
    /\ version a' = 1
    /\ verfuegbar a' = false
    /\ schlagwoerter a' = Some [].
Proof.
  destruct (update_from_entity (fun x => x) (Dto.ohne_ref dto_min) 1
              (Js.quoted "0") Example_db.db (Js.of_Z 1) eq_refl)
    as (a & a' & Ha & Ha' & Hv & _ & _ & _ & _ & _ & Hb & _ & _ & Hs & _).
  injection Ha as <-. exists a'. repeat split; assumption.
Defined.

(** ** From the entity to the new vehicle *)




(** ** The validators of the decimal numbers *)

Lemma pow10_pos (k : Z) : 0 <= k -> 0 < 10 ^ k.
Proof. intros H. apply Z.pow_pos_nonneg; lia. Qed.

Lemma lt_0_Finite (m e : Z) : Js.lt (Js.of_Z 0) (Js.Finite m e) = (0 <? m).
Proof.
  unfold Js.lt, Js.of_Z. cbv zeta. rewrite Z.mul_0_l.
  pose proof (pow10_pos (e - Z.min 0 e) ltac:(lia)) as Hp.
  destruct (Z.ltb_spec 0 m), (Z.ltb_spec 0 (m * 10 ^ (e - Z.min 0 e)));
    try reflexivity; nia.
Qed.

Lemma lt_Finite_0 (m e : Z) : Js.lt (Js.Finite m e) (Js.of_Z 0) = (m <? 0).
Proof.
  unfold Js.lt, Js.of_Z. cbv zeta. rewrite Z.mul_0_l.
  pose proof (pow10_pos (e - Z.min e 0) ltac:(lia)) as Hp.
  destruct (Z.ltb_spec m 0), (Z.ltb_spec (m * 10 ^ (e - Z.min e 0)) 0);
    try reflexivity; nia.
Qed.

Lemma lt_Finite_1 (m e : Z) :
  0 < m ->
  Js.lt (Js.Finite m e) (Js.of_Z 1) = (e <? 0) && (m <? 10 ^ (- e)).
Proof.
  intros Hm. unfold Js.lt, Js.of_Z. cbv zeta. rewrite Z.mul_1_l.
  destruct (Z.ltb_spec e 0) as [He|He]; cbn [andb].
  - replace (Z.min e 0) with e by lia.
    rewrite Z.sub_diag, Z.sub_0_l. change (10 ^ 0) with 1.
    now rewrite Z.mul_1_r.
  - replace (Z.min e 0) with 0 by lia.
    rewrite Z.sub_0_r, Z.sub_diag. change (10 ^ 0) with 1.
    pose proof (pow10_pos e He). apply Z.ltb_ge. nia.
Qed.

(** X22: The price of a vehicle is valid exactly when it is above 0, so that
    the price 0 is refused, in whatever way it is written; a rebate that is
    given is valid exactly when it is above 0 and below 1, so that 0 and 1
    are refused; no rebate is valid; [NaN] is refused.  The price of an
    equipment item is valid from 0 on. *)
Theorem decimal_validators (m e : Z) :
  Dto.preis_valid (Js.Finite m e) = (0 <? m)
  /\ Dto.preis_valid Js.NaN = false
  /\ Dto.rabatt_valid None = true
  /\ Dto.rabatt_valid (Some Js.NaN) = false
  /\ (Dto.rabatt_valid (Some (Js.Finite m e)) = true <->
      0 < m /\ e < 0 /\ m < 10 ^ (- e))
  /\ Dto.Ausstattung_DecimalMin_validate (Some (Js.Finite m e)) [Js.of_Z 0]
     = (0 <=? m).
Proof.
  unfold Dto.preis_valid, Dto.rabatt_valid, Dto.DecimalMin_validate,
    Dto.DecimalMax_validate, Dto.Ausstattung_DecimalMin_validate.
  split; [apply lt_0_Finite|]. split; [reflexivity|]. split; [reflexivity|].
  split; [reflexivity|]. split.
  - rewrite lt_0_Finite, andb_true_iff, Z.ltb_lt. split.
    + intros [Hm H]. rewrite (lt_Finite_1 m e Hm) in H.
      apply andb_true_iff in H. destruct H as [He H].
      apply Z.ltb_lt in He, H. auto.
    + intros (Hm & He & H). split; [assumption|].
      rewrite (lt_Finite_1 m e Hm). apply andb_true_iff.
      split; now apply Z.ltb_lt.
  - unfold Js.le. change (Js.of_Z 0) with (Js.Finite 0 0) at 1.
    cbv iota beta. change (Js.Finite 0 0) with (Js.of_Z 0).
    rewrite lt_Finite_0. destruct (Z.ltb_spec m 0), (Z.leb_spec 0 m);
      try reflexivity; lia.
Qed.

Lemma decimal_validators_witness :
  Dto.rabatt_valid (Some (Js.Finite 5 (-2))) = true.
Proof.
  apply (proj1 (proj2 (proj2 (proj2 (proj2 (decimal_validators 5 (-2))))))).
  repeat split; reflexivity.
Defined.

(** ** The pattern and the length of [identifikationsNummer] *)

Lemma read_class_length (class : ascii -> bool) (max : nat) (s : string) :
  (fst (Dto.read_class class max s) <= max)%nat
  /\ String.length s
     = (fst (Dto.read_class class max s)
        + String.length (snd (Dto.read_class class max s)))%nat.
Proof.
  revert s. induction max as [|m IH]; intros s; [cbn; lia|].
  destruct s as [|c r]; [cbn; lia|]. cbn [Dto.read_class].
  destruct (class c); [|cbn; lia].
  specialize (IH r). destruct (Dto.read_class class m r) as [n rest].
  cbn [fst snd String.length] in *. lia.
Qed.

(** X23: A text that the pattern accepts has between 4 and 11 code units, and
    the limit of 10 code units refuses exactly the accepted texts with 11:
    three letters, the hyphen, three letters and four digits. *)
Theorem identifikationsNummer_length (s : string) :
  Dto.identifikationsNummer_matches s = true ->
  (4 <= String.length s <= 11)%nat
  /\ (Dto.identifikationsNummer_valid s = false <-> String.length s = 11%nat).
Proof.
  unfold Dto.identifikationsNummer_valid, Dto.MaxLength. intros H. rewrite H.
  cbn [andb]. unfold Dto.identifikationsNummer_matches in H.
  pose proof (read_class_length Dto.is_upper_umlaut 3 s) as H1.
  destruct (Dto.read_class Dto.is_upper_umlaut 3 s) as [n1 r1].
  destruct r1 as [|c r2]; [discriminate|].
  destruct (Ascii.eqb_spec c "-") as [->|Hc];
    [|destruct c as [[] [] [] [] [] [] [] []]; try discriminate H; congruence].
  pose proof (read_class_length Dto.is_upper 3 r2) as H2.
  destruct (Dto.read_class Dto.is_upper 3 r2) as [n2 r3].
  pose proof (read_class_length Js.is_digit 4 r3) as H3.
  destruct (Dto.read_class Js.is_digit 4 r3) as [n3 r4].
  cbn [fst snd String.length] in *.
  repeat (apply andb_true_iff in H; destruct H as [H ?]).
  match goal with E : String.eqb r4 "" = true |- _ =>
    apply String.eqb_eq in E; subst r4 end.
  repeat match goal with E : (_ <=? _)%nat = true |- _ =>
    apply Nat.leb_le in E end.
  cbn [String.length] in *. split; [lia|]. rewrite Nat.leb_gt. lia.
Qed.

Lemma identifikationsNummer_length_witness :
  Dto.identifikationsNummer_valid "ABC-DEF1234" = false
  /\ Dto.identifikationsNummer_valid "KA-AB123" = true.
Proof.
  split; [|reflexivity].
  apply (proj2 (identifikationsNummer_length "ABC-DEF1234" eq_refl)).
  reflexivity.
Defined.

(* ================================================================== *)
(** * Properties of reading over REST *)

Lemma to_int_norm (z : Z) : Z.to_int z = Decimal.norm (Z.to_int z).
Proof. rewrite <- DecimalZ.to_of. now rewrite DecimalZ.of_to. Qed.

Lemma Number_toString_inj (a b : Z) :
  AutoController.Number_toString a = AutoController.Number_toString b -> a = b.
Proof.
  unfold AutoController.Number_toString. intros H.
  apply DecimalZ.to_int_inj.
  assert (E : forall z,
            DecimalString.NilZero.int_of_string
              (DecimalString.NilZero.string_of_int (Z.to_int z))
            = Some (Z.to_int z)).
  { intros z. apply DecimalString.NilZero.isi; intros E;
      pose proof (to_int_norm z) as N; rewrite E in N; discriminate N. }
  pose proof (E a) as Ea. rewrite H, E in Ea. congruence.
Qed.

Lemma quoted_inj (a b : string) : Js.quoted a = Js.quoted b -> a = b.
Proof.
  unfold Js.quoted. intros [= H]. revert b H.
  induction a as [|c a IH]; intros [|d b] H; cbn [append] in H.
  - reflexivity.
  - destruct b; discriminate H.
  - destruct a; discriminate H.
  - injection H as -> H. f_equal. now apply IH.
Qed.

Lemma etag_of_inj (a b : Z) : etag_of a = etag_of b -> a = b.
Proof. intros H. now apply Number_toString_inj, quoted_inj. Qed.

Lemma getById_run (i : Z) (h : option string) (st : Store) (a : Auto) :
  List.find (Prisma.has_id i) (autos st) = Some a ->
  AutoController.getById i true h st =
  (Ok (if match h with
          | Some v => String.eqb v (etag_of (version a))
          | None => false
          end
       then AutoController.sendStatus AutoController.NOT_MODIFIED
       else AutoController.json (etag_of (version a)) (as_read a)), st).
Proof.
  intros Hf. unfold AutoController.getById, bind, ret. cbn [negb].
  rewrite findById_run, Hf. cbv zeta.
  rewrite version_default_schlagwoerter, version_included.
  unfold etag_of, as_read. now destruct (match h with Some _ => _ | None => _ end).
Qed.

(** X24: For a vehicle of the table, [getById] answers 'not modified' exactly
    when the header [If-None-Match] is the stored version between quotes.
    The tag of any other version, and no header, get the vehicle with the
    tag of the stored version; nothing is looked up when the client does
    not accept JSON or HTML. *)
Theorem getById_not_modified (i : Z) (h : option string) (st : Store) (a : Auto) :
  List.find (Prisma.has_id i) (autos st) = Some a ->
  (fst (AutoController.getById i true h st)
   = Ok (AutoController.sendStatus AutoController.NOT_MODIFIED)
   <-> h = Some (etag_of (version a)))
  /\ (forall v, v <> version a ->
        fst (AutoController.getById i true (Some (etag_of v)) st)
        = Ok (AutoController.json (etag_of (version a)) (as_read a)))
  /\ fst (AutoController.getById i true None st)
     = Ok (AutoController.json (etag_of (version a)) (as_read a))
  /\ AutoController.getById i false h st
     = (Ok (AutoController.sendStatus AutoController.NOT_ACCEPTABLE), st).
Proof.
  intros Hf. split; [|split; [|split]].
  - rewrite (getById_run i h st a Hf). cbn [fst]. destruct h as [v|].
    + destruct (String.eqb_spec v (etag_of (version a))) as [->|Hne].
      * tauto.
      * split; [discriminate|congruence].
    + split; discriminate.
  - intros v Hv. rewrite (getById_run i _ st a Hf). cbn [fst].
    destruct (String.eqb_spec (etag_of v) (etag_of (version a))) as [E|_];
      [|reflexivity].
    now apply etag_of_inj in E.
  - now rewrite (getById_run i None st a Hf).
  - reflexivity.
Qed.

Lemma getById_not_modified_witness :
  fst (AutoController.getById 2 true (Some (Js.quoted "3")) Example_db.db)
  = Ok (AutoController.sendStatus AutoController.NOT_MODIFIED).
Proof.
  apply (proj1 (getById_not_modified 2 (Some (Js.quoted "3")) Example_db.db
                  Example_db.auto2 eq_refl)).
  reflexivity.
Defined.

(** ** Reading, then updating *)

Lemma three_digits_upto_999 :
  forallb three_digits (map Z.of_nat (seq 0 1000)) = true.
Proof. vm_compute. reflexivity. Qed.

Lemma three_digits_spec (v : Z) :
  0 <= v <= 999 ->
  all_digits (AutoController.Number_toString v) = true
  /\ (1 <= String.length (AutoController.Number_toString v) <= 3)%nat
  /\ decimal_value 0 (AutoController.Number_toString v) = v.
Proof.
  intros Hv. pose proof three_digits_upto_999 as H.
  rewrite forallb_forall in H. specialize (H v).
  assert (Hin : In v (map Z.of_nat (seq 0 1000))).
  { apply in_map_iff. exists (Z.to_nat v). split; [lia|]. apply in_seq. lia. }
  apply H in Hin. unfold three_digits in Hin.
  repeat (apply andb_true_iff in Hin; destruct Hin as [Hin ?]).
  repeat match goal with
         | E : (_ <=? _)%nat = true |- _ => apply Nat.leb_le in E
         | E : (_ =? _) = true |- _ => apply Z.eqb_eq in E
         end.
  auto.
Qed.

(** X25: For a vehicle whose stored version is between 0 and 999: the tag that
    [getById] sends is a version text that [update] takes, and the update
    returns the version plus 1.  Afterwards the old tag is stale: [getById]
    with the old tag sends the vehicle again, under the new tag, and a
    second [update] with the old tag throws [VersionOutdatedException]. *)
Theorem read_then_update (i : Z) (u u2 : AutoUpdate) (st : Store) (a : Auto) :
  List.find (Prisma.has_id i) (autos st) = Some a ->
  0 <= version a <= 999 ->
  let e := etag_of (version a) in
  let r := AutoWriteService.update (Some i) u e st in
  fst (AutoController.getById i true None st)
  = Ok (AutoController.json e (as_read a))
  /\ fst r = Ok (Js.of_Z (version a + 1))
  /\ (exists a',
        fst (AutoController.getById i true (Some e) (snd r))
        = Ok (AutoController.json (etag_of (version a + 1)) a'))
  /\ fst (AutoWriteService.update (Some i) u2 e (snd r))
     = Err (VersionOutdatedException (Js.of_Z (version a))).
Proof.
  intros Hf Hv. cbv zeta.
  destruct (three_digits_spec (version a) Hv) as (Hd & Hl & Hval).
  unfold etag_of.
  rewrite (update_quoted_run i u _ st Hd Hl), Hf, Hval, Z.ltb_irrefl.
  cbn [fst snd].
  assert (Hf' : List.find (Prisma.has_id i)
                  (autos (autos_updated (with_version (increment 1) u) i st))
                = Some (Prisma.updated (with_version (increment 1) u) a)).
  { cbn [autos_updated autos]. now apply find_updated. }
  split; [|split; [reflexivity|split]].
  - now rewrite (getById_run i None st a Hf).
  - eexists. rewrite (getById_run i _ _ _ Hf'). cbn [fst].
    fold (etag_of (version a)).
    destruct (String.eqb_spec (etag_of (version a))
                (etag_of (version (Prisma.updated (with_version (increment 1) u) a))))
      as [E|_].
    + apply etag_of_inj in E. cbn in E. lia.
    + reflexivity.
  - rewrite (update_quoted_run i u2 _ _ Hd Hl), Hf', Hval.
    replace (version a <? version (Prisma.updated (with_version (increment 1) u) a))
      with true by (symmetry; apply Z.ltb_lt; cbn; lia).
    reflexivity.
Qed.

Lemma read_then_update_witness :
  fst (AutoWriteService.update (Some 2) Example_db.geaendert (etag_of 3)
         Example_db.db)
  = Ok (Js.of_Z 4).
Proof.
  refine (proj1 (proj2 (read_then_update 2 Example_db.geaendert
                          Example_db.geaendert Example_db.db Example_db.auto2
                          eq_refl _))).
  simpl; lia.
Defined.
